(** * Repair-request tracking: the import and store operations, verified

    A shallow embedding of the two programs of the repository:

    - [Work_DB.py]: class [RepairSystemDatabase] (normalised store, module
      [WorkDB] below);
    - [App_files/App.py]: the web application with its denormalised store
      (module [App]) and its schema repair (module [Migration]).

    SQL statements are modelled by their effect on tables held as lists of
    rows; exceptions are values of [exn]; code that threads a connection and
    may raise runs in the state-and-exception monad [M]. *)

From Stdlib Require Import ZArith String Ascii List Bool Lia.
From stdpp Require Import base option list gmap strings pretty.
Import ListNotations.

Local Open Scope string_scope.
Local Open Scope Z_scope.
Local Open Scope list_scope.

(** ** Values shared by both programs *)

(** A value stored in a column. *)
Inductive value :=
| VNull
| VInt (z : Z)
| VText (s : string).

Global Instance value_eq_dec : EqDecision value.
Proof. solve_decision. Defined.

(** A [pd.Timestamp]. *)
Record timestamp := {
  ts_year : Z; ts_month : Z; ts_day : Z;
  ts_hour : Z; ts_minute : Z; ts_second : Z
}.

(** A spreadsheet cell as pandas hands it to the loop body: [NaN] for an empty
    cell, a number, a string or a timestamp. *)
Inductive cell :=
| NaN
| Num (z : Z)
| Text (s : string)
| Stamp (t : timestamp).

(** Exceptions the modelled code can raise. *)
Inductive exn :=
| KeyError (key : string)
| ValueError
| TypeError
| InterfaceError
| IntegrityError (what : string)
| OperationalError (what : string)
| FileNotFoundError.

(** *** Python helpers *)

(** [pd.notna(c)] *)
Definition notna (c : cell) : bool :=
  match c with NaN => false | _ => true end.

Definition digit_char (z : Z) : ascii :=
  ascii_of_nat (Z.to_nat (48 + z mod 10)).

Definition pad2 (z : Z) : string :=
  String (digit_char (z / 10)) (String (digit_char z) EmptyString).

Definition pad4 (z : Z) : string :=
  String (digit_char (z / 1000)) (String (digit_char (z / 100)) (pad2 z)).

(** [t.strftime('%Y-%m-%d %H:%M:%S')], which is also [str(t)] for a timestamp
    without fractional seconds. *)
Definition strftime (t : timestamp) : string :=
  pad4 (ts_year t) +:+ "-" +:+ pad2 (ts_month t) +:+ "-" +:+ pad2 (ts_day t)
  +:+ " " +:+ pad2 (ts_hour t) +:+ ":" +:+ pad2 (ts_minute t)
  +:+ ":" +:+ pad2 (ts_second t).

(** [str(c)] *)
Definition py_str (c : cell) : string :=
  match c with
  | NaN => "nan"
  | Num z => pretty z
  | Text s => s
  | Stamp t => strftime t
  end.

Definition is_digit (a : ascii) : bool :=
  let n := nat_of_ascii a in (Nat.leb 48 n && Nat.leb n 57)%bool.

Definition digit_val (a : ascii) : Z := Z.of_nat (nat_of_ascii a) - 48.

(** Decimal digits to a number, most significant first. *)
Fixpoint digits_val (acc : Z) (s : string) : option Z :=
  match s with
  | EmptyString => Some acc
  | String a s' =>
      if is_digit a then digits_val (10 * acc + digit_val a) s' else None
  end.

(** [int(s)] for a string: an optional sign followed by decimal digits. *)
Definition int_of_string (s : string) : option Z :=
  match s with
  | EmptyString => None
  | String "-" (String a s') => Z.opp <$> digits_val 0 (String a s')
  | String "+" (String a s') => digits_val 0 (String a s')
  | _ => digits_val 0 s
  end.

(** [int(c)]: [ValueError] on NaN and on a string that is not a number,
    [TypeError] on a timestamp. *)
Definition py_int (c : cell) : exn + Z :=
  match c with
  | NaN => inl ValueError
  | Num z => inr z
  | Text s => match int_of_string s with Some z => inr z | None => inl ValueError end
  | Stamp _ => inl TypeError
  end.

(** Truth value of an optional integer: [None] and [0] are false. *)
Definition truthy (o : option Z) : bool :=
  match o with Some z => negb (z =? 0) | None => false end.

(** A row of a data frame, by column name; [row[c]] raises [KeyError] when the
    frame has no such column. *)
Definition row_get (r : gmap string cell) (c : string) : exn + cell :=
  match r !! c with Some v => inr v | None => inl (KeyError c) end.

Record dataframe := {
  df_columns : list string;
  df_rows : list (gmap string cell)
}.

(** Rows with their index label; the default index counts from 0. *)
Fixpoint iterrows_from (i : Z) (rows : list (gmap string cell))
  : list (Z * gmap string cell) :=
  match rows with
  | [] => []
  | r :: rest => (i, r) :: iterrows_from (i + 1) rest
  end.

Definition iterrows (df : dataframe) : list (Z * gmap string cell) :=
  iterrows_from 0 (df_rows df).

(** How the sqlite3 module binds a cell passed as a statement parameter: a
    number and a string are bound as they are, a float NaN is bound as NULL,
    a [pd.Timestamp] is not a supported type. *)
Definition bind_cell (c : cell) : exn + value :=
  match c with
  | NaN => inr VNull
  | Num z => inr (VInt z)
  | Text s => inr (VText s)
  | Stamp _ => inl InterfaceError
  end.

(** A bound cell stored in a TEXT column: text affinity turns a number into
    its decimal text. *)
Definition bind_text (c : cell) : exn + option string :=
  match c with
  | NaN => inr None
  | Num z => inr (Some (pretty z))
  | Text s => inr (Some s)
  | Stamp _ => inl InterfaceError
  end.

(** ** The state-and-exception monad

    A computation reads and writes a state [S] and either returns or raises;
    when it raises, the state reached so far is kept, as a connection keeps
    the statements already executed. *)
Definition M (S A : Type) : Type := S -> (exn + A) * S.

Definition ret {S A} (a : A) : M S A := fun s => (inr a, s).

Definition raise {S A} (e : exn) : M S A := fun s => (inl e, s).

Definition bind {S A B} (m : M S A) (k : A -> M S B) : M S B :=
  fun s =>
    match m s with
    | (inr a, s') => k a s'
    | (inl e, s') => (inl e, s')
    end.

Definition get {S} : M S S := fun s => (inr s, s).
Definition put {S} (s : S) : M S unit := fun _ => (inr tt, s).
Definition modify {S} (f : S -> S) : M S unit := fun s => (inr tt, f s).

(** Lift a pure computation that may raise. *)
Definition lift {S A} (r : exn + A) : M S A :=
  match r with inr a => ret a | inl e => raise e end.

(** [try: m except Exception as e: h e] *)
Definition try_except {S A} (m : M S A) (h : exn -> M S A) : M S A :=
  fun s =>
    match m s with
    | (inr a, s') => (inr a, s')
    | (inl e, s') => h e s'
    end.

Declare Scope monad_scope.
Delimit Scope monad_scope with monad.
Notation "x <- m ;; k" := (bind m (fun x => k))
  (at level 100, m at next level, right associativity) : monad_scope.
Notation "m ;;; k" := (bind m (fun _ => k))
  (at level 100, right associativity) : monad_scope.

(** [for x in l: body x] *)
Fixpoint for_each {S B} (l : list B) (body : B -> M S unit) : M S unit :=
  match l with
  | [] => ret tt
  | x :: rest => bind (body x) (fun _ => for_each rest body)
  end.

(** A computation that leaves the state as it found it, whatever it
    returns or raises. *)
Definition reads_only {S A} (m : M S A) : Prop :=
  forall s r s1, m s = (r, s1) -> s1 = s.

(** A computation that has changed nothing when it raises. *)
Definition raises_clean {S A} (m : M S A) : Prop :=
  forall s e s1, m s = (inl e, s1) -> s1 = s.

(** A computation that always returns. *)
Definition never_raises {S A} (m : M S A) : Prop :=
  forall s, exists a s1, m s = (inr a, s1).

(** ** Tables *)

(** A table with an AUTOINCREMENT key: its rows in insertion order and the
    largest key handed out so far (the table's entry in sqlite_sequence). *)
Record table (A : Type) := { rows : list A; seq : Z }.
Arguments rows {A} _.
Arguments seq {A} _.

Definition empty_table {A} : table A := {| rows := []; seq := 0 |}.

(** The key given to a row inserted without one. *)
Definition next_rowid {A} (key : A -> Z) (t : table A) : Z :=
  1 + fold_right Z.max (Z.max 0 (seq t)) (map key (rows t)).

Definition append_row {A} (key : A -> Z) (r : A) (t : table A) : table A :=
  {| rows := rows t ++ [r]; seq := Z.max (seq t) (key r) |}.

Definition delete_rows {A} (p : A -> bool) (t : table A) : table A :=
  {| rows := List.filter (fun r => negb (p r)) (rows t); seq := seq t |}.

Definition update_rows {A} (p : A -> bool) (f : A -> A) (t : table A) : table A :=
  {| rows := map (fun r => if p r then f r else r) (rows t); seq := seq t |}.

(** What [os.path.exists] and [pd.read_excel] find at a path. *)
Inductive file :=
| Missing
| Unreadable (e : exn)
| Sheet (df : dataframe).

(** [pd.read_excel(path)] *)
Definition read_excel (f : file) : exn + dataframe :=
  match f with
  | Missing => inl FileNotFoundError
  | Unreadable e => inl e
  | Sheet df => inr df
  end.

(** The NOT NULL check of a column at INSERT. *)
Definition not_null {S A} (column : string) (o : option A) : M S A :=
  match o with
  | Some a => ret a
  | None => raise (IntegrityError column)
  end.

Definition not_null_value {S} (column : string) (v : value) : M S value :=
  match v with
  | VNull => raise (IntegrityError column)
  | _ => ret v
  end.

(** ** Calendar dates as [datetime.strptime] and [datetime] subtraction see
    them *)
Module Dates.

Record date := { year : Z; month : Z; day : Z }.

Definition is_leap (y : Z) : bool :=
  ((y mod 4 =? 0) && (negb (y mod 100 =? 0) || (y mod 400 =? 0)))%bool.

Definition days_in_month (y m : Z) : Z :=
  if m =? 2 then (if is_leap y then 29 else 28)
  else if (m =? 4) || (m =? 6) || (m =? 9) || (m =? 11) then 30
  else 31.

(** What the [datetime] constructor accepts. *)
Definition valid_date (d : date) : bool :=
  ((1 <=? year d) && (year d <=? 9999) &&
   (1 <=? month d) && (month d <=? 12) &&
   (1 <=? day d) && (day d <=? days_in_month (year d) (month d)))%bool.

(** Days in the months before month [m] of year [y]. *)
Definition days_before_month (y m : Z) : Z :=
  let feb := if is_leap y then 29 else 28 in
  if m <=? 1 then 0
  else if m =? 2 then 31
  else if m =? 3 then 31 + feb
  else if m =? 4 then 62 + feb
  else if m =? 5 then 92 + feb
  else if m =? 6 then 123 + feb
  else if m =? 7 then 153 + feb
  else if m =? 8 then 184 + feb
  else if m =? 9 then 215 + feb
  else if m =? 10 then 245 + feb
  else if m =? 11 then 276 + feb
  else 306 + feb.

Definition days_before_year (y : Z) : Z :=
  let p := y - 1 in p * 365 + p / 4 - p / 100 + p / 400.

(** [d.toordinal()]: 1 for 0001-01-01. *)
Definition toordinal (d : date) : Z :=
  days_before_year (year d) + days_before_month (year d) (month d) + day d.

(** [(b - a).days] for two dates at midnight. *)
Definition days_between (a b : date) : Z := toordinal b - toordinal a.

(** The month directive [%m]: two digits 01..12, or one digit 1..9. *)
Definition parse_month (s : string) : option Z :=
  match s with
  | String a EmptyString =>
      if is_digit a && negb (digit_val a =? 0) then Some (digit_val a) else None
  | String a (String b EmptyString) =>
      if (is_digit a && is_digit b)%bool then
        let v := 10 * digit_val a + digit_val b in
        if (1 <=? v) && (v <=? 12) then Some v else None
      else None
  | _ => None
  end.

(** The day directive [%d]: two digits 01..31, one digit 1..9, or a space
    and one digit 1..9. *)
Definition parse_day (s : string) : option Z :=
  match s with
  | String a EmptyString =>
      if is_digit a && negb (digit_val a =? 0) then Some (digit_val a) else None
  | String a (String b EmptyString) =>
      if (is_digit a && is_digit b)%bool then
        let v := 10 * digit_val a + digit_val b in
        if (1 <=? v) && (v <=? 31) then Some v else None
      else if (Ascii.eqb a " " && is_digit b && negb (digit_val b =? 0))%bool
      then Some (digit_val b)
      else None
  | _ => None
  end.

(** The text before the first ["-"] and the text after it. *)
Fixpoint split_dash (s : string) : option (string * string) :=
  match s with
  | EmptyString => None
  | String a s' =>
      if Ascii.eqb a "-" then Some (EmptyString, s')
      else match split_dash s' with
           | Some (l, r) => Some (String a l, r)
           | None => None
           end
  end.

(** [datetime.strptime(s, '%Y-%m-%d')]: [None] stands for the [ValueError]
    raised when [s] does not match the format or names no calendar day. *)
Definition strptime (s : string) : option date :=
  match s with
  | String y1 (String y2 (String y3 (String y4 (String "-" rest)))) =>
      if (is_digit y1 && is_digit y2 && is_digit y3 && is_digit y4)%bool then
        let y := 1000 * digit_val y1 + 100 * digit_val y2
                 + 10 * digit_val y3 + digit_val y4 in
        match split_dash rest with
        | Some (ms, ds) =>
            match parse_month ms, parse_day ds with
            | Some m, Some d =>
                let dt := {| year := y; month := m; day := d |} in
                if valid_date dt then Some dt else None
            | _, _ => None
            end
        | None => None
        end
      else None
  | _ => None
  end.

(** [s[:n]] *)
Fixpoint take_prefix (n : nat) (s : string) : string :=
  match n, s with
  | O, _ => EmptyString
  | _, EmptyString => EmptyString
  | S n', String a s' => String a (take_prefix n' s')
  end.



End Dates.


(** ** App_files/App.py: the web application and its loader *)
Module App.

(** *** Tables (CREATE TABLE statements of [create_tables_from_scratch])

    A column declared NOT NULL holds a plain value, a nullable column an
    option. The [created_at] and [updated_at] columns, which only the engine
    clock fills, are left out: no modelled statement reads them. *)

Record user := {
  u_id : Z;
  u_login : string;
  u_password_hash : string;
  u_fio : string;
  u_phone : option string;
  u_user_type : string
}.

Record master := {
  m_id : Z;
  m_user_id : option Z;
  m_fio : string;
  m_phone : option string;
  m_login : option string;
  m_type : option string
}.

Record request := {
  r_id : Z;
  r_request_id : Z;
  r_start_date : value;
  r_tech_type : string;
  r_tech_model : string;
  r_problem_description : string;
  r_request_status : string;
  r_completion_date : value;
  r_days_in_process : option Z;
  r_repair_parts : option string;
  r_has_comment : bool;
  r_master_id : option Z;
  r_master_fio : option string;
  r_master_phone : option string;
  r_master_login : option string;
  r_master_type : option string;
  r_client_id : option Z;
  r_client_fio : string;
  r_client_phone : string;
  r_client_login : option string;
  r_client_type : option string
}.

Record comment := {
  c_id : Z;
  c_comment_id : option Z;
  c_request_id : Z;
  c_master_id : option Z;
  c_user_id : option Z;
  c_user_fio : option string;
  c_user_type : option string;
  c_message : string
}.

Record history := {
  h_id : Z;
  h_request_id : Z;
  h_old_status : option string;
  h_new_status : string;
  h_changed_by : string;
  h_comment : option string
}.

Record store := {
  users : table user;
  masters : table master;
  service_requests : table request;
  comments : table comment;
  status_history : table history
}.

Definition empty_store : store :=
  {| users := empty_table; masters := empty_table;
     service_requests := empty_table; comments := empty_table;
     status_history := empty_table |}.

Definition set_users (t : table user) (s : store) : store :=
  {| users := t; masters := masters s; service_requests := service_requests s;
     comments := comments s; status_history := status_history s |}.
Definition set_masters (t : table master) (s : store) : store :=
  {| users := users s; masters := t; service_requests := service_requests s;
     comments := comments s; status_history := status_history s |}.
Definition set_service_requests (t : table request) (s : store) : store :=
  {| users := users s; masters := masters s; service_requests := t;
     comments := comments s; status_history := status_history s |}.
Definition set_comments (t : table comment) (s : store) : store :=
  {| users := users s; masters := masters s;
     service_requests := service_requests s;
     comments := t; status_history := status_history s |}.
Definition set_status_history (t : table history) (s : store) : store :=
  {| users := users s; masters := masters s;
     service_requests := service_requests s;
     comments := comments s; status_history := t |}.

(** *** Console output *)
Inductive event :=
| FileNotFound (path : string)
| RecordsRead (n : nat)
| UserAdded (login : cell) (user_type : string)
| UserRowError (idx : Z) (e : exn)
| UsersLoaded (n : nat)
| UsersLoadError (e : exn)
| DefaultUsersCreated
| RequestRowError (idx : Z) (e : exn)
| RequestsLoaded (n : nat)
| RequestsLoadError (e : exn)
| CommentAdded (comment_id request_id master_id : option Z)
| CommentRowError (idx : Z) (e : exn)
| CommentsLoaded (n : nat)
| CommentsLoadError (e : exn).

(** The connection's view of the store, and what was printed. *)
Record state := { db : store; out : list event }.

Definition print (e : event) : M state unit :=
  modify (fun s => {| db := db s; out := out s ++ [e] |}).

(** A statement that cannot fail. *)
Definition execute (f : store -> store) : M state unit :=
  modify (fun s => {| db := f (db s); out := out s |}).

(** A query. *)
Definition query {A} (f : store -> A) : M state A :=
  fun s => (inr (f (db s)), s).

(** [f(row[c]) if pd.notna(row[c]) else d] *)
Definition cell_if_notna {A} (r : gmap string cell) (c : string)
    (f : cell -> exn + A) (d : A) : exn + A :=
  match row_get r c with
  | inl e => inl e
  | inr v => if notna v then f v else inr d
  end.

Definition opt_int (c : cell) : exn + option Z :=
  match py_int c with inl e => inl e | inr z => inr (Some z) end.

Definition as_cell (c : cell) : exn + cell := inr c.
Definition as_str (c : cell) : exn + string := inr (py_str c).

(** [bool(c)] *)
Definition py_bool (c : cell) : bool :=
  match c with
  | Num z => negb (z =? 0)
  | Text s => negb (String.eqb s "")
  | _ => true
  end.

(** *** Statements *)

Definition find_user_by_id (id : option Z) (s : store) : option user :=
  match id with
  | Some i => List.find (fun u => u_id u =? i) (rows (users s))
  | None => None
  end.

Definition find_user_by_login (login : string) (s : store) : option user :=
  List.find (fun u => String.eqb (u_login u) login) (rows (users s)).

Definition find_master_by_id (id : option Z) (s : store) : option master :=
  match id with
  | Some i => List.find (fun m => m_id m =? i) (rows (masters s))
  | None => None
  end.

Definition opt_eqb (o : option string) (x : string) : bool :=
  match o with Some y => String.eqb y x | None => false end.

Definition opt_Z_eqb (o : option Z) (x : Z) : bool :=
  match o with Some y => y =? x | None => false end.

(** INSERT OR REPLACE INTO users (id, login, ...): the rows with the same id
    or the same login are deleted first. *)
Definition insert_or_replace_user (u : user) (s : store) : store :=
  set_users
    (append_row u_id u
       (delete_rows (fun r => (u_id r =? u_id u) || String.eqb (u_login r) (u_login u))
          (users s))) s.

(** INSERT OR REPLACE INTO masters (user_id, master_fio, ...): the key is
    assigned, a row with the same master_login is deleted first. *)
Definition insert_or_replace_master (user_id : Z) (fio : string)
    (phone login mtype : string) (s : store) : store :=
  let t := delete_rows (fun r => opt_eqb (m_login r) login) (masters s) in
  let m := {| m_id := next_rowid m_id (masters s); m_user_id := Some user_id;
              m_fio := fio; m_phone := Some phone; m_login := Some login;
              m_type := Some mtype |} in
  set_masters (append_row m_id m t) s.

(** INSERT OR IGNORE INTO users (login, ...): nothing happens when the login
    is taken. *)
Definition insert_or_ignore_user (login password_hash fio phone user_type : string)
    (s : store) : store :=
  if existsb (fun r => String.eqb (u_login r) login) (rows (users s)) then s
  else
    set_users
      (append_row u_id
         {| u_id := next_rowid u_id (users s); u_login := login;
            u_password_hash := password_hash; u_fio := fio;
            u_phone := Some phone; u_user_type := user_type |}
         (users s)) s.

(** INSERT OR IGNORE INTO masters (user_id, ...): nothing happens when the
    master_login is taken. *)
Definition insert_or_ignore_master (user_id : Z) (fio phone login mtype : string)
    (s : store) : store :=
  if existsb (fun r => opt_eqb (m_login r) login) (rows (masters s)) then s
  else
    set_masters
      (append_row m_id
         {| m_id := next_rowid m_id (masters s); m_user_id := Some user_id;
            m_fio := fio; m_phone := Some phone; m_login := Some login;
            m_type := Some mtype |}
         (masters s)) s.

Definition with_request_key (id : Z) (r : request) : request :=
  {| r_id := id; r_request_id := r_request_id r; r_start_date := r_start_date r;
     r_tech_type := r_tech_type r; r_tech_model := r_tech_model r;
     r_problem_description := r_problem_description r;
     r_request_status := r_request_status r;
     r_completion_date := r_completion_date r;
     r_days_in_process := r_days_in_process r;
     r_repair_parts := r_repair_parts r; r_has_comment := r_has_comment r;
     r_master_id := r_master_id r; r_master_fio := r_master_fio r;
     r_master_phone := r_master_phone r; r_master_login := r_master_login r;
     r_master_type := r_master_type r; r_client_id := r_client_id r;
     r_client_fio := r_client_fio r; r_client_phone := r_client_phone r;
     r_client_login := r_client_login r; r_client_type := r_client_type r |}.

(** INSERT OR REPLACE INTO service_requests (request_id, ...): the key is
    assigned, a row with the same request_id is deleted first. The table
    declares no CHECK constraint. *)
Definition insert_or_replace_request (r : request) (s : store) : store :=
  let t := delete_rows (fun x => r_request_id x =? r_request_id r) (service_requests s) in
  set_service_requests
    (append_row r_id (with_request_key (next_rowid r_id (service_requests s)) r) t) s.

(** INSERT INTO service_requests: a taken request_id violates UNIQUE. *)
Definition insert_request (r : request) (s : store) : exn + store :=
  if existsb (fun x => r_request_id x =? r_request_id r) (rows (service_requests s))
  then inl (IntegrityError "service_requests.request_id")
  else inr (set_service_requests
              (append_row r_id
                 (with_request_key (next_rowid r_id (service_requests s)) r)
                 (service_requests s)) s).

(** INSERT [OR REPLACE] INTO comments without a key: the key is assigned and
    no constraint can conflict. *)
Definition insert_comment (comment_id : option Z) (request_id : Z)
    (master_id user_id : option Z) (user_fio user_type : option string)
    (message : string) (s : store) : store :=
  set_comments
    (append_row c_id
       {| c_id := next_rowid c_id (comments s); c_comment_id := comment_id;
          c_request_id := request_id; c_master_id := master_id;
          c_user_id := user_id; c_user_fio := user_fio;
          c_user_type := user_type; c_message := message |}
       (comments s)) s.

Definition with_has_comment (b : bool) (r : request) : request :=
  {| r_id := r_id r; r_request_id := r_request_id r; r_start_date := r_start_date r;
     r_tech_type := r_tech_type r; r_tech_model := r_tech_model r;
     r_problem_description := r_problem_description r;
     r_request_status := r_request_status r;
     r_completion_date := r_completion_date r;
     r_days_in_process := r_days_in_process r;
     r_repair_parts := r_repair_parts r; r_has_comment := b;
     r_master_id := r_master_id r; r_master_fio := r_master_fio r;
     r_master_phone := r_master_phone r; r_master_login := r_master_login r;
     r_master_type := r_master_type r; r_client_id := r_client_id r;
     r_client_fio := r_client_fio r; r_client_phone := r_client_phone r;
     r_client_login := r_client_login r; r_client_type := r_client_type r |}.

(** UPDATE service_requests SET has_comment = 1 WHERE request_id = ? *)
Definition set_has_comment (request_id : Z) (s : store) : store :=
  set_service_requests
    (update_rows (fun r => r_request_id r =? request_id) (with_has_comment true)
       (service_requests s)) s.

Definition with_repair_parts (p : option string) (r : request) : request :=
  {| r_id := r_id r; r_request_id := r_request_id r; r_start_date := r_start_date r;
     r_tech_type := r_tech_type r; r_tech_model := r_tech_model r;
     r_problem_description := r_problem_description r;
     r_request_status := r_request_status r;
     r_completion_date := r_completion_date r;
     r_days_in_process := r_days_in_process r;
     r_repair_parts := p; r_has_comment := r_has_comment r;
     r_master_id := r_master_id r; r_master_fio := r_master_fio r;
     r_master_phone := r_master_phone r; r_master_login := r_master_login r;
     r_master_type := r_master_type r; r_client_id := r_client_id r;
     r_client_fio := r_client_fio r; r_client_phone := r_client_phone r;
     r_client_login := r_client_login r; r_client_type := r_client_type r |}.

(** UPDATE service_requests
    SET repair_parts = COALESCE(repair_parts || ', ', '') || ?
    WHERE request_id = ? *)
Definition append_repair_parts (request_id : Z) (parts : string) (s : store) : store :=
  set_service_requests
    (update_rows (fun r => r_request_id r =? request_id)
       (fun r => with_repair_parts
                   (Some (match r_repair_parts r with
                          | Some old => old +:+ ", " +:+ parts
                          | None => parts
                          end)) r)
       (service_requests s)) s.

Definition with_master (id : Z) (m : master) (r : request) : request :=
  {| r_id := r_id r; r_request_id := r_request_id r; r_start_date := r_start_date r;
     r_tech_type := r_tech_type r; r_tech_model := r_tech_model r;
     r_problem_description := r_problem_description r;
     r_request_status := "В процессе ремонта";
     r_completion_date := r_completion_date r;
     r_days_in_process := r_days_in_process r;
     r_repair_parts := r_repair_parts r; r_has_comment := r_has_comment r;
     r_master_id := Some id; r_master_fio := Some (m_fio m);
     r_master_phone := m_phone m; r_master_login := m_login m;
     r_master_type := r_master_type r; r_client_id := r_client_id r;
     r_client_fio := r_client_fio r; r_client_phone := r_client_phone r;
     r_client_login := r_client_login r; r_client_type := r_client_type r |}.

(** UPDATE service_requests SET master_id = ?, master_fio = ?, ...,
    request_status = 'В процессе ремонта' WHERE request_id = ? *)
Definition set_request_master (request_id master_id : Z) (m : master) (s : store) : store :=
  set_service_requests
    (update_rows (fun r => r_request_id r =? request_id) (with_master master_id m)
       (service_requests s)) s.

(** INSERT INTO status_history (request_id, old_status, new_status,
    changed_by, comment) *)
Definition insert_status_history (request_id : Z) (old_status new_status changed_by note : string)
    (s : store) : store :=
  set_status_history
    (append_row h_id
       {| h_id := next_rowid h_id (status_history s); h_request_id := request_id;
          h_old_status := Some old_status; h_new_status := new_status;
          h_changed_by := changed_by; h_comment := Some note |}
       (status_history s)) s.

(** *** The loader *)
Section Loader.

(** [werkzeug.security.generate_password_hash] and the text of
    [datetime.now().strftime('%Y-%m-%d %H:%M:%S')]. *)
Variable generate_password_hash : string -> string.
Variable now : string.

Local Open Scope monad_scope.

Definition default_users : list (string * string * string * string * string) :=
  [ ("admin", "admin123", "Администратор Системы", "88001234567", "admin");
    ("manager1", "manager123", "Менеджер 1", "89501112233", "admin");
    ("master1", "master123", "Мастер 1", "89502223344", "master");
    ("master2", "master123", "Мастер 2", "89503334455", "master");
    ("operator1", "operator123", "Оператор 1", "89504445566", "operator");
    ("client1", "client123", "Клиент 1", "89151234567", "client");
    ("client2", "client123", "Клиент 2", "89152345678", "client") ].

Definition create_default_user
    (u : string * string * string * string * string) : M state unit :=
  let '(login, password, fio, phone, user_type) := u in
  let password_hash := generate_password_hash password in
  execute (insert_or_ignore_user login password_hash fio phone user_type) ;;;
  if String.eqb user_type "master" then
    user_row <- query (find_user_by_login login) ;;
    match user_row with
    | Some r => execute (insert_or_ignore_master (u_id r) fio phone login "Мастер")
    | None => ret tt
    end
  else ret tt.

Definition create_default_users : M state unit :=
  for_each default_users create_default_user ;;;
  print DefaultUsersCreated.

Definition type_mapping (c : cell) : string :=
  match c with
  | Text s =>
      if String.eqb s "Менеджер" then "admin"
      else if String.eqb s "Мастер" then "master"
      else if String.eqb s "Оператор" then "operator"
      else if String.eqb s "Заказчик" then "client"
      else "client"
  | _ => "client"
  end.

(** The body of the loop of [load_users_from_xlsx]. *)
Definition load_user_row (idx : Z) (row : gmap string cell) : M state unit :=
  user_id <- lift (cell_if_notna row "userID" py_int (idx + 1)) ;;
  user_type_excel <- lift (cell_if_notna row "type" as_cell (Text "Заказчик")) ;;
  let user_type := type_mapping user_type_excel in
  password <- lift (cell_if_notna row "password" as_str "password123") ;;
  let password_hash := generate_password_hash password in
  login <- lift (cell_if_notna row "login" as_cell (Text ("user" +:+ pretty (idx + 1)))) ;;
  fio <- lift (cell_if_notna row "fio" as_cell (Text ("Пользователь " +:+ pretty (idx + 1)))) ;;
  phone <- lift (cell_if_notna row "phone" as_str "") ;;
  login_v <- lift (bind_text login) ;;
  fio_v <- lift (bind_text fio) ;;
  login_s <- not_null "users.login" login_v ;;
  fio_s <- not_null "users.fio" fio_v ;;
  execute (insert_or_replace_user
             {| u_id := user_id; u_login := login_s;
                u_password_hash := password_hash; u_fio := fio_s;
                u_phone := Some phone; u_user_type := user_type |}) ;;;
  (if String.eqb user_type "master" then
     execute (insert_or_replace_master user_id fio_s phone login_s "Мастер")
   else ret tt) ;;;
  shown <- lift (row_get row "login") ;;
  print (UserAdded shown user_type).

(** One turn of the loop, with its [try] and [except]. *)
Definition load_user_row_guarded (idx : Z) (row : gmap string cell) : M state unit :=
  try_except (load_user_row idx row) (fun e => print (UserRowError idx e)).

Definition load_users_from_xlsx (users_file : file) : M state unit :=
  try_except
    (match users_file with
     | Missing =>
         print (FileNotFound "inputDataUsers.xlsx") ;;;
         create_default_users
     | Unreadable e => raise e
     | Sheet df =>
         print (RecordsRead (length (df_rows df))) ;;;
         for_each (iterrows df)
           (fun '(idx, row) => load_user_row_guarded idx row) ;;;
         print (UsersLoaded (length (df_rows df)))
     end)
    (fun e => print (UsersLoadError e) ;;; create_default_users).

(** [days_in_process] as the loop of [load_requests_from_xlsx] derives it:
    nothing without a completion date, the day count between the first ten
    characters of the two texts, 0 when [strptime] raises. *)
Definition days_in_process (start_date : string) (completion_date : option string)
  : option Z :=
  match completion_date with
  | None => None
  | Some c =>
      if String.eqb c "" then None
      else
        match Dates.strptime (Dates.take_prefix 10 start_date),
              Dates.strptime (Dates.take_prefix 10 c) with
        | Some start_dt, Some end_dt => Some (Dates.days_between start_dt end_dt)
        | _, _ => Some 0
        end
  end.

Definition text_column (column : string) (c : cell) : M state string :=
  v <- lift (bind_text c) ;; not_null column v.

(** The loop body for a frame with a [client_id] column
    (service_requests_combined.xlsx). *)
Definition load_request_row_combined (idx : Z) (row : gmap string cell) : M state unit :=
  client_id <- lift (cell_if_notna row "client_id" opt_int None) ;;
  master_id <- lift (cell_if_notna row "master_id" opt_int None) ;;
  master_fio <- lift (cell_if_notna row "master_fio" as_cell (Text "")) ;;
  master_phone <- lift (cell_if_notna row "master_phone" as_str "") ;;
  master_login <- lift (cell_if_notna row "master_login" as_cell (Text "")) ;;
  request_id <- lift (cell_if_notna row "request_id" py_int (idx + 1)) ;;
  start_date <- lift (cell_if_notna row "start_date" as_cell (Text now)) ;;
  tech_type <- lift (cell_if_notna row "tech_type" as_cell (Text "")) ;;
  tech_model <- lift (cell_if_notna row "tech_model" as_cell (Text "")) ;;
  problem <- lift (cell_if_notna row "problem_description" as_cell (Text "")) ;;
  status <- lift (cell_if_notna row "request_status" as_cell (Text "Новая заявка")) ;;
  completion <- lift (cell_if_notna row "completion_date" as_cell NaN) ;;
  days <- lift (cell_if_notna row "days_in_process" py_int 0) ;;
  parts <- lift (cell_if_notna row "repair_parts" as_cell (Text "")) ;;
  has_comment <- lift (cell_if_notna row "has_comment" (fun c => inr (py_bool c)) false) ;;
  client_fio <- lift (cell_if_notna row "client_fio" as_cell (Text "Неизвестный клиент")) ;;
  client_phone <- lift (cell_if_notna row "client_phone" as_str "") ;;
  client_login <- lift (cell_if_notna row "client_login" as_cell (Text "")) ;;
  client_type <- lift (cell_if_notna row "client_type" as_cell (Text "client")) ;;
  start_v <- lift (bind_cell start_date) ;;
  tech_type_s <- text_column "service_requests.tech_type" tech_type ;;
  tech_model_s <- text_column "service_requests.tech_model" tech_model ;;
  problem_s <- text_column "service_requests.problem_description" problem ;;
  status_s <- text_column "service_requests.request_status" status ;;
  completion_v <- lift (bind_cell completion) ;;
  parts_v <- lift (bind_text parts) ;;
  master_fio_v <- lift (bind_text master_fio) ;;
  master_login_v <- lift (bind_text master_login) ;;
  client_fio_s <- text_column "service_requests.client_fio" client_fio ;;
  client_login_v <- lift (bind_text client_login) ;;
  client_type_v <- lift (bind_text client_type) ;;
  start_nn <- not_null_value "service_requests.start_date" start_v ;;
  execute (insert_or_replace_request
             {| r_id := 0; r_request_id := request_id; r_start_date := start_nn;
                r_tech_type := tech_type_s; r_tech_model := tech_model_s;
                r_problem_description := problem_s;
                r_request_status := status_s;
                r_completion_date := completion_v;
                r_days_in_process := Some days;
                r_repair_parts := parts_v; r_has_comment := has_comment;
                r_master_id := master_id; r_master_fio := master_fio_v;
                r_master_phone := Some master_phone;
                r_master_login := master_login_v;
                r_master_type := Some (if truthy master_id then "Мастер" else "");
                r_client_id := client_id; r_client_fio := client_fio_s;
                r_client_phone := client_phone;
                r_client_login := client_login_v;
                r_client_type := client_type_v |}).

(** A date cell turned into text: a timestamp is formatted, anything else
    goes through [str]. *)
Definition date_text (c : cell) : string :=
  match c with
  | Stamp t => strftime t
  | _ => py_str c
  end.

(** The start date as text: a timestamp is formatted, an empty cell gives
    the current time. *)
Definition start_text (c : cell) : string :=
  match c with
  | Stamp t => strftime t
  | c => if notna c then py_str c else now
  end.

(** The loop body for a frame without a [client_id] column
    (inputDataRequests.xlsx). *)
Definition load_request_row_input (idx : Z) (row : gmap string cell) : M state unit :=
  client_id <- lift (cell_if_notna row "clientID" opt_int None) ;;
  master_id <- lift (cell_if_notna row "masterID" opt_int None) ;;
  client_data <- query (find_user_by_id client_id) ;;
  master_data <- (if truthy master_id then query (find_master_by_id master_id)
                  else ret None) ;;
  start_cell <- lift (row_get row "startDate") ;;
  let start_date := start_text start_cell in
  completion_cell <- lift (row_get row "completionDate") ;;
  let completion_date :=
    if notna completion_cell then Some (date_text completion_cell) else None in
  let days := days_in_process start_date completion_date in
  id_cell <- lift (row_get row "requestID") ;;
  request_id <- lift (py_int id_cell) ;;
  tech_type <- lift (cell_if_notna row "homeTechType" as_cell (Text "")) ;;
  tech_model <- lift (cell_if_notna row "homeTechModel" as_cell (Text "")) ;;
  problem <- lift (cell_if_notna row "problemDescryption" as_cell (Text "")) ;;
  status <- lift (cell_if_notna row "requestStatus" as_cell (Text "Новая заявка")) ;;
  parts <- lift (cell_if_notna row "repairParts" as_cell (Text "")) ;;
  tech_type_s <- text_column "service_requests.tech_type" tech_type ;;
  tech_model_s <- text_column "service_requests.tech_model" tech_model ;;
  problem_s <- text_column "service_requests.problem_description" problem ;;
  status_s <- text_column "service_requests.request_status" status ;;
  parts_v <- lift (bind_text parts) ;;
  client_phone <- not_null "service_requests.client_phone"
                    (match client_data with
                     | Some u => u_phone u
                     | None => Some ""
                     end) ;;
  execute (insert_or_replace_request
             {| r_id := 0; r_request_id := request_id;
                r_start_date := VText start_date;
                r_tech_type := tech_type_s; r_tech_model := tech_model_s;
                r_problem_description := problem_s;
                r_request_status := status_s;
                r_completion_date :=
                  match completion_date with Some c => VText c | None => VNull end;
                r_days_in_process := days;
                r_repair_parts := parts_v; r_has_comment := false;
                r_master_id := master_id;
                r_master_fio :=
                  Some (match master_data with Some m => m_fio m | None => "" end);
                r_master_phone :=
                  match master_data with Some m => m_phone m | None => Some "" end;
                r_master_login :=
                  match master_data with Some m => m_login m | None => Some "" end;
                r_master_type :=
                  Some (match master_data with Some _ => "Мастер" | None => "" end);
                r_client_id := client_id;
                r_client_fio :=
                  match client_data with
                  | Some u => u_fio u
                  | None => "Неизвестный клиент"
                  end;
                r_client_phone := client_phone;
                r_client_login :=
                  Some (match client_data with Some u => u_login u | None => "" end);
                r_client_type :=
                  Some (match client_data with
                        | Some u => u_user_type u
                        | None => "client"
                        end) |}).

Definition in_columns (c : string) (df : dataframe) : bool :=
  existsb (String.eqb c) (df_columns df).

Definition load_request_row (df : dataframe) (idx : Z) (row : gmap string cell)
  : M state unit :=
  try_except
    (if in_columns "client_id" df then load_request_row_combined idx row
     else load_request_row_input idx row)
    (fun e => print (RequestRowError idx e)).

Definition load_requests_from_xlsx (combined_file requests_file : file) : M state unit :=
  try_except
    (let requests_file_path :=
       match combined_file with Missing => requests_file | f => f end in
     match requests_file_path with
     | Missing => print (FileNotFound "inputDataRequests.xlsx")
     | Unreadable e => raise e
     | Sheet df =>
         print (RecordsRead (length (df_rows df))) ;;;
         for_each (iterrows df) (fun '(idx, row) => load_request_row df idx row) ;;;
         print (RequestsLoaded (length (df_rows df)))
     end)
    (fun e => print (RequestsLoadError e)).

(** The dictionaries [load_comments_from_xlsx] builds before its loop. *)
Definition master_id_to_user_id (s : store) : gmap Z (option Z) :=
  fold_left (fun d m => <[m_id m := m_user_id m]> d) (rows (masters s)) ∅.

Definition master_id_to_fio (s : store) : gmap Z string :=
  fold_left (fun d m => <[m_id m := m_fio m]> d) (rows (masters s)) ∅.

Definition user_id_to_type (s : store) : gmap Z string :=
  fold_left (fun d u => <[u_id u := u_user_type u]> d) (rows (users s)) ∅.

(** The body of the loop of [load_comments_from_xlsx]. *)
Definition load_comment_row (to_user : gmap Z (option Z)) (to_fio to_type : gmap Z string)
    (idx : Z) (row : gmap string cell) : M state unit :=
  try_except
    (comment_id <- lift (cell_if_notna row "commentID" opt_int None) ;;
     request_id <- lift (cell_if_notna row "requestID" opt_int None) ;;
     master_id <- lift (cell_if_notna row "masterID" opt_int None) ;;
     let found := match master_id with Some m => to_user !! m | None => None end in
     let user_id := match found with Some u => u | None => None end in
     let user_fio :=
       match found, master_id with
       | Some _, Some m => Some (default "Неизвестный мастер" (to_fio !! m))
       | _, _ => None
       end in
     let user_type :=
       match found with
       | Some u => Some (default "master"
                           (match u with Some i => to_type !! i | None => None end))
       | None => None
       end in
     message <- lift (cell_if_notna row "message" as_cell (Text "")) ;;
     message_s <- text_column "comments.message" message ;;
     request_nn <- not_null "comments.request_id" request_id ;;
     execute (insert_comment comment_id request_nn master_id user_id user_fio
                user_type message_s) ;;;
     (if truthy request_id then execute (set_has_comment request_nn) else ret tt) ;;;
     print (CommentAdded comment_id request_id master_id))
    (fun e => print (CommentRowError idx e)).

Definition load_comments_from_xlsx (comments_file : file) : M state unit :=
  try_except
    (match comments_file with
     | Missing => print (FileNotFound "inputDataComments.xlsx")
     | Unreadable e => raise e
     | Sheet df =>
         print (RecordsRead (length (df_rows df))) ;;;
         to_user <- query master_id_to_user_id ;;
         to_fio <- query master_id_to_fio ;;
         to_type <- query user_id_to_type ;;
         for_each (iterrows df)
           (fun '(idx, row) => load_comment_row to_user to_fio to_type idx row) ;;;
         print (CommentsLoaded (length (df_rows df)))
     end)
    (fun e => print (CommentsLoadError e)).

Definition load_all_data (users_file combined_file requests_file comments_file : file)
  : M state unit :=
  load_users_from_xlsx users_file ;;;
  load_requests_from_xlsx combined_file requests_file ;;;
  load_comments_from_xlsx comments_file.

End Loader.

(** *** The JSON endpoints *)

Record session := {
  user_id : option Z;
  user_login : option string;
  user_name : option string;
  user_type : option string
}.

(** The body of an answer: [{"success": ...}] with its [error] text, and the
    HTTP status. *)
Inductive failure :=
| Unauthorized
| Forbidden
| MasterIdMissing
| MasterNotFound
| ServerError (e : exn).

Record response := {
  status : Z;
  success : bool;
  error : option failure
}.

Definition ok : response := {| status := 200; success := true; error := None |}.
Definition failed (code : Z) (f : failure) : response :=
  {| status := code; success := false; error := Some f |}.

Definition may_assign (user_type : option string) : bool :=
  match user_type with
  | Some t => String.eqb t "admin" || String.eqb t "manager" || String.eqb t "operator"
  | None => false
  end.

(** PUT /api/requests/<request_id>/assign with body [{"master_id": ...}]. *)
Definition assign_master (sess : session) (request_id : Z) (master_id : option Z)
    (s : store) : response * store :=
  if negb (may_assign (user_type sess)) then (failed 403 Forbidden, s)
  else if negb (truthy master_id) then (failed 400 MasterIdMissing, s)
  else
    match master_id, find_master_by_id master_id s with
    | Some id, Some m =>
        let s1 := set_request_master request_id id m s in
        let s2 := insert_status_history request_id "Новая заявка" "В процессе ремонта"
                    (default "Система" (user_name sess))
                    ("Назначен мастер: " +:+ m_fio m) s1 in
        (ok, s2)
    | _, _ => (failed 404 MasterNotFound, s)
    end.

(** The JSON body of POST /api/comments: a key is absent ([None]), null
    ([Some None]) or holds a value. *)
Record comment_data := {
  cd_request_id : option (option Z);
  cd_message : option (option string);
  cd_repair_parts : option (option string)
}.

Definition json_key {A} (key : string) (o : option A) : exn + A :=
  match o with Some a => inr a | None => inl (KeyError key) end.

Definition find_master_by_user (uid : option Z) (s : store) : option master :=
  match uid with
  | Some u => List.find (fun m => opt_Z_eqb (m_user_id m) u) (rows (masters s))
  | None => None
  end.

(** The statements of [add_comment] between connect and commit. *)
Definition add_comment_body (sess : session) (data : comment_data) : M store unit :=
  (let is_master := opt_eqb (user_type sess) "master" in
   master_id <- (fun s => (inr (if is_master
                                then m_id <$> find_master_by_user (user_id sess) s
                                else None), s)) ;;
   request_id <- lift (json_key "request_id" (cd_request_id data)) ;;
   message <- lift (json_key "message" (cd_message data)) ;;
   request_nn <- not_null "comments.request_id" request_id ;;
   message_nn <- not_null "comments.message" message ;;
   modify (insert_comment None request_nn master_id (user_id sess) (user_name sess)
             (user_type sess) message_nn) ;;;
   modify (set_has_comment request_nn) ;;;
   match cd_repair_parts data with
   | Some (Some parts) =>
       if String.eqb parts "" then ret tt
       else modify (append_repair_parts request_nn parts)
   | _ => ret tt
   end)%monad.

(** POST /api/comments. An exception leaves the connection uncommitted: the
    store stays as it was. *)
Definition add_comment (sess : session) (data : comment_data) (s : store)
  : response * store :=
  match user_id sess with
  | None => (failed 401 Unauthorized, s)
  | Some _ =>
      match add_comment_body sess data s with
      | (inr _, s') => (ok, s')
      | (inl e, _) => (failed 500 (ServerError e), s)
      end
  end.

(** The JSON body of POST /api/requests. *)
Record request_data := {
  rd_tech_type : option (option string);
  rd_tech_model : option (option string);
  rd_problem_description : option (option string);
  rd_request_status : option (option string);
  rd_client_fio : option (option string);
  rd_client_phone : option (option string)
}.

Definition max_request_id (s : store) : option Z :=
  match map r_request_id (rows (service_requests s)) with
  | [] => None
  | x :: l => Some (fold_right Z.max x l)
  end.

Definition create_request_body (now : string) (sess : session) (data : request_data)
  : M store Z :=
  (max_id <- (fun s => (inr (max_request_id s), s)) ;;
   let new_request_id := (if truthy max_id then default 0 max_id else 0) + 1 in
   tech_type <- lift (json_key "tech_type" (rd_tech_type data)) ;;
   tech_model <- lift (json_key "tech_model" (rd_tech_model data)) ;;
   problem <- lift (json_key "problem_description" (rd_problem_description data)) ;;
   let status := default (Some "Новая заявка") (rd_request_status data) in
   client_fio <- lift (json_key "client_fio" (rd_client_fio data)) ;;
   client_phone <- lift (json_key "client_phone" (rd_client_phone data)) ;;
   tech_type_nn <- not_null "service_requests.tech_type" tech_type ;;
   tech_model_nn <- not_null "service_requests.tech_model" tech_model ;;
   problem_nn <- not_null "service_requests.problem_description" problem ;;
   status_nn <- not_null "service_requests.request_status" status ;;
   client_fio_nn <- not_null "service_requests.client_fio" client_fio ;;
   client_phone_nn <- not_null "service_requests.client_phone" client_phone ;;
   (fun s =>
      match insert_request
              {| r_id := 0; r_request_id := new_request_id;
                 r_start_date := VText now;
                 r_tech_type := tech_type_nn; r_tech_model := tech_model_nn;
                 r_problem_description := problem_nn;
                 r_request_status := status_nn;
                 r_completion_date := VNull; r_days_in_process := None;
                 r_repair_parts := None; r_has_comment := false;
                 r_master_id := None; r_master_fio := None;
                 r_master_phone := None; r_master_login := None;
                 r_master_type := None; r_client_id := None;
                 r_client_fio := client_fio_nn;
                 r_client_phone := client_phone_nn;
                 r_client_login := Some (default "" (user_login sess));
                 r_client_type := Some "client" |} s with
      | inr s' => (inr new_request_id, s')
      | inl e => (inl e, s)
      end))%monad.

(** POST /api/requests. *)
Definition create_request (now : string) (sess : session) (data : request_data)
    (s : store) : response * store :=
  match user_id sess with
  | None => (failed 401 Unauthorized, s)
  | Some _ =>
      match create_request_body now sess data s with
      | (inr _, s') => (ok, s')
      | (inl e, _) => (failed 500 (ServerError e), s)
      end
  end.

(** *** Signing in and out *)
Section Login.

(** [werkzeug.security.check_password_hash(pwhash, password)] *)
Variable check_password_hash : string -> string -> bool.

Inductive login_error :=
| EnterCredentials      (* "Введите логин и пароль" *)
| BadCredentials.       (* "Неверный логин или пароль" *)

(** The page an answer renders. *)
Inductive page :=
| MainPage
| LoginPage (error : option login_error).

(** [not text] for a form field: absent or empty. *)
Definition blank (o : option string) : bool :=
  match o with Some t => String.eqb t "" | None => true end.

(** [handle_login_form()] with the two form fields; it returns the page and
    the session it leaves. *)
Definition handle_login_form (login password : option string) (sess : session)
    (s : store) : page * session :=
  if blank login || blank password then (LoginPage (Some EnterCredentials), sess)
  else
    match login, password with
    | Some l, Some p =>
        match find_user_by_login l s with
        | Some user =>
            if check_password_hash (u_password_hash user) p
            then (MainPage,
                  {| user_id := Some (u_id user); user_login := Some (u_login user);
                     user_name := Some (u_fio user);
                     user_type := Some (u_user_type user) |})
            else (LoginPage (Some BadCredentials), sess)
        | None => (LoginPage (Some BadCredentials), sess)
        end
    | _, _ => (LoginPage (Some EnterCredentials), sess)
    end.

(** The route [/]: [post] tells a POST from a GET. *)
Definition index (post : bool) (login password : option string) (sess : session)
    (s : store) : page * session :=
  match user_id sess with
  | Some _ => (MainPage, sess)
  | None =>
      if post then handle_login_form login password sess s
      else (LoginPage None, sess)
  end.

End Login.

(** GET /api/logout: [session.clear()]. *)
Definition logout_api (sess : session) : response * session :=
  (ok, {| user_id := None; user_login := None; user_name := None; user_type := None |}).

(** *** Reading requests *)

(** The order of ORDER BY on a column: NULL first, then numbers, then texts
    byte by byte. *)
Definition value_leb (a b : value) : bool :=
  match a, b with
  | VNull, _ => true
  | _, VNull => false
  | VInt x, VInt y => x <=? y
  | VInt _, VText _ => true
  | VText _, VInt _ => false
  | VText x, VText y => String.leb x y
  end.

(** ORDER BY start_date DESC, as an insertion sort. The engine leaves the
    order of rows with equal dates open; here a row goes before the rows
    with the same date that came earlier. *)
Fixpoint insert_by_start_date (r : request) (l : list request) : list request :=
  match l with
  | [] => [r]
  | x :: rest =>
      if value_leb (r_start_date x) (r_start_date r) then r :: l
      else x :: insert_by_start_date r rest
  end.

Definition order_by_start_date_desc (l : list request) : list request :=
  fold_right insert_by_start_date [] l.

(** [client_login = ?] with the login of the session; a comparison with
    NULL is never true. *)
Definition is_client_of (login : option string) (r : request) : bool :=
  match login, r_client_login r with
  | Some l, Some c => String.eqb c l
  | _, _ => false
  end.

(** SELECT id FROM masters WHERE master_login = ?; fetchone() *)
Definition find_master_by_login (login : option string) (s : store) : option master :=
  match login with
  | Some l => List.find (fun m => opt_eqb (m_login m) l) (rows (masters s))
  | None => None
  end.

(** GET /api/requests: a client gets the requests filed under its login, a
    master the requests assigned to its masters row, anyone else all of
    them. *)
Definition get_requests (sess : session) (s : store) : list request :=
  if opt_eqb (user_type sess) "client" then
    order_by_start_date_desc
      (List.filter (is_client_of (user_login sess)) (rows (service_requests s)))
  else if opt_eqb (user_type sess) "master" then
    match find_master_by_login (user_login sess) s with
    | Some m =>
        order_by_start_date_desc
          (List.filter (fun r => opt_Z_eqb (r_master_id r) (m_id m))
             (rows (service_requests s)))
    | None => []
    end
  else order_by_start_date_desc (rows (service_requests s)).

(** GET /api/requests/<request_id>: the row, or 404. *)
Definition get_request (request_id : Z) (s : store) : option request :=
  List.find (fun r => r_request_id r =? request_id) (rows (service_requests s)).

End App.

(** ** Work_DB.py: class RepairSystemDatabase *)
Module WorkDB.

(** *** Tables (CREATE TABLE statements of [initialize_database])

    The connection runs with [PRAGMA foreign_keys = ON]. The [created_at],
    [updated_at] and [last_login] columns, which only the engine clock fills,
    are left out, and so are the progress lines printed to the console. *)

Record user_type := {
  ut_id : Z;
  ut_name : string;
  ut_description : option string
}.

Record user := {
  user_id : Z;
  full_name : string;
  phone : string;
  login : string;
  password_hash : string;
  user_type_id : Z;
  is_active : bool
}.

Record equipment_type := { et_id : Z; et_name : string }.

Record equipment_model := { em_id : Z; em_name : string; em_type_id : Z }.

Record request_status := { rs_id : Z; rs_name : string; rs_active : bool }.

Record repair_request := {
  request_id : Z;
  start_date : value;
  equipment_type_id : Z;
  equipment_model_id : Z;
  problem_description : string;
  status_id : Z;
  completion_date : value;
  repair_parts : option string;
  master_id : option Z;
  client_id : Z;
  priority : Z
}.

Record comment := {
  comment_id : Z;
  c_message : string;
  c_master_id : Z;
  c_request_id : Z
}.

Record store := {
  user_types : table user_type;
  users : table user;
  equipment_types : table equipment_type;
  equipment_models : table equipment_model;
  request_statuses : table request_status;
  repair_requests : table repair_request;
  comments : table comment
}.

Definition set_users (t : table user) (s : store) : store :=
  {| user_types := user_types s; users := t;
     equipment_types := equipment_types s;
     equipment_models := equipment_models s;
     request_statuses := request_statuses s;
     repair_requests := repair_requests s; comments := comments s |}.
Definition set_equipment_types (t : table equipment_type) (s : store) : store :=
  {| user_types := user_types s; users := users s;
     equipment_types := t;
     equipment_models := equipment_models s;
     request_statuses := request_statuses s;
     repair_requests := repair_requests s; comments := comments s |}.
Definition set_equipment_models (t : table equipment_model) (s : store) : store :=
  {| user_types := user_types s; users := users s;
     equipment_types := equipment_types s;
     equipment_models := t;
     request_statuses := request_statuses s;
     repair_requests := repair_requests s; comments := comments s |}.
Definition set_repair_requests (t : table repair_request) (s : store) : store :=
  {| user_types := user_types s; users := users s;
     equipment_types := equipment_types s;
     equipment_models := equipment_models s;
     request_statuses := request_statuses s;
     repair_requests := t; comments := comments s |}.
Definition set_comments (t : table comment) (s : store) : store :=
  {| user_types := user_types s; users := users s;
     equipment_types := equipment_types s;
     equipment_models := equipment_models s;
     request_statuses := request_statuses s;
     repair_requests := repair_requests s; comments := t |}.

(** The rows [_populate_initial_data] seeds into an empty store. *)
Definition seeded_store : store :=
  {| user_types :=
       {| rows := [ {| ut_id := 1; ut_name := "Менеджер";
                       ut_description := Some "Управление системой, полный доступ" |};
                    {| ut_id := 2; ut_name := "Мастер";
                       ut_description := Some "Выполнение ремонтных работ" |};
                    {| ut_id := 3; ut_name := "Оператор";
                       ut_description := Some "Обработка заявок, назначение мастеров" |};
                    {| ut_id := 4; ut_name := "Заказчик";
                       ut_description := Some "Создание заявок на ремонт" |} ];
          seq := 4 |};
     users := empty_table;
     equipment_types := empty_table;
     equipment_models := empty_table;
     request_statuses :=
       {| rows := [ {| rs_id := 1; rs_name := "Новая заявка"; rs_active := true |};
                    {| rs_id := 2; rs_name := "В процессе ремонта"; rs_active := true |};
                    {| rs_id := 3; rs_name := "Готова к выдаче"; rs_active := true |};
                    {| rs_id := 4; rs_name := "Выполнена"; rs_active := true |};
                    {| rs_id := 5; rs_name := "Отменена"; rs_active := true |} ];
          seq := 5 |};
     repair_requests := empty_table;
     comments := empty_table |}.

(** [request_number], the generated column:
    ['REQ-' || printf('%06d', request_id)]. *)
Definition zeros (n : nat) : string :=
  String.string_of_list_ascii (repeat "0"%char n).

Definition zero_pad6 (z : Z) : string :=
  if z <? 0
  then let d := pretty (- z) in "-" +:+ zeros (5 - String.length d) +:+ d
  else let d := pretty z in zeros (6 - String.length d) +:+ d.

Definition request_number (r : repair_request) : string :=
  "REQ-" +:+ zero_pad6 (request_id r).

(** *** Constraints *)

(** [a >= b] as the engine orders stored values: NULL compares to nothing, a
    number sorts before a text, texts compare byte by byte. A text that
    spells a number is kept as text. *)
Definition value_ge (a b : value) : option bool :=
  match a, b with
  | VNull, _ | _, VNull => None
  | VInt x, VInt y => Some (y <=? x)
  | VInt _, VText _ => Some false
  | VText _, VInt _ => Some true
  | VText x, VText y => Some (String.leb y x)
  end.

(** CHECK (completion_date IS NULL OR completion_date >= start_date): the
    row is refused when the expression is false. *)
Definition check_dates (r : repair_request) : bool :=
  match completion_date r with
  | VNull => true
  | c => match value_ge c (start_date r) with
         | Some false => false
         | _ => true
         end
  end.

(** CHECK (priority BETWEEN 1 AND 5) *)
Definition check_priority (r : repair_request) : bool :=
  (1 <=? priority r) && (priority r <=? 5).

Definition has_user (id : Z) (s : store) : bool :=
  existsb (fun u => user_id u =? id) (rows (users s)).
Definition has_user_type (id : Z) (s : store) : bool :=
  existsb (fun t => ut_id t =? id) (rows (user_types s)).
Definition has_equipment_type (id : Z) (s : store) : bool :=
  existsb (fun t => et_id t =? id) (rows (equipment_types s)).
Definition has_equipment_model (id : Z) (s : store) : bool :=
  existsb (fun m => em_id m =? id) (rows (equipment_models s)).
Definition has_status (id : Z) (s : store) : bool :=
  existsb (fun t => rs_id t =? id) (rows (request_statuses s)).
Definition has_request (id : Z) (s : store) : bool :=
  existsb (fun r => request_id r =? id) (rows (repair_requests s)).

(** The foreign keys of a repair_requests row. *)
Definition request_references (r : repair_request) (s : store) : bool :=
  has_equipment_type (equipment_type_id r) s
  && has_equipment_model (equipment_model_id r) s
  && has_status (status_id r) s
  && match master_id r with Some m => has_user m s | None => true end
  && has_user (client_id r) s.

Definition require {S} (b : bool) (e : exn) : M S unit :=
  if b then ret tt else raise e.

(** *** Statements *)
Local Open Scope monad_scope.

Definition find_user_by_login (l : string) (s : store) : option user :=
  List.find (fun u => String.eqb (login u) l) (rows (users s)).

Definition with_profile (name ph hash : string) (type_id : Z) (u : user) : user :=
  {| user_id := user_id u; full_name := name; phone := ph; login := login u;
     password_hash := hash; user_type_id := type_id; is_active := true |}.

(** UPDATE users SET full_name = ?, phone = ?, password_hash = ?,
    user_type_id = ?, is_active = 1 WHERE user_id = ? *)
Definition update_user (id : Z) (name ph hash : string) (type_id : Z) : M store unit :=
  s <- get ;;
  require (negb (has_user id s) || has_user_type type_id s)
    (IntegrityError "FOREIGN KEY") ;;;
  put (set_users (update_rows (fun u => user_id u =? id)
                    (with_profile name ph hash type_id) (users s)) s).

(** INSERT INTO users (full_name, phone, login, password_hash, user_type_id,
    is_active); returns [cursor.lastrowid]. *)
Definition insert_user (name ph l hash : string) (type_id : Z) : M store Z :=
  s <- get ;;
  require (negb (existsb (fun u => String.eqb (login u) l) (rows (users s))))
    (IntegrityError "users.login") ;;;
  require (has_user_type type_id s) (IntegrityError "FOREIGN KEY") ;;;
  let id := next_rowid user_id (users s) in
  put (set_users
         (append_row user_id
            {| user_id := id; full_name := name; phone := ph; login := l;
               password_hash := hash; user_type_id := type_id;
               is_active := true |}
            (users s)) s) ;;;
  ret id.

Definition find_equipment_type (name : string) (s : store) : option equipment_type :=
  List.find (fun t => String.eqb (et_name t) name) (rows (equipment_types s)).

(** INSERT INTO equipment_types (type_name) *)
Definition insert_equipment_type (name : string) : M store Z :=
  s <- get ;;
  require (negb (existsb (fun t => String.eqb (et_name t) name)
                   (rows (equipment_types s))))
    (IntegrityError "equipment_types.type_name") ;;;
  let id := next_rowid et_id (equipment_types s) in
  put (set_equipment_types
         (append_row et_id {| et_id := id; et_name := name |} (equipment_types s)) s) ;;;
  ret id.

Definition find_equipment_model (name : string) (type_id : Z) (s : store)
  : option equipment_model :=
  List.find (fun m => String.eqb (em_name m) name && (em_type_id m =? type_id))
    (rows (equipment_models s)).

(** INSERT INTO equipment_models (model_name, equipment_type_id) *)
Definition insert_equipment_model (name : string) (type_id : Z) : M store Z :=
  s <- get ;;
  require (negb (existsb (fun m => String.eqb (em_name m) name && (em_type_id m =? type_id))
                   (rows (equipment_models s))))
    (IntegrityError "equipment_models.model_name, equipment_models.equipment_type_id") ;;;
  require (has_equipment_type type_id s) (IntegrityError "FOREIGN KEY") ;;;
  let id := next_rowid em_id (equipment_models s) in
  put (set_equipment_models
         (append_row em_id {| em_id := id; em_name := name; em_type_id := type_id |}
            (equipment_models s)) s) ;;;
  ret id.

(** INSERT INTO repair_requests (start_date, equipment_type_id,
    equipment_model_id, problem_description, status_id, completion_date,
    repair_parts, master_id, client_id, priority); returns
    [cursor.lastrowid]. *)
Definition insert_request (start : value) (type_id model_id : Z) (problem : string)
    (status : Z) (completion : value) (parts : option string)
    (master client : option Z) (prio : Z) : M store Z :=
  s <- get ;;
  start_nn <- not_null_value "repair_requests.start_date" start ;;
  client_nn <- not_null "repair_requests.client_id" client ;;
  let r := {| request_id := next_rowid request_id (repair_requests s);
              start_date := start_nn; equipment_type_id := type_id;
              equipment_model_id := model_id; problem_description := problem;
              status_id := status; completion_date := completion;
              repair_parts := parts; master_id := master;
              client_id := client_nn; priority := prio |} in
  require (check_priority r) (IntegrityError "CHECK priority") ;;;
  require (check_dates r) (IntegrityError "CHECK completion_date") ;;;
  require (request_references r s) (IntegrityError "FOREIGN KEY") ;;;
  put (set_repair_requests (append_row request_id r (repair_requests s)) s) ;;;
  ret (request_id r).

(** INSERT INTO comments (message, master_id, request_id) *)
Definition insert_comment (msg : string) (master request : Z) : M store Z :=
  s <- get ;;
  require (has_user master s && has_request request s)
    (IntegrityError "FOREIGN KEY") ;;;
  let id := next_rowid comment_id (comments s) in
  put (set_comments
         (append_row comment_id
            {| comment_id := id; c_message := msg; c_master_id := master;
               c_request_id := request |}
            (comments s)) s) ;;;
  ret id.

(** A loop that carries a value from one row to the next. *)
Fixpoint fold_rows {S A B} (l : list B) (a : A) (body : B -> A -> M S A) : M S A :=
  match l with
  | [] => ret a
  | x :: rest => a' <- body x a ;; fold_rows rest a' body
  end.

(** *** import_from_excel *)
Section Importer.

(** [hashlib.sha256(text.encode()).hexdigest()] *)
Variable sha256_hex : string -> string.

Definition type_mapping (c : cell) : Z :=
  match c with
  | Text s =>
      if String.eqb s "Менеджер" then 1
      else if String.eqb s "Мастер" then 2
      else if String.eqb s "Оператор" then 3
      else if String.eqb s "Заказчик" then 4
      else 4
  | _ => 4
  end.

Definition status_mapping (s : string) : Z :=
  if String.eqb s "Новая заявка" then 1
  else if String.eqb s "В процессе ремонта" then 2
  else if String.eqb s "Готова к выдаче" then 3
  else if String.eqb s "Выполнена" then 4
  else if String.eqb s "Отменена" then 5
  else 1.

(** The body of the users loop; [user_id_mapping] goes from the identifier
    in the file to the key in the store. *)
Definition import_user (row : gmap string cell) (user_id_mapping : gmap Z Z)
  : M store (gmap Z Z) :=
  type_cell <- lift (row_get row "type") ;;
  let type_id := type_mapping type_cell in
  password <- lift (row_get row "password") ;;
  let hash := sha256_hex (py_str password) in
  login_cell <- lift (row_get row "login") ;;
  s <- get ;;
  id <- match find_user_by_login (py_str login_cell) s with
        | Some existing_user =>
            fio <- lift (row_get row "fio") ;;
            ph <- lift (row_get row "phone") ;;
            update_user (user_id existing_user) (py_str fio) (py_str ph) hash type_id ;;;
            ret (user_id existing_user)
        | None =>
            fio <- lift (row_get row "fio") ;;
            ph <- lift (row_get row "phone") ;;
            insert_user (py_str fio) (py_str ph) (py_str login_cell) hash type_id
        end ;;
  ext <- lift (row_get row "userID") ;;
  ext_id <- lift (py_int ext) ;;
  ret (<[ext_id := id]> user_id_mapping).

Definition import_users (users_file : file) : M store (gmap Z Z) :=
  users_df <- lift (read_excel users_file) ;;
  fold_rows (df_rows users_df) ∅ import_user.

(** What the requests loop carries: the two memo dictionaries and the
    request mapping. *)
Record request_loop := {
  equipment_types_memo : gmap string Z;
  equipment_models_memo : gmap string Z;
  request_id_mapping : gmap Z Z
}.

Definition dict_get {S} (d : gmap string Z) (k : string) : M S Z :=
  match d !! k with Some v => ret v | None => raise (KeyError k) end.

(** The block that gets or creates the equipment type: the memo
    dictionary is asked first, then the table. *)
Definition resolve_equipment_type (equipment_type : string) (memo : gmap string Z)
  : M store (gmap string Z) :=
  match memo !! equipment_type with
  | Some _ => ret memo
  | None =>
      s <- get ;;
      type_id <- match find_equipment_type equipment_type s with
                 | Some t => ret (et_id t)
                 | None => insert_equipment_type equipment_type
                 end ;;
      ret (<[equipment_type := type_id]> memo)
  end.

(** The block that gets or creates the equipment model. *)
Definition resolve_equipment_model (equipment_model : string) (type_id : Z)
    (model_key : string) (memo : gmap string Z) : M store (gmap string Z) :=
  match memo !! model_key with
  | Some _ => ret memo
  | None =>
      s <- get ;;
      model_id <- match find_equipment_model equipment_model type_id s with
                  | Some m => ret (em_id m)
                  | None => insert_equipment_model equipment_model type_id
                  end ;;
      ret (<[model_key := model_id]> memo)
  end.

(** The body of the requests loop. *)
Definition import_request (user_id_mapping : gmap Z Z) (row : gmap string cell)
    (acc : request_loop) : M store request_loop :=
  type_cell <- lift (row_get row "homeTechType") ;;
  let equipment_type := py_str type_cell in
  types <- resolve_equipment_type equipment_type (equipment_types_memo acc) ;;
  type_id <- dict_get types equipment_type ;;
  model_cell <- lift (row_get row "homeTechModel") ;;
  let equipment_model := py_str model_cell in
  let model_key := equipment_type +:+ "_" +:+ equipment_model in
  models <- resolve_equipment_model equipment_model type_id model_key
              (equipment_models_memo acc) ;;
  model_id <- dict_get models model_key ;;
  status_cell <- lift (row_get row "requestStatus") ;;
  let status := status_mapping (py_str status_cell) in
  client_cell <- lift (row_get row "clientID") ;;
  client_ext <- lift (py_int client_cell) ;;
  let client := user_id_mapping !! client_ext in
  master_cell <- lift (row_get row "masterID") ;;
  master <- (if notna master_cell
             then master_ext <- lift (py_int master_cell) ;;
                  ret (user_id_mapping !! master_ext)
             else ret None) ;;
  start_cell <- lift (row_get row "startDate") ;;
  completion_cell <- lift (row_get row "completionDate") ;;
  parts_cell <- lift (row_get row "repairParts") ;;
  let parts := if notna parts_cell then Some (py_str parts_cell) else None in
  problem_cell <- lift (row_get row "problemDescryption") ;;
  start <- lift (bind_cell start_cell) ;;
  completion <- (if notna completion_cell then lift (bind_cell completion_cell)
                 else ret VNull) ;;
  id <- insert_request start type_id model_id (py_str problem_cell) status
          completion parts master client 3 ;;
  ext_cell <- lift (row_get row "requestID") ;;
  ext_id <- lift (py_int ext_cell) ;;
  ret {| equipment_types_memo := types; equipment_models_memo := models;
         request_id_mapping := <[ext_id := id]> (request_id_mapping acc) |}.

Definition import_requests (requests_file : file) (user_id_mapping : gmap Z Z)
  : M store request_loop :=
  requests_df <- lift (read_excel requests_file) ;;
  fold_rows (df_rows requests_df)
    {| equipment_types_memo := ∅; equipment_models_memo := ∅;
       request_id_mapping := ∅ |}
    (import_request user_id_mapping).

(** The body of the comments loop; [comment_count] is carried. *)
Definition import_comment (user_id_mapping request_ids : gmap Z Z)
    (row : gmap string cell) (comment_count : nat) : M store nat :=
  master_cell <- lift (row_get row "masterID") ;;
  master_ext <- lift (py_int master_cell) ;;
  let master := user_id_mapping !! master_ext in
  request_cell <- lift (row_get row "requestID") ;;
  request_ext <- lift (py_int request_cell) ;;
  let request := request_ids !! request_ext in
  if truthy master && truthy request then
    match master, request with
    | Some m, Some r =>
        msg <- lift (row_get row "message") ;;
        insert_comment (py_str msg) m r ;;;
        ret (S comment_count)
    | _, _ => ret comment_count
    end
  else ret comment_count.

Definition import_comments (comments_file : file) (user_id_mapping request_ids : gmap Z Z)
  : M store nat :=
  comments_df <- lift (read_excel comments_file) ;;
  fold_rows (df_rows comments_df) 0%nat (import_comment user_id_mapping request_ids).

(** The dictionary a method returns. *)
Inductive note :=
| Imported
| UsersImportError (e : exn)
| RequestsImportError (e : exn)
| CommentsImportError (e : exn)
| RequestNotFound
| NotAMaster
| MasterAssigned
| AssignError (e : exn)
| StatusNotFound
| StatusUpdated (name : string)
| StatusError (e : exn)
| CommentAdded (id : Z)
| CommentError (e : exn).

Record stats := { users_count : nat; requests_count : nat; comments_count : nat }.

Record result := {
  success : bool;
  message : note;
  import_stats : option stats
}.

Definition failure (n : note) : result :=
  {| success := false; message := n; import_stats := None |}.
Definition succeeded (n : note) : result :=
  {| success := true; message := n; import_stats := None |}.

(** [import_from_excel]: the three phases on one connection. An exception in
    a phase rolls the connection back and returns; the commit comes after
    the comments phase. pandas is taken to be installed. *)
Definition import_from_excel (users_file requests_file comments_file : file)
    (s : store) : result * store :=
  match import_users users_file s with
  | (inl e, _) => (failure (UsersImportError e), s)
  | (inr user_id_mapping, s1) =>
      match import_requests requests_file user_id_mapping s1 with
      | (inl e, _) => (failure (RequestsImportError e), s)
      | (inr loop, s2) =>
          match import_comments comments_file user_id_mapping
                  (request_id_mapping loop) s2 with
          | (inl e, _) => (failure (CommentsImportError e), s)
          | (inr comment_count, s3) =>
              ({| success := true; message := Imported;
                  import_stats :=
                    Some {| users_count := size user_id_mapping;
                            requests_count := size (request_id_mapping loop);
                            comments_count := comment_count |} |}, s3)
          end
      end
  end.

End Importer.

(** *** Point operations *)

Definition find_request (id : Z) (s : store) : option repair_request :=
  List.find (fun r => request_id r =? id) (rows (repair_requests s)).

Definition find_status (name : string) (s : store) : option request_status :=
  List.find (fun t => String.eqb (rs_name t) name) (rows (request_statuses s)).

(** The role of a user: the name of the user type its row joins with. *)
Definition role_of (id : Z) (s : store) : option string :=
  match List.find (fun u => user_id u =? id) (rows (users s)) with
  | Some u =>
      match List.find (fun t => ut_id t =? user_type_id u) (rows (user_types s)) with
      | Some t => Some (ut_name t)
      | None => None
      end
  | None => None
  end.

Definition eligible_role (name : string) : bool :=
  String.eqb name "Мастер" || String.eqb name "Менеджер".

(** SELECT 1 FROM users u JOIN user_types ut ON ... WHERE u.user_id = ? AND
    ut.type_name IN ('Мастер', 'Менеджер') returns a row. *)
Definition is_master_or_manager (id : Z) (s : store) : bool :=
  existsb (fun u =>
             (user_id u =? id)
             && existsb (fun t => (ut_id t =? user_type_id u) && eligible_role (ut_name t))
                  (rows (user_types s)))
    (rows (users s)).

Definition with_assignment (master status : Z) (r : repair_request) : repair_request :=
  {| request_id := request_id r; start_date := start_date r;
     equipment_type_id := equipment_type_id r;
     equipment_model_id := equipment_model_id r;
     problem_description := problem_description r;
     status_id := status; completion_date := completion_date r;
     repair_parts := repair_parts r; master_id := Some master;
     client_id := client_id r; priority := priority r |}.

(** UPDATE repair_requests SET master_id = ?, status_id = ?, ...
    WHERE request_id = ? *)
Definition update_assignment (request master status : Z) : M store unit :=
  s <- get ;;
  require (negb (has_request request s) || (has_user master s && has_status status s))
    (IntegrityError "FOREIGN KEY") ;;;
  put (set_repair_requests
         (update_rows (fun r => request_id r =? request)
            (with_assignment master status) (repair_requests s)) s).

(** The statements of [assign_master] after its two checks. *)
Definition assign_master_body (request master acting_user : Z) : M store unit :=
  s <- get ;;
  new_status <- match find_status "В процессе ремонта" s with
                | Some t => ret (rs_id t)
                | None => raise TypeError
                end ;;
  update_assignment request master new_status ;;;
  insert_comment "Мастер назначен на заявку" acting_user request ;;;
  ret tt.

(** [assign_master(request_id, master_id, user_id)] *)
Definition assign_master (request master acting_user : Z) (s : store) : result * store :=
  match find_request request s with
  | None => (failure RequestNotFound, s)
  | Some _ =>
      if negb (is_master_or_manager master s) then (failure NotAMaster, s)
      else
        match assign_master_body request master acting_user s with
        | (inr _, s') => (succeeded MasterAssigned, s')
        | (inl e, _) => (failure (AssignError e), s)
        end
  end.

Definition with_status (status : Z) (completion : value) (r : repair_request)
  : repair_request :=
  {| request_id := request_id r; start_date := start_date r;
     equipment_type_id := equipment_type_id r;
     equipment_model_id := equipment_model_id r;
     problem_description := problem_description r;
     status_id := status; completion_date := completion;
     repair_parts := repair_parts r; master_id := master_id r;
     client_id := client_id r; priority := priority r |}.

(** UPDATE repair_requests SET status_id = ?, completion_date = CASE WHEN ? =
    'Готова к выдаче' THEN date('now') ELSE completion_date END
    WHERE request_id = ?; [today] is the text of [date('now')]. *)
Definition update_status (today : string) (request status : Z) (name : string)
  : M store unit :=
  s <- get ;;
  let change r :=
    with_status status
      (if String.eqb name "Готова к выдаче" then VText today else completion_date r) r in
  require (forallb (fun r => negb (request_id r =? request) || check_dates (change r))
             (rows (repair_requests s)))
    (IntegrityError "CHECK completion_date") ;;;
  put (set_repair_requests
         (update_rows (fun r => request_id r =? request) change (repair_requests s)) s).

(** [update_request_status(request_id, status_name, user_id)] *)
Definition update_request_status (today : string) (request : Z) (name : string)
    (acting_user : Z) (s : store) : result * store :=
  match find_status name s with
  | None => (failure StatusNotFound, s)
  | Some t =>
      match update_status today request (rs_id t) name s with
      | (inr _, s') => (succeeded (StatusUpdated name), s')
      | (inl e, _) => (failure (StatusError e), s)
      end
  end.

(** [add_comment(request_id, master_id, message)] *)
Definition add_comment (request master : Z) (msg : string) (s : store) : result * store :=
  match insert_comment msg master request s with
  | (inr id, s') => (succeeded (CommentAdded id), s')
  | (inl e, _) => (failure (CommentError e), s)
  end.

(** *** The data class User *)

(** [User.role]: the name the data class gives a user type, by its key. *)
Definition role (type_id : Z) : string :=
  if type_id =? 1 then "Менеджер"
  else if type_id =? 2 then "Мастер"
  else if type_id =? 3 then "Оператор"
  else if type_id =? 4 then "Заказчик"
  else "Неизвестно".

(** *** authenticate_user *)
Section Authenticate.

(** [hashlib.sha256(text.encode()).hexdigest()] *)
Variable sha256_hex : string -> string.

(** SELECT u.*, ut.type_name as role FROM users u JOIN user_types ut
    ON u.user_type_id = ut.user_type_id
    WHERE u.login = ? AND u.password_hash = ? AND u.is_active = 1 *)
Definition select_user (l hash : string) (s : store) : list (user * string) :=
  flat_map
    (fun u => map (fun t => (u, ut_name t))
                (List.filter (fun t => ut_id t =? user_type_id u) (rows (user_types s))))
    (List.filter
       (fun u => String.eqb (login u) l && String.eqb (password_hash u) hash
                 && is_active u)
       (rows (users s))).

(** [authenticate_user(login, password)]: the first row of the SELECT with
    its role, or [None]. The UPDATE that follows sets last_login only. *)
Definition authenticate_user (l password : string) (s : store) : option (user * string) :=
  head (select_user l (sha256_hex password) s).

End Authenticate.

(** *** create_request *)

(** What [create_request] returns: the key and the number of the request, or
    the failure. *)
Inductive created :=
| Created (request : Z) (number : string)
| NotCreated (e : exn).

(** UPDATE repair_requests SET request_number = ? WHERE request_id = ?. The
    column is declared GENERATED ALWAYS, and the engine refuses to prepare
    an UPDATE that assigns to a generated column. *)
Definition update_request_number (number : string) (request : Z) : M store unit :=
  raise (OperationalError "cannot UPDATE generated column").

(** The statements of [create_request] between connect and commit; [today]
    is the text of [date('now')]. *)
Definition create_request_body (today : string) (client : Z)
    (equipment_type equipment_model problem : string) (prio : Z)
  : M store (Z * string) :=
  s <- get ;;
  type_id <- match find_equipment_type equipment_type s with
             | Some t => ret (et_id t)
             | None => insert_equipment_type equipment_type
             end ;;
  s1 <- get ;;
  model_id <- match find_equipment_model equipment_model type_id s1 with
              | Some m => ret (em_id m)
              | None => insert_equipment_model equipment_model type_id
              end ;;
  s2 <- get ;;
  status <- match find_status "Новая заявка" s2 with
            | Some t => ret (rs_id t)
            | None => raise TypeError
            end ;;
  request <- insert_request (VText today) type_id model_id problem status VNull
               None None (Some client) prio ;;
  let number := "REQ-" +:+ zero_pad6 request in
  update_request_number number request ;;;
  ret (request, number).

(** [create_request(client_id, equipment_type, equipment_model,
    problem_description, priority)]: an exception rolls the connection
    back. *)
Definition create_request (today : string) (client : Z)
    (equipment_type equipment_model problem : string) (prio : Z) (s : store)
  : created * store :=
  match create_request_body today client equipment_type equipment_model problem prio s with
  | (inr (request, number), s') => (Created request number, s')
  | (inl e, _) => (NotCreated e, s)
  end.

End WorkDB.

(** ** App_files/App.py: [check_and_update_tables]

    The schema repair reads the column list of a table it did not create, so
    tables are generic here: named columns and rows of values. *)
Module Migration.

Record column := {
  col_name : string;
  col_not_null : bool;
  col_key : bool;       (* INTEGER PRIMARY KEY AUTOINCREMENT *)
  col_now : bool        (* DEFAULT CURRENT_TIMESTAMP *)
}.

Record gtable := {
  g_columns : list column;
  g_rows : list (list value);
  g_seq : Z
}.

Definition plain (name : string) : column :=
  {| col_name := name; col_not_null := false; col_key := false; col_now := false |}.
Definition required (name : string) : column :=
  {| col_name := name; col_not_null := true; col_key := false; col_now := false |}.
Definition key (name : string) : column :=
  {| col_name := name; col_not_null := false; col_key := true; col_now := false |}.
Definition stamped (name : string) : column :=
  {| col_name := name; col_not_null := false; col_key := false; col_now := true |}.

Inductive event :=
| Checking
| MissingColumns (l : list string)
| FixingComments
| CommentsUpdated
| CommentsUpdateError (e : exn)
| NewCommentsCreated
| CommentsOk
| CreatingMasters
| CreatingStatusHistory.

Record state := { db : gmap string gtable; out : list event }.

Definition print (e : event) : M state unit :=
  modify (fun s => {| db := db s; out := out s ++ [e] |}).

Definition mem (x : string) (l : list string) : bool := existsb (String.eqb x) l.

(** *** The engine *)

(** PRAGMA table_info(name): the column names, none for a missing table. *)
Definition table_info (name : string) : M state (list string) :=
  fun s =>
    (inr (match db s !! name with
          | Some t => map col_name (g_columns t)
          | None => []
          end), s).

(** SELECT name FROM sqlite_master WHERE type='table' AND name=? *)
Definition table_exists (name : string) : M state bool :=
  fun s => (inr (bool_decide (is_Some (db s !! name))), s).

(** CREATE TABLE IF NOT EXISTS *)
Definition create_table_if_not_exists (name : string) (cols : list column) : M state unit :=
  modify (fun s =>
            {| db := match db s !! name with
                     | Some _ => db s
                     | None => <[name := {| g_columns := cols; g_rows := []; g_seq := 0 |}]> (db s)
                     end;
               out := out s |}).

(** The value of column [c] in a row laid out along [cols]. *)
Fixpoint field (cols : list column) (row : list value) (c : string) : option value :=
  match cols, row with
  | col :: cols', v :: row' =>
      if String.eqb (col_name col) c then Some v else field cols' row' c
  | _, _ => None
  end.

(** One item of a SELECT list: the literal NULL or a column. *)
Definition select_item (cols : list column) (row : list value) (item : string)
  : exn + value :=
  if String.eqb item "NULL" then inr VNull
  else match field cols row item with
       | Some v => inr v
       | None => inl (OperationalError "no such column")
       end.

Fixpoint select_row (cols : list column) (row : list value) (items : list string)
  : exn + list value :=
  match items with
  | [] => inr []
  | i :: rest =>
      match select_item cols row i, select_row cols row rest with
      | inr v, inr vs => inr (v :: vs)
      | inl e, _ => inl e
      | _, inl e => inl e
      end
  end.

Fixpoint select_rows (cols : list column) (rows : list (list value)) (items : list string)
  : exn + list (list value) :=
  match rows with
  | [] => inr []
  | r :: rest =>
      match select_row cols r items, select_rows cols rest items with
      | inr v, inr vs => inr (v :: vs)
      | inl e, _ => inl e
      | _, inl e => inl e
      end
  end.

(** SELECT items FROM name; fetchall() *)
Definition select (items : list string) (name : string) : M state (list (list value)) :=
  fun s =>
    match db s !! name with
    | None => (inl (OperationalError "no such table"), s)
    | Some t =>
        match select_rows (g_columns t) (g_rows t) items with
        | inr rows => (inr rows, s)
        | inl e => (inl e, s)
        end
    end.

(** The value bound to column [c] by [INSERT INTO t (cols) VALUES (vals)]. *)
Fixpoint assigned (cols : list string) (vals : list value) (c : string) : option value :=
  match cols, vals with
  | x :: cols', v :: vals' =>
      if String.eqb x c then Some v else assigned cols' vals' c
  | _, _ => None
  end.

(** The key of a row laid out along [cols]. *)
Fixpoint row_key (cols : list column) (row : list value) : option Z :=
  match cols, row with
  | col :: cols', v :: row' =>
      if col_key col then match v with VInt z => Some z | _ => None end
      else row_key cols' row'
  | _, _ => None
  end.

Definition keys (t : gtable) : list Z :=
  omap (row_key (g_columns t)) (g_rows t).

Definition next_key (t : gtable) : Z :=
  1 + fold_right Z.max (Z.max 0 (g_seq t)) (keys t).

(** One stored field: the bound value or the default, a fresh key for an
    unset key column; then the type and NOT NULL checks. *)
Definition stored_field (now : string) (t : gtable) (cols : list string)
    (vals : list value) (col : column) : exn + value :=
  let v := match assigned cols vals (col_name col) with
           | Some v => v
           | None => if col_now col then VText now else VNull
           end in
  if col_key col then
    match v with
    | VNull => inr (VInt (next_key t))
    | VInt z =>
        if existsb (Z.eqb z) (keys t) then inl (IntegrityError "UNIQUE")
        else inr v
    | VText _ => inl (IntegrityError "datatype mismatch")
    end
  else if col_not_null col && bool_decide (v = VNull)
  then inl (IntegrityError ("NOT NULL " +:+ col_name col))
  else inr v.

Fixpoint stored_row (now : string) (t : gtable) (cols : list string)
    (vals : list value) (schema : list column) : exn + list value :=
  match schema with
  | [] => inr []
  | col :: rest =>
      match stored_field now t cols vals col, stored_row now t cols vals rest with
      | inr v, inr vs => inr (v :: vs)
      | inl e, _ => inl e
      | _, inl e => inl e
      end
  end.

(** INSERT INTO name (cols) VALUES (vals) *)
Definition insert_row (now : string) (name : string) (cols : list string)
    (vals : list value) : M state unit :=
  fun s =>
    match db s !! name with
    | None => (inl (OperationalError "no such table"), s)
    | Some t =>
        if negb (Nat.eqb (length cols) (length vals))
        then (inl InterfaceError, s)
        else if negb (forallb (fun c => mem c (map col_name (g_columns t))) cols)
        then (inl (OperationalError "no such column"), s)
        else
          match stored_row now t cols vals (g_columns t) with
          | inl e => (inl e, s)
          | inr row =>
              let k := default (g_seq t) (row_key (g_columns t) row) in
              (inr tt,
               {| db := <[name := {| g_columns := g_columns t;
                                     g_rows := g_rows t ++ [row];
                                     g_seq := Z.max (g_seq t) k |}]> (db s);
                  out := out s |})
          end
    end.

(** [cursor.executemany]: the statement once per row; the rows before a
    failing one stay inserted. *)
Definition executemany (now : string) (name : string) (cols : list string)
    (rows : list (list value)) : M state unit :=
  for_each rows (insert_row now name cols).

(** DROP TABLE name *)
Definition drop_table (name : string) : M state unit :=
  fun s =>
    match db s !! name with
    | None => (inl (OperationalError "no such table"), s)
    | Some _ => (inr tt, {| db := delete name (db s); out := out s |})
    end.

(** DROP TABLE IF EXISTS name *)
Definition drop_table_if_exists (name : string) : M state unit :=
  modify (fun s => {| db := delete name (db s); out := out s |}).

(** ALTER TABLE old RENAME TO new *)
Definition rename_table (old new : string) : M state unit :=
  fun s =>
    match db s !! old, db s !! new with
    | None, _ => (inl (OperationalError "no such table"), s)
    | Some _, Some _ => (inl (OperationalError "there is already another table"), s)
    | Some t, None =>
        (inr tt, {| db := <[new := t]> (delete old (db s)); out := out s |})
    end.

(** *** check_and_update_tables *)

Definition lower_ascii (a : ascii) : ascii :=
  let n := nat_of_ascii a in
  if Nat.leb 65 n && Nat.leb n 90 then ascii_of_nat (n + 32) else a.

(** [s.lower()] on the ASCII letters. *)
Fixpoint lower (s : string) : string :=
  match s with
  | EmptyString => EmptyString
  | String a s' => String (lower_ascii a) (lower s')
  end.

Definition required_columns : list string :=
  ["id"; "request_id"; "user_id"; "user_fio"; "user_type"; "message"; "created_at"].

Definition comments_new_columns : list column :=
  [ key "id"; plain "comment_id"; required "request_id"; plain "master_id";
    plain "user_id"; plain "user_fio"; plain "user_type"; required "message";
    stamped "created_at" ].

Definition masters_columns : list column :=
  [ key "id"; plain "user_id"; required "master_fio"; plain "master_phone";
    plain "master_login"; plain "master_type"; stamped "created_at" ].

Definition status_history_columns : list column :=
  [ key "id"; required "request_id"; plain "old_status"; required "new_status";
    required "changed_by"; stamped "changed_at"; plain "comment" ].

(** The first loop over the old columns: what to select and where to put
    it. *)
Definition plan_column (acc : list string * list string) (col : string)
  : list string * list string :=
  let '(select_columns, insert_columns) := acc in
  if mem col ["id"; "comment_id"; "request_id"; "master_id"; "message"; "created_at"]
  then (select_columns ++ [col], insert_columns ++ [col])
  else if String.eqb (lower col) "user_id" || String.eqb col "User_id"
  then (select_columns ++ [col], insert_columns ++ ["user_id"])
  else if String.eqb (lower col) "user_fio" || String.eqb col "user_fio"
  then (select_columns ++ [col], insert_columns ++ ["user_fio"])
  else if String.eqb (lower col) "user_type" || String.eqb col "user_type"
  then (select_columns ++ [col], insert_columns ++ ["user_type"])
  else acc.

(** The second loop: NULL for a user column the old table does not have. *)
Definition plan_missing (acc : list string * list string) (col : string)
  : list string * list string :=
  let '(select_columns, insert_columns) := acc in
  if mem col insert_columns then acc
  else (select_columns ++ ["NULL"], insert_columns ++ [col]).

Definition copy_plan (old_column_names : list string) : list string * list string :=
  fold_left plan_missing ["user_id"; "user_fio"; "user_type"]
    (fold_left plan_column old_column_names ([], [])).

Section Repair.

(** The text of CURRENT_TIMESTAMP. *)
Variable now : string.

Local Open Scope monad_scope.

(** The body of the [try] block: copy, then swap. *)
Definition copy_and_swap : M state unit :=
  old_column_names <- table_info "comments" ;;
  let '(select_columns, insert_columns) := copy_plan old_column_names in
  rows <- select select_columns "comments" ;;
  (match rows with
   | [] => ret tt
   | _ => executemany now "comments_new" insert_columns rows
   end) ;;;
  drop_table "comments" ;;;
  rename_table "comments_new" "comments" ;;;
  print CommentsUpdated.

(** The comments part of [check_and_update_tables]. *)
Definition repair_comments : M state unit :=
  column_names <- table_info "comments" ;;
  let missing_columns := List.filter (fun col => negb (mem col column_names)) required_columns in
  match missing_columns with
  | [] => print CommentsOk
  | _ =>
      print (MissingColumns missing_columns) ;;;
      print FixingComments ;;;
      create_table_if_not_exists "comments_new" comments_new_columns ;;;
      try_except copy_and_swap
        (fun e =>
           print (CommentsUpdateError e) ;;;
           drop_table_if_exists "comments_new" ;;;
           print NewCommentsCreated)
  end.

Definition ensure_table (name : string) (cols : list column) (e : event) : M state unit :=
  present <- table_exists name ;;
  if present then ret tt
  else print e ;;; create_table_if_not_exists name cols.

Definition check_and_update_tables : M state unit :=
  print Checking ;;;
  repair_comments ;;;
  ensure_table "masters" masters_columns CreatingMasters ;;;
  ensure_table "status_history" status_history_columns CreatingStatusHistory.

End Repair.

End Migration.

(** ** Notions the statements below use *)
Module AppSpec.
Import App.

Definition has_login (l : string) (s : store) : bool :=
  existsb (fun r => String.eqb (u_login r) l) (rows (users s)).

Definition has_master_login (l : string) (s : store) : bool :=
  existsb (fun r => opt_eqb (m_login r) l) (rows (masters s)).

(** What one default entry does to the store, and what the seven do. *)
Definition default_user_effect (hash : string -> string)
    (u : string * string * string * string * string) (d : store) : store :=
  let '(login, password, fio, phone, user_type) := u in
  let d1 := insert_or_ignore_user login (hash password) fio phone user_type d in
  if String.eqb user_type "master" then
    match find_user_by_login login d1 with
    | Some r => insert_or_ignore_master (u_id r) fio phone login "Мастер" d1
    | None => d1
    end
  else d1.

Definition default_users_effect (hash : string -> string) (d : store) : store :=
  fold_left (fun d u => default_user_effect hash u d) default_users d.

(** What a users row shows apart from its key. *)
Definition account (u : user) : string * string * string * option string * string :=
  (u_login u, u_password_hash u, u_fio u, u_phone u, u_user_type u).

(** The account a default entry turns into. *)
Definition default_account (hash : string -> string)
    (u : string * string * string * string * string)
  : string * string * string * option string * string :=
  let '(login, password, fio, phone, user_type) := u in
  (login, hash password, fio, Some phone, user_type).

(** What a masters row shows apart from its key. *)
Definition master_card (m : master)
  : option Z * string * option string * option string * option string :=
  (m_user_id m, m_fio m, m_phone m, m_login m, m_type m).

(** The masters row of a user of type master. *)
Definition card_of_user (u : user)
  : option Z * string * option string * option string * option string :=
  (Some (u_id u), u_fio u, u_phone u, Some (u_login u), Some "Мастер").

(** The request rows with a given request_id. *)
Definition requests_with (id : Z) (s : store) : list request :=
  List.filter (fun r => r_request_id r =? id) (rows (service_requests s)).

(** The flag of every request with identifier [id] is set. *)
Definition flagged (id : Z) (s : store) : Prop :=
  Forall (fun r => r_has_comment r = true) (requests_with id s).

(** Some request with identifier [id] has its flag set. *)
Definition has_flag (id : Z) (s : store) : bool :=
  existsb (fun r => (r_request_id r =? id) && r_has_comment r)
    (rows (service_requests s)).

(** Every flag set in [s] is still set in [s']. *)
Definition keeps_flags (s s' : store) : Prop :=
  forall id, has_flag id s = true -> has_flag id s' = true.

(** The request identifiers of the requests table, in row order. *)
Definition request_ids (s : store) : list Z :=
  map r_request_id (rows (service_requests s)).

(** A JSON key that is present and not null. *)
Definition filled {A} (o : option (option A)) : bool :=
  match o with Some (Some _) => true | _ => false end.

(** The body of POST /api/requests holds the five fields the INSERT needs
    and does not set the status to null. *)
Definition complete (data : request_data) : bool :=
  filled (rd_tech_type data) && filled (rd_tech_model data)
  && filled (rd_problem_description data) && filled (rd_client_fio data)
  && filled (rd_client_phone data)
  && match rd_request_status data with Some None => false | _ => true end.

(** The status a new request gets: the one of the body, if any. *)
Definition chosen_status (data : request_data) : string :=
  match rd_request_status data with
  | Some (Some status) => status
  | _ => "Новая заявка"
  end.

(** Dates from the latest to the earliest, in the order of ORDER BY. *)
Fixpoint descending (l : list value) : bool :=
  match l with
  | a :: rest =>
      match rest with
      | b :: _ => value_leb b a && descending rest
      | [] => true
      end
  | [] => true
  end.

(** The comment POST /api/comments writes for a session. *)
Definition posted_comment (sess : session) (rid : Z) (msg : string) (s : store)
  : comment :=
  {| c_id := next_rowid c_id (comments s); c_comment_id := None;
     c_request_id := rid;
     c_master_id := if opt_eqb (user_type sess) "master"
                    then m_id <$> find_master_by_user (user_id sess) s
                    else None;
     c_user_id := user_id sess; c_user_fio := user_name sess;
     c_user_type := user_type sess; c_message := msg |}.

(** What the UPDATE statements of POST /api/comments do to a request. *)
Definition commented (parts : option (option string)) (r : request) : request :=
  match parts with
  | Some (Some p) =>
      if String.eqb p "" then with_has_comment true r
      else with_repair_parts
             (Some (match r_repair_parts r with
                    | Some old => old +:+ ", " +:+ p
                    | None => p
                    end))
             (with_has_comment true r)
  | _ => with_has_comment true r
  end.

(** A computation that, when it returns, has stored one request with
    INSERT OR REPLACE and done nothing else. *)
Definition stores_one_request (m : M state unit) : Prop :=
  forall s s',
    m s = (inr tt, s') ->
    exists r, s' = {| db := insert_or_replace_request r (db s); out := out s |}.

(** The session a user row signs in to. *)
Definition session_of (u : user) : session :=
  {| user_id := Some (u_id u); user_login := Some (u_login u);
     user_name := Some (u_fio u); user_type := Some (u_user_type u) |}.

End AppSpec.

Module WorkDBSpec.
Import WorkDB.

(** The logins of the users table, in row order. *)
Definition logins (s : store) : list string := map login (rows (users s)).

(** The login a row of the users sheet is filed under. *)
Definition row_login (row : gmap string cell) : option string :=
  py_str <$> row !! "login".


(** The rows of repair_requests with a given key. *)
Definition requests_with (id : Z) (s : store) : list repair_request :=
  List.filter (fun r => request_id r =? id) (rows (repair_requests s)).


(** Only the users table may differ. *)
Definition keeps_but_users (s s' : store) : Prop :=
  user_types s' = user_types s /\ equipment_types s' = equipment_types s
  /\ equipment_models s' = equipment_models s
  /\ request_statuses s' = request_statuses s
  /\ repair_requests s' = repair_requests s /\ comments s' = comments s.

(** Only the two equipment tables may differ. *)
Definition keeps_core (s s' : store) : Prop :=
  user_types s' = user_types s /\ users s' = users s
  /\ request_statuses s' = request_statuses s
  /\ repair_requests s' = repair_requests s /\ comments s' = comments s.

(** Only the comments table may differ. *)
Definition keeps_but_comments (s s' : store) : Prop :=
  user_types s' = user_types s /\ users s' = users s
  /\ equipment_types s' = equipment_types s
  /\ equipment_models s' = equipment_models s
  /\ request_statuses s' = request_statuses s
  /\ repair_requests s' = repair_requests s.

(** An active user with this login and this password hash whose user type
    exists. *)
Definition account_with (l hash : string) (s : store) : Prop :=
  exists u, In u (rows (users s)) /\ login u = l /\ password_hash u = hash
            /\ is_active u = true /\ has_user_type (user_type_id u) s = true.

(** The keys of the users table. *)
Definition user_ids (s : store) : list Z := map user_id (rows (users s)).

End WorkDBSpec.

Module MigrationSpec.
Import Migration.

(** The required columns the comments table does not have. *)
Definition missing_columns (s : state) : list string :=
  List.filter
    (fun col => negb (mem col (match db s !! "comments" with
                               | Some t => map col_name (g_columns t)
                               | None => []
                               end)))
    required_columns.

(** The state in which the [try] block of the repair starts: the two lines
    are printed and comments_new exists. *)
Definition prepared (s : state) : state :=
  {| db := match db s !! "comments_new" with
           | Some _ => db s
           | None => <["comments_new" := {| g_columns := comments_new_columns;
                                           g_rows := []; g_seq := 0 |}]> (db s)
           end;
     out := out s ++ [MissingColumns (missing_columns s); FixingComments] |}.

(** Two stores with the same tables, comments_new apart. *)
Definition same_but (name : string) (d d' : gmap string gtable) : Prop :=
  forall n, n <> name -> d' !! n = d !! n.

End MigrationSpec.

(** ** Sample sheets *)
Module Samples.

Definition sheet (rows : list (gmap string cell)) : file :=
  Sheet {| df_columns := []; df_rows := rows |}.

(** A row of inputDataUsers.xlsx. *)
Definition user_row (id : Z) (fio login type : string) : gmap string cell :=
  list_to_map [ ("userID", Num id); ("fio", Text fio); ("phone", Num 89210563128);
                ("login", Text login); ("password", Text "pass1"); ("type", Text type) ].

(** A row of inputDataRequests.xlsx. *)
Definition request_row (id : Z) (start : string) (completion : cell)
    (master : cell) (client : Z) : gmap string cell :=
  list_to_map [ ("requestID", Num id); ("startDate", Text start);
                ("homeTechType", Text "Фен"); ("homeTechModel", Text "X100");
                ("problemDescryption", Text "Не работает");
                ("requestStatus", Text "Новая заявка");
                ("completionDate", completion); ("repairParts", NaN);
                ("masterID", master); ("clientID", Num client) ].

(** A row of inputDataComments.xlsx. *)
Definition comment_row (id : Z) (message : string) (master request : Z)
  : gmap string cell :=
  list_to_map [ ("commentID", Num id); ("message", Text message);
                ("masterID", Num master); ("requestID", Num request) ].

Definition digest (s : string) : string := "sha256:" +:+ s.

Definition clock : string := "2024-01-15 12:00:00".

Definition two_users : file :=
  sheet [ user_row 1 "Алиса" "alice" "Заказчик"; user_row 2 "Борис" "bob" "Мастер" ].

Definition fresh : App.state := {| App.db := App.empty_store; App.out := [] |}.

Definition one_request : file :=
  sheet [request_row 1 "2023-06-06" NaN (Num 2) 1].

(** An old comments table without the user columns; its second row has no
    message. *)
Definition old_comments : Migration.gtable :=
  {| Migration.g_columns :=
       [ Migration.key "id"; Migration.plain "request_id";
         Migration.plain "master_id"; Migration.plain "message" ];
     Migration.g_rows :=
       [ [VInt 1; VInt 1; VInt 2; VText "Готово"];
         [VInt 2; VInt 1; VInt 2; VNull] ];
     Migration.g_seq := 2 |}.

Definition old_store : Migration.state :=
  {| Migration.db := {["comments" := old_comments]}; Migration.out := [] |}.

(** An old comments table without the user columns whose rows all have a
    message, beside a users table. *)
Definition legacy_store : Migration.state :=
  {| Migration.db :=
       {[ "comments" :=
            {| Migration.g_columns :=
                 [ Migration.key "id"; Migration.plain "request_id";
                   Migration.plain "master_id"; Migration.plain "message" ];
               Migration.g_rows :=
                 [ [VInt 1; VInt 1; VInt 2; VText "Готово"];
                   [VInt 2; VInt 1; VInt 2; VText "Ждём запчасть"] ];
               Migration.g_seq := 2 |};
          "users" :=
            {| Migration.g_columns := [ Migration.key "id"; Migration.plain "login" ];
               Migration.g_rows := [ [VInt 1; VText "admin"] ];
               Migration.g_seq := 1 |} ]};
     Migration.out := [] |}.

(** The store of Work_DB.py after the sample sheets: alice, a customer,
    has key 1, bob, a master, key 2, and the request key 1. *)
Definition imported : WorkDB.store :=
  (WorkDB.import_from_excel digest two_users one_request (sheet []) WorkDB.seeded_store).2.

(** The store of App.py with the default accounts and one request. *)
Definition loaded : App.store :=
  App.db (App.load_requests_from_xlsx clock Missing
            (sheet [request_row 1 "2023-06-06" NaN NaN 6])
            {| App.db := AppSpec.default_users_effect digest App.empty_store;
               App.out := [] |}).2.

Definition manager : App.session :=
  {| App.user_id := Some 2; App.user_login := Some "manager1";
     App.user_name := Some "Менеджер 1"; App.user_type := Some "admin" |}.

End Samples.

(** ** Properties as the specification words them, where the programs differ *)
Module Stated.

(** A second run over the same sheets changes neither the logins nor the
    number of requests (Work_DB.py). *)
Definition second_run_changes_nothing : Prop :=
  forall sha uf rf cf s,
    let run := WorkDB.import_from_excel sha uf rf cf in
    WorkDB.success (run s).1 = true ->
    WorkDB.success (run (run s).2).1 = true ->
    WorkDBSpec.logins (run (run s).2).2 = WorkDBSpec.logins (run s).2
    /\ length (rows (WorkDB.repair_requests (run (run s).2).2))
       = length (rows (WorkDB.repair_requests (run s).2)).

(** A request row that fails is passed over and the run goes on: a run that
    succeeds without the row succeeds with it (Work_DB.py). *)
Definition failing_row_is_skipped : Prop :=
  forall sha uf cf before row after s m s1 acc s2 e s3,
    WorkDB.import_users sha uf s = (inr m, s1) ->
    WorkDB.fold_rows before
      {| WorkDB.equipment_types_memo := ∅; WorkDB.equipment_models_memo := ∅;
         WorkDB.request_id_mapping := ∅ |}
      (WorkDB.import_request m) s1 = (inr acc, s2) ->
    WorkDB.import_request m row acc s2 = (inl e, s3) ->
    WorkDB.success
      (WorkDB.import_from_excel sha uf (Samples.sheet (before ++ after)) cf s).1 = true ->
    WorkDB.success
      (WorkDB.import_from_excel sha uf (Samples.sheet (before ++ row :: after)) cf s).1
    = true.




End Stated.

(** * Properties *)

(** ** The monad *)

Lemma bind_ok {S A B} (m : M S A) (k : A -> M S B) s a s' :
  m s = (inr a, s') -> bind m k s = k a s'.
Proof. intros H. unfold bind. by rewrite H. Qed.

Lemma bind_raise {S A B} (m : M S A) (k : A -> M S B) s e s' :
  m s = (inl e, s') -> bind m k s = (inl e, s').
Proof. intros H. unfold bind. by rewrite H. Qed.

(** A bound computation returns only if both parts do. *)
Lemma bind_inr {S A B} (m : M S A) (k : A -> M S B) s b s2 :
  bind m k s = (inr b, s2) ->
  exists a s1, m s = (inr a, s1) /\ k a s1 = (inr b, s2).
Proof.
  unfold bind. destruct (m s) as [[e|a] s1]; intros H; [discriminate|eauto].
Qed.

(** A bound computation raises in its first part or in its second. *)
Lemma bind_inl {S A B} (m : M S A) (k : A -> M S B) s e s2 :
  bind m k s = (inl e, s2) ->
  m s = (inl e, s2) \/ exists a s1, m s = (inr a, s1) /\ k a s1 = (inl e, s2).
Proof.
  unfold bind. destruct (m s) as [[e'|a] s1]; intros H; [left; congruence|eauto].
Qed.

Lemma lift_inr {S A} (r : exn + A) (s s' : S) a :
  lift r s = (inr a, s') -> r = inr a /\ s' = s.
Proof. destruct r; cbn; intros H; inversion H; auto. Qed.

Lemma lift_inl {S A} (r : exn + A) (s s' : S) e :
  @lift S A r s = (inl e, s') -> r = inl e /\ s' = s.
Proof. destruct r; cbn; intros H; inversion H; auto. Qed.

Lemma not_null_inr {S A} c (o : option A) (s s' : S) a :
  not_null c o s = (inr a, s') -> o = Some a /\ s' = s.
Proof. destruct o; cbn; intros H; inversion H; auto. Qed.

Lemma not_null_inl {S A} c (o : option A) (s s' : S) e :
  @not_null S A c o s = (inl e, s') -> s' = s.
Proof. destruct o; cbn; intros H; inversion H; auto. Qed.

Lemma reads_only_ret {S A} (a : A) : reads_only (@ret S A a).
Proof. intros s r s1 [= _ <-]. done. Qed.

Lemma reads_only_raise {S A} e : reads_only (@raise S A e).
Proof. intros s r s1 [= _ <-]. done. Qed.

Lemma reads_only_lift {S A} (r : exn + A) : reads_only (@lift S A r).
Proof. destruct r; [apply reads_only_raise|apply reads_only_ret]. Qed.

Lemma reads_only_not_null {S A} c (o : option A) : reads_only (@not_null S A c o).
Proof. destruct o; [apply reads_only_ret|apply reads_only_raise]. Qed.

Lemma reads_only_not_null_value {S} c v : reads_only (@not_null_value S c v).
Proof. destruct v; first [apply reads_only_ret|apply reads_only_raise]. Qed.

Lemma reads_only_bind {S A B} (m : M S A) (k : A -> M S B) :
  reads_only m -> (forall a, reads_only (k a)) -> reads_only (bind m k).
Proof.
  intros Hm Hk s r s2. unfold bind.
  destruct (m s) as [[e|a] s1] eqn:E; intros H.
  - inversion H; subst. by eapply Hm.
  - apply Hm in E as ->. by eapply Hk.
Qed.

Lemma reads_only_if {S A} (c : bool) (a b : M S A) :
  reads_only a -> reads_only b -> reads_only (if c then a else b).
Proof. by destruct c. Qed.

Lemma never_raises_clean {S A} (m : M S A) : never_raises m -> raises_clean m.
Proof. intros H s e s1 E. destruct (H s) as (a & s2 & E2). congruence. Qed.

Lemma reads_only_clean {S A} (m : M S A) : reads_only m -> raises_clean m.
Proof. intros H s e s1 E. by eapply H. Qed.

Lemma never_raises_ret {S A} (a : A) : never_raises (@ret S A a).
Proof. intros s. by eexists _, _. Qed.

Lemma never_raises_modify {S} (f : S -> S) : never_raises (modify f).
Proof. intros s. by eexists _, _. Qed.

Lemma never_raises_bind {S A B} (m : M S A) (k : A -> M S B) :
  never_raises m -> (forall a, never_raises (k a)) -> never_raises (bind m k).
Proof.
  intros Hm Hk s. destruct (Hm s) as (a & s1 & E). unfold bind. rewrite E. apply Hk.
Qed.

Lemma never_raises_if {S A} (c : bool) (a b : M S A) :
  never_raises a -> never_raises b -> never_raises (if c then a else b).
Proof. by destruct c. Qed.

Lemma never_raises_try {S A} (m : M S A) (h : exn -> M S A) :
  (forall e, never_raises (h e)) -> never_raises (try_except m h).
Proof.
  intros Hh s. unfold try_except. destruct (m s) as [[e|a] s1]; [apply Hh|by eexists _, _].
Qed.

(** A read followed by a computation that raises cleanly raises cleanly; the
    continuation may use that the read returned. *)
Lemma raises_clean_bind {S A B} (m : M S A) (k : A -> M S B) :
  reads_only m ->
  (forall a, (exists s, m s = (inr a, s)) -> raises_clean (k a)) ->
  raises_clean (bind m k).
Proof.
  intros Hm Hk s e s2. unfold bind.
  destruct (m s) as [[e1|a] s1] eqn:E; intros H.
  - inversion H; subst. by eapply Hm.
  - pose proof (Hm _ _ _ E) as ->. eapply Hk; eauto.
Qed.

Lemma raises_clean_lift_bind {S A B} (r : exn + A) (k : A -> M S B) :
  (forall a, r = inr a -> raises_clean (k a)) ->
  raises_clean (bind (lift r) k).
Proof.
  intros Hk. apply raises_clean_bind; [apply reads_only_lift|].
  intros a [s E]. apply Hk. by destruct (lift_inr _ _ _ _ E).
Qed.

(** A guarded computation that raises cleanly either returns, or hands the
    untouched state to its handler. *)
Lemma try_except_run {S A} (m : M S A) (h : exn -> M S A) s :
  raises_clean m ->
  (exists a s', m s = (inr a, s') /\ try_except m h s = (inr a, s'))
  \/ (exists e, m s = (inl e, s) /\ try_except m h s = h e s).
Proof.
  intros Hm. unfold try_except. destruct (m s) as [[e|a] s1] eqn:E.
  - right. exists e. apply Hm in E as ->. done.
  - left. by exists a, s1.
Qed.

(** A loop over two lists in a row is the two loops in a row. *)
Lemma for_each_app {S B} (l1 l2 : list B) (body : B -> M S unit) s :
  for_each (l1 ++ l2) body s =
  bind (for_each l1 body) (fun _ => for_each l2 body) s.
Proof.
  revert s. induction l1 as [|x l1 IH]; intros s; cbn [app for_each].
  - reflexivity.
  - unfold bind at 1 2 3. destruct (body x s) as [[e|[]] s1]; [reflexivity|].
    rewrite IH. reflexivity.
Qed.

(** A loop whose body never raises never raises. *)
Lemma for_each_total {S B} (l : list B) (body : B -> M S unit) :
  (forall x s, exists s', body x s = (inr tt, s')) ->
  forall s, exists s', for_each l body s = (inr tt, s').
Proof.
  intros Hb. induction l as [|x l IH]; intros s; cbn; [by eexists|].
  destruct (Hb x s) as [s1 H1]. unfold bind. rewrite H1. apply IH.
Qed.

Lemma iterrows_from_app i l1 l2 :
  iterrows_from i (l1 ++ l2) =
  iterrows_from i l1 ++ iterrows_from (i + Z.of_nat (length l1)) l2.
Proof.
  revert i. induction l1 as [|r l1 IH]; intros i; cbn [iterrows_from app length].
  - by rewrite Z.add_0_r.
  - rewrite IH. do 3 f_equal. lia.
Qed.

(** ** Calendar arithmetic *)
Module DatesFacts.
Import Dates.










End DatesFacts.

(** ** The loader and the endpoints of App.py *)
Module AppFacts.
Import App AppSpec.

Lemma insert_or_ignore_user_login l h f p t s :
  has_login l (insert_or_ignore_user l h f p t s) = true.
Proof.
  unfold insert_or_ignore_user, has_login.
  destruct (existsb _ (rows (users s))) eqn:E; [exact E|].
  cbn. rewrite existsb_app. cbn. rewrite String.eqb_refl.
  by rewrite orb_true_r.
Qed.

Lemma insert_or_ignore_user_keeps x l h f p t s :
  has_login x s = true -> has_login x (insert_or_ignore_user l h f p t s) = true.
Proof.
  unfold insert_or_ignore_user, has_login. intros H.
  destruct (existsb (fun r => String.eqb (u_login r) l) (rows (users s)));
    [exact H|].
  cbn. rewrite existsb_app, H. done.
Qed.

Lemma insert_or_ignore_user_masters l h f p t s :
  masters (insert_or_ignore_user l h f p t s) = masters s.
Proof. unfold insert_or_ignore_user. by destruct (existsb _ _). Qed.

Lemma insert_or_ignore_master_users u f p l t s :
  users (insert_or_ignore_master u f p l t s) = users s.
Proof. unfold insert_or_ignore_master. by destruct (existsb _ _). Qed.

Lemma insert_or_ignore_master_login u f p l t s :
  has_master_login l (insert_or_ignore_master u f p l t s) = true.
Proof.
  unfold insert_or_ignore_master, has_master_login.
  destruct (existsb _ (rows (masters s))) eqn:E; [exact E|].
  cbn. rewrite existsb_app. cbn. rewrite String.eqb_refl.
  by rewrite orb_true_r.
Qed.

Lemma insert_or_ignore_master_keeps x u f p l t s :
  has_master_login x s = true ->
  has_master_login x (insert_or_ignore_master u f p l t s) = true.
Proof.
  unfold insert_or_ignore_master, has_master_login. intros H.
  destruct (existsb (fun r => opt_eqb (m_login r) l) (rows (masters s)));
    [exact H|].
  cbn. rewrite existsb_app, H. done.
Qed.

Lemma has_login_find l s :
  has_login l s = true -> exists r, find_user_by_login l s = Some r.
Proof.
  unfold has_login, find_user_by_login. intros H.
  apply existsb_exists in H as (r & Hin & Hr).
  destruct (List.find _ _) eqn:E; [by eexists|].
  eapply find_none in E; [|exact Hin]. cbn in E. congruence.
Qed.

Lemma create_default_user_run hash u s :
  create_default_user hash u s
  = (inr tt, {| db := default_user_effect hash u (db s); out := out s |}).
Proof.
  destruct u as [[[[l pw] f] p] t].
  unfold create_default_user, default_user_effect, bind, execute, modify, query.
  cbn [db out].
  destruct (String.eqb t "master"); [|reflexivity].
  destruct (find_user_by_login l _); reflexivity.
Qed.

Lemma create_default_loop hash l s :
  for_each l (create_default_user hash) s
  = (inr tt, {| db := fold_left (fun d u => default_user_effect hash u d) l (db s);
                out := out s |}).
Proof.
  revert s. induction l as [|u l IH]; intros s; cbn [for_each fold_left].
  - by destruct s.
  - unfold bind. rewrite create_default_user_run, IH. reflexivity.
Qed.

Lemma create_default_users_run hash s :
  create_default_users hash s
  = (inr tt, {| db := default_users_effect hash (db s);
                out := out s ++ [DefaultUsersCreated] |}).
Proof.
  unfold create_default_users, bind. rewrite create_default_loop. reflexivity.
Qed.

(** One default entry keeps every login and master login there was, leaves
    its own login in place, and touches no other table. *)
Lemma default_user_effect_spec hash u d :
  let d' := default_user_effect hash u d in
  (forall x, has_login x d = true -> has_login x d' = true)
  /\ (forall x, has_master_login x d = true -> has_master_login x d' = true)
  /\ has_login (u.1.1.1.1) d' = true
  /\ (u.2 = "master" -> has_master_login (u.1.1.1.1) d' = true)
  /\ service_requests d' = service_requests d
  /\ comments d' = comments d
  /\ status_history d' = status_history d.
Proof.
  destruct u as [[[[l pw] f] p] t]. cbn [fst snd]. unfold default_user_effect.
  set (d1 := insert_or_ignore_user l (hash pw) f p t d).
  assert (H1 : has_login l d1 = true) by apply insert_or_ignore_user_login.
  assert (K1 : forall x, has_login x d = true -> has_login x d1 = true)
    by (intros; by apply insert_or_ignore_user_keeps).
  assert (M1 : masters d1 = masters d) by apply insert_or_ignore_user_masters.
  assert (R1 : service_requests d1 = service_requests d
               /\ comments d1 = comments d
               /\ status_history d1 = status_history d).
  { unfold d1, insert_or_ignore_user. by destruct (existsb _ _). }
  destruct (String.eqb_spec t "master") as [->|Ht].
  - destruct (has_login_find _ _ H1) as [r Hr]. rewrite Hr.
    assert (U2 : forall x, has_login x (insert_or_ignore_master (u_id r) f p l "Мастер" d1)
                           = has_login x d1).
    { intros x. unfold has_login. by rewrite insert_or_ignore_master_users. }
    repeat split.
    + intros x Hx. rewrite U2. auto.
    + intros x Hx. apply insert_or_ignore_master_keeps.
      unfold has_master_login in *. by rewrite M1.
    + by rewrite U2.
    + intros _. apply insert_or_ignore_master_login.
    + unfold insert_or_ignore_master. destruct (existsb _ _); cbn; tauto.
    + unfold insert_or_ignore_master. destruct (existsb _ _); cbn; tauto.
    + unfold insert_or_ignore_master. destruct (existsb _ _); cbn; tauto.
  - repeat split; try tauto; auto.
    intros x Hx. unfold has_master_login in *. by rewrite M1.
Qed.

Lemma default_loop_spec hash l d :
  let d' := fold_left (fun d u => default_user_effect hash u d) l d in
  (forall x, has_login x d = true -> has_login x d' = true)
  /\ (forall x, has_master_login x d = true -> has_master_login x d' = true)
  /\ Forall (fun u => has_login (u.1.1.1.1) d' = true
                      /\ (u.2 = "master" -> has_master_login (u.1.1.1.1) d' = true)) l
  /\ service_requests d' = service_requests d
  /\ comments d' = comments d
  /\ status_history d' = status_history d.
Proof.
  revert d. induction l as [|u l IH]; intros d; cbn [fold_left].
  - repeat split; auto.
  - destruct (default_user_effect_spec hash u d) as (K1 & KM1 & L1 & ML1 & R1 & C1 & S1).
    destruct (IH (default_user_effect hash u d)) as (K2 & KM2 & F2 & R2 & C2 & S2).
    cbv zeta in *. repeat split; auto; congruence.
Qed.

(** On empty users and masters tables the seven entries write exactly the
    seven accounts, and one masters row per account of type master. *)
Lemma default_users_fresh hash uq mq rq cq hq :
  let d := default_users_effect hash
             {| users := {| rows := []; seq := uq |};
                masters := {| rows := []; seq := mq |};
                service_requests := rq; comments := cq;
                status_history := hq |} in
  map account (rows (users d)) = map (default_account hash) default_users
  /\ map master_card (rows (masters d))
     = map card_of_user
         (List.filter (fun u => String.eqb (u_user_type u) "master") (rows (users d))).
Proof. cbv zeta. split; cbv -[next_rowid]; reflexivity. Qed.

(** Without a readable users file the loader falls back on the default
    accounts and returns. *)
Lemma load_users_fallback hash f s :
  f = Missing \/ (exists e, f = Unreadable e) ->
  exists o,
    load_users_from_xlsx hash f s
    = (inr tt, {| db := default_users_effect hash (db s);
                  out := out s ++ o ++ [DefaultUsersCreated] |}).
Proof.
  intros [->|[e ->]]; unfold load_users_from_xlsx, try_except, bind, print, modify, raise.
  - rewrite create_default_users_run. cbn [db out].
    exists [FileNotFound "inputDataUsers.xlsx"]. by rewrite <- app_assoc.
  - rewrite create_default_users_run. cbn [db out].
    exists [UsersLoadError e]. by rewrite <- app_assoc.
Qed.

(** *** Rows that fail *)

Lemma reads_only_query {A} (f : store -> A) : reads_only (query f).
Proof. intros s r s1 [= _ <-]. done. Qed.

Lemma reads_only_text_column c v : reads_only (text_column c v).
Proof.
  apply reads_only_bind; [apply reads_only_lift|intros a; apply reads_only_not_null].
Qed.

Lemma never_raises_print e : never_raises (print e).
Proof. apply never_raises_modify. Qed.

Lemma never_raises_execute f : never_raises (execute f).
Proof. apply never_raises_modify. Qed.

Create HintDb reads.
Local Hint Resolve reads_only_query reads_only_text_column reads_only_lift
  reads_only_not_null reads_only_not_null_value reads_only_ret reads_only_if
  : reads.

(** Walk down a chain of reads to the statement that ends it. *)
Local Ltac clean_chain :=
  repeat first
    [ progress cbv zeta
    | apply raises_clean_lift_bind; intros ? ?
    | apply raises_clean_bind; [solve [auto with reads]|intros ? ?] ].

(** A request row that raises has changed nothing. *)
Lemma load_request_row_input_clean now idx row :
  raises_clean (load_request_row_input now idx row).
Proof.
  unfold load_request_row_input. clean_chain.
  apply never_raises_clean, never_raises_execute.
Qed.

Lemma load_request_row_combined_clean now idx row :
  raises_clean (load_request_row_combined now idx row).
Proof.
  unfold load_request_row_combined. clean_chain.
  apply never_raises_clean, never_raises_execute.
Qed.

Lemma cell_if_notna_get {A} row c (f : cell -> exn + A) d a :
  cell_if_notna row c f d = inr a -> exists v, row_get row c = inr v.
Proof. unfold cell_if_notna. destruct (row_get row c); [done|eauto]. Qed.

(** A user row that raises has changed nothing: once the users row is
    written, the rest of the body cannot raise. *)
Lemma load_user_row_clean hash idx row :
  raises_clean (load_user_row hash idx row).
Proof.
  unfold load_user_row. clean_chain.
  match goal with
  | H : cell_if_notna row "login" _ _ = inr _ |- _ =>
      destruct (cell_if_notna_get _ _ _ _ _ H) as [v ->]
  end.
  apply never_raises_clean.
  repeat first [ apply never_raises_bind; [|intros ?]
               | apply never_raises_if
               | apply never_raises_execute
               | apply never_raises_print
               | apply never_raises_ret ].
Qed.

(** One turn of the users loop: either the body returned, or it raised, the
    store is as before and the row index is on the console. *)
Lemma load_user_row_guarded_run hash idx row s :
  (exists s', load_user_row hash idx row s = (inr tt, s')
              /\ load_user_row_guarded hash idx row s = (inr tt, s'))
  \/ (exists e, load_user_row hash idx row s = (inl e, s)
                /\ load_user_row_guarded hash idx row s
                   = (inr tt, {| db := db s; out := out s ++ [UserRowError idx e] |})).
Proof.
  unfold load_user_row_guarded.
  destruct (try_except_run (load_user_row hash idx row)
              (fun e => print (UserRowError idx e)) s
              (load_user_row_clean hash idx row))
    as [([] & s' & E & R)|(e & E & R)]; [left|right]; eauto.
Qed.

Lemma load_request_row_clean now df idx row :
  raises_clean (if in_columns "client_id" df
                then load_request_row_combined now idx row
                else load_request_row_input now idx row).
Proof.
  destruct (in_columns _ _);
    [apply load_request_row_combined_clean|apply load_request_row_input_clean].
Qed.

(** One turn of the requests loop. *)
Lemma load_request_row_run now df idx row s :
  let body := if in_columns "client_id" df
              then load_request_row_combined now idx row
              else load_request_row_input now idx row in
  (exists s', body s = (inr tt, s')
              /\ load_request_row now df idx row s = (inr tt, s'))
  \/ (exists e, body s = (inl e, s)
                /\ load_request_row now df idx row s
                   = (inr tt, {| db := db s; out := out s ++ [RequestRowError idx e] |})).
Proof.
  cbv zeta. unfold load_request_row.
  destruct (try_except_run _ (fun e => print (RequestRowError idx e)) s
              (load_request_row_clean now df idx row))
    as [([] & s' & E & R)|(e & E & R)]; [left|right]; eauto.
Qed.

(** *** The request row the loader writes *)

(** Peel one read off a computation that returned. *)
Local Ltac read_step H :=
  cbv zeta in H;
  let E := fresh "E" in
  let a := fresh "a" in
  let s1 := fresh "s" in
  apply bind_inr in H as (a & s1 & E & H);
  match type of E with
  | ?m ?s = (_, s1) =>
      let R := fresh "R" in
      assert (R : reads_only m) by auto with reads;
      pose proof (R _ _ _ E); subst s1; clear R
  end.


(** *** Comments and the has_comment flag *)

Lemma requests_with_set_has_comment id s :
  Forall (fun r => r_has_comment r = true) (requests_with id (set_has_comment id s)).
Proof.
  unfold requests_with, set_has_comment. cbn.
  induction (rows (service_requests s)) as [|r l IH]; cbn; [constructor|].
  destruct (r_request_id r =? id) eqn:E; cbn.
  - rewrite E. constructor; [done|exact IH].
  - rewrite E. exact IH.
Qed.

(** No statement of the endpoints takes a set flag away. *)
Lemma keeps_flags_refl s : keeps_flags s s.
Proof. by intros id. Qed.

Lemma keeps_flags_trans s1 s2 s3 :
  keeps_flags s1 s2 -> keeps_flags s2 s3 -> keeps_flags s1 s3.
Proof. intros H1 H2 id H. auto. Qed.

Lemma has_flag_update p f s id :
  (forall r, r_request_id (f r) = r_request_id r) ->
  (forall r, r_has_comment r = true -> r_has_comment (f r) = true) ->
  has_flag id s = true ->
  has_flag id (set_service_requests (update_rows p f (service_requests s)) s) = true.
Proof.
  intros Hid Hf. unfold has_flag. cbn.
  induction (rows (service_requests s)) as [|r l IH]; cbn; [done|].
  intros H. apply orb_true_iff in H as [H|H]; apply orb_true_iff; [left|right; auto].
  apply andb_true_iff in H as [H1 H2].
  destruct (p r); [|by rewrite H1, H2].
  rewrite Hid, H1. cbn. by apply Hf.
Qed.

Lemma flagged_update p f s id :
  (forall r, r_request_id (f r) = r_request_id r) ->
  (forall r, r_has_comment r = true -> r_has_comment (f r) = true) ->
  flagged id s ->
  flagged id (set_service_requests (update_rows p f (service_requests s)) s).
Proof.
  intros Hid Hf. unfold flagged, requests_with. cbn.
  induction (rows (service_requests s)) as [|r l IH]; cbn; [done|].
  assert (E : r_request_id (if p r then f r else r) = r_request_id r)
    by (destruct (p r); auto).
  rewrite E. destruct (r_request_id r =? id); [|exact IH].
  intros F. inversion F; subst. constructor; [|auto].
  destruct (p r); auto.
Qed.

Lemma keeps_flags_set_has_comment id s : keeps_flags s (set_has_comment id s).
Proof. intros i. apply has_flag_update; auto. Qed.

Lemma keeps_flags_append_repair_parts id p s :
  keeps_flags s (append_repair_parts id p s).
Proof. intros i. apply has_flag_update; auto. Qed.

Lemma keeps_flags_set_request_master rid mid m s :
  keeps_flags s (set_request_master rid mid m s).
Proof. intros i. apply has_flag_update; auto. Qed.

Lemma keeps_flags_same_requests s s' :
  service_requests s' = service_requests s -> keeps_flags s s'.
Proof. intros E id. unfold has_flag. by rewrite E. Qed.

(** The statements of [add_comment], when they return: one comments row more
    and the flag of the request set. *)
Lemma add_comment_body_run sess data s s' :
  add_comment_body sess data s = (inr tt, s') ->
  exists rid c,
    cd_request_id data = Some (Some rid)
    /\ rows (comments s') = rows (comments s) ++ [c]
    /\ c_request_id c = rid
    /\ flagged rid s'
    /\ keeps_flags s s'.
Proof.
  unfold add_comment_body, bind. cbn beta.
  destruct (cd_request_id data) as [[rid|]|], (cd_message data) as [[msg|]|];
    cbn; try discriminate.
  set (s1 := insert_comment _ rid _ _ _ _ msg s).
  assert (K1 : keeps_flags s s1) by (by apply keeps_flags_same_requests).
  assert (C1 : forall x, comments (set_has_comment rid x) = comments x) by done.
  destruct (cd_repair_parts data) as [[parts|]|];
    [destruct (String.eqb parts "")|..]; cbn; intros [= <-];
    exists rid; eexists; (split; [done|]);
    (split; [reflexivity|]); (split; [reflexivity|]).
  - split; [apply requests_with_set_has_comment|].
    eapply keeps_flags_trans; [exact K1|apply keeps_flags_set_has_comment].
  - split.
    + apply flagged_update; auto. apply requests_with_set_has_comment.
    + eapply keeps_flags_trans; [exact K1|].
      eapply keeps_flags_trans; [apply keeps_flags_set_has_comment|].
      apply keeps_flags_append_repair_parts.
  - split; [apply requests_with_set_has_comment|].
    eapply keeps_flags_trans; [exact K1|apply keeps_flags_set_has_comment].
  - split; [apply requests_with_set_has_comment|].
    eapply keeps_flags_trans; [exact K1|apply keeps_flags_set_has_comment].
Qed.

(** POST /api/comments: a comment that is stored sets the flag of its
    request; a refused one changes nothing. *)
Lemma add_comment_run sess data s :
  let '(r, s') := add_comment sess data s in
  (success r = true ->
   exists rid c, cd_request_id data = Some (Some rid)
                 /\ rows (comments s') = rows (comments s) ++ [c]
                 /\ c_request_id c = rid /\ flagged rid s')
  /\ (success r = false -> s' = s)
  /\ keeps_flags s s'.
Proof.
  unfold add_comment. destruct (user_id sess); [|cbn; auto using keeps_flags_refl].
  - destruct (add_comment_body sess data s) as [[e|[]] s1] eqn:E; cbn.
    + repeat split; auto using keeps_flags_refl. discriminate.
    + destruct (add_comment_body_run _ _ _ _ E) as (rid & c & H1 & H2 & H3 & H4 & H5).
      repeat split; eauto 10. discriminate.
  - repeat split; auto using keeps_flags_refl. discriminate.
Qed.


(** *** Assigning a master *)



(** *** Evaluations *)

(** A comment whose master and request are both unknown is stored all the
    same. *)
Lemma load_comments_unknown_references :
  let s := (load_comments_from_xlsx
              (Samples.sheet [Samples.comment_row 1 "Готово" 5 99]) Samples.fresh).2 in
  map (fun c => (c_request_id c, c_master_id c, c_user_id c, c_message c))
      (rows (comments (db s)))
  = [(99, Some 5, None, "Готово")]
  /\ out s = [RecordsRead 1; CommentAdded (Some 1) (Some 99) (Some 5); CommentsLoaded 1].
Proof. vm_compute. done. Qed.

(** A request whose completion date is before its start date is stored. *)
Lemma load_requests_completion_before_start :
  let s := (load_requests_from_xlsx Samples.clock Missing
              (Samples.sheet [Samples.request_row 1 "2023-06-10" (Text "2023-06-01") NaN 7])
              Samples.fresh).2 in
  map (fun r => (r_request_id r, r_start_date r, r_completion_date r, r_days_in_process r))
      (rows (service_requests (db s)))
  = [(1, VText "2023-06-10", VText "2023-06-01", Some (-9))]
  /\ out s = [RecordsRead 1; RequestsLoaded 1].
Proof. vm_compute. done. Qed.

(** The request with identifier 0 and a comment for it: the comment is
    stored, the flag stays unset. *)
Lemma load_comment_for_request_zero :
  let s0 := (load_requests_from_xlsx Samples.clock Missing
               (Samples.sheet [Samples.request_row 0 "2023-06-10" NaN NaN 7])
               Samples.fresh).2 in
  let s := (load_comments_from_xlsx
              (Samples.sheet [Samples.comment_row 1 "Готово" 5 0]) s0).2 in
  map (fun r => (r_request_id r, r_has_comment r)) (rows (service_requests (db s)))
  = [(0, false)]
  /\ map (fun c => (c_request_id c, c_message c)) (rows (comments (db s)))
     = [(0, "Готово")].
Proof. vm_compute. done. Qed.

End AppFacts.

(** ** The import and the point operations of Work_DB.py *)
Module WorkDBFacts.
Import WorkDB WorkDBSpec.

Lemma require_inr {S} b e (s s' : S) u :
  require b e s = (inr u, s') -> b = true /\ s' = s.
Proof. destruct b; cbn; intros H; inversion H; auto. Qed.

Lemma require_inl {S} b e (s s' : S) e' :
  require b e s = (inl e', s') -> s' = s.
Proof. destruct b; cbn; intros H; inversion H; auto. Qed.

Lemma get_inr {S} (s s' a : S) : get s = (inr a, s') -> a = s /\ s' = s.
Proof. intros H; inversion H; auto. Qed.

(** Open a computation that returned, one bound step at a time. *)
Local Ltac open_bind H :=
  let E := fresh "E" in
  apply bind_inr in H as (? & ? & E & H);
  first [ apply lift_inr in E as [E ->]
        | apply get_inr in E as [-> ->]
        | apply require_inr in E as [E ->]
        | apply not_null_inr in E as [E ->]
        | idtac ].

(** *** Statements *)

Lemma update_user_inr id name ph hash t s s' :
  update_user id name ph hash t s = (inr tt, s') ->
  s' = set_users (update_rows (fun u => user_id u =? id)
                    (with_profile name ph hash t) (users s)) s.
Proof.
  unfold update_user. intros H. do 2 open_bind H. by inversion H.
Qed.

Lemma insert_user_inr name ph l hash t s id s' :
  insert_user name ph l hash t s = (inr id, s') ->
  existsb (fun u => String.eqb (login u) l) (rows (users s)) = false
  /\ s' = set_users
            (append_row user_id
               {| user_id := id; full_name := name; phone := ph; login := l;
                  password_hash := hash; user_type_id := t; is_active := true |}
               (users s)) s.
Proof.
  unfold insert_user. intros H. do 3 open_bind H.
  apply bind_inr in H as (? & ? & E2 & H). inversion E2; subst. inversion H; subst.
  split; [|done]. by apply negb_true_iff.
Qed.

Lemma insert_equipment_type_inr name s id s' :
  insert_equipment_type name s = (inr id, s') ->
  s' = set_equipment_types
         (append_row et_id {| et_id := id; et_name := name |} (equipment_types s)) s.
Proof.
  unfold insert_equipment_type. intros H. do 2 open_bind H.
  apply bind_inr in H as (? & ? & E2 & H). inversion E2; subst. by inversion H.
Qed.

Lemma insert_equipment_model_inr name t s id s' :
  insert_equipment_model name t s = (inr id, s') ->
  s' = set_equipment_models
         (append_row em_id {| em_id := id; em_name := name; em_type_id := t |}
            (equipment_models s)) s.
Proof.
  unfold insert_equipment_model. intros H. do 3 open_bind H.
  apply bind_inr in H as (? & ? & E2 & H). inversion E2; subst. by inversion H.
Qed.

Lemma not_null_value_inr {S} c v (s s' : S) a :
  not_null_value c v s = (inr a, s') -> a = v /\ v <> VNull /\ s' = s.
Proof. destruct v; cbn; intros H; inversion H; auto. Qed.

(** A request that is inserted passes both CHECK constraints and goes last. *)
Lemma insert_request_inr start t m problem status completion parts master client prio
    s id s' :
  insert_request start t m problem status completion parts master client prio s
  = (inr id, s') ->
  exists r,
    s' = set_repair_requests (append_row request_id r (repair_requests s)) s
    /\ request_id r = id
    /\ start_date r = start /\ completion_date r = completion
    /\ status_id r = status /\ master_id r = master /\ client = Some (client_id r)
    /\ check_dates r = true /\ check_priority r = true.
Proof.
  unfold insert_request. intros H. open_bind H.
  apply bind_inr in H as (? & ? & E1 & H).
  apply not_null_value_inr in E1 as (-> & Hnn & ->).
  do 4 open_bind H.
  apply bind_inr in H as (? & ? & E5 & H). inversion E5; subst. inversion H; subst.
  eexists. split; [reflexivity|]. cbn. auto 10.
Qed.

(** A request that is refused leaves the store alone. *)
Lemma insert_request_clean start t m problem status completion parts master client prio :
  raises_clean
    (insert_request start t m problem status completion parts master client prio).
Proof.
  intros s e s1. unfold insert_request, bind, get.
  destruct start; cbn; try (intros [= _ <-]; done);
    destruct client; cbn; try (intros [= _ <-]; done);
    unfold require; repeat (destruct (_ : bool); cbn; try (intros [= _ <-]; done));
    discriminate.
Qed.

Lemma insert_comment_inr msg master request s id s' :
  insert_comment msg master request s = (inr id, s') ->
  has_user master s = true /\ has_request request s = true
  /\ s' = set_comments
            (append_row comment_id
               {| comment_id := id; c_message := msg; c_master_id := master;
                  c_request_id := request |} (comments s)) s.
Proof.
  unfold insert_comment. intros H. do 2 open_bind H.
  apply bind_inr in H as (? & ? & E2 & H). inversion E2; subst. inversion H; subst.
  match goal with
  | G : (_ && _) = true |- _ => apply andb_true_iff in G as [? ?]
  end. auto.
Qed.

Lemma insert_comment_clean msg master request :
  raises_clean (insert_comment msg master request).
Proof.
  intros s e s1. unfold insert_comment, bind, get, require.
  destruct (_ && _); cbn; [discriminate|]. by intros [= _ <-].
Qed.

(** *** The users phase *)

Lemma find_login_some l s u :
  find_user_by_login l s = Some u -> In u (rows (users s)) /\ login u = l.
Proof.
  unfold find_user_by_login. intros H. apply find_some in H as [H1 H2].
  split; [done|]. by apply String.eqb_eq.
Qed.

Lemma find_login_none l s :
  find_user_by_login l s = None -> ~ In l (logins s).
Proof.
  unfold find_user_by_login, logins. intros H Hin.
  apply in_map_iff in Hin as (u & Hu & Hin).
  eapply find_none in H; [|exact Hin]. cbn in H. subst l.
  by rewrite String.eqb_refl in H.
Qed.

Lemma logins_update p name ph hash t s :
  logins (set_users (update_rows p (with_profile name ph hash t) (users s)) s)
  = logins s.
Proof.
  unfold logins. cbn. rewrite map_map. apply map_ext. intros u. by destruct (p u).
Qed.

(** One row of the users sheet: its login is in the table afterwards, as the
    row it already had or as one new row at the end. *)
Lemma import_user_inr sha row m s m' s' :
  import_user sha row m s = (inr m', s') ->
  exists l,
    row_login row = Some l
    /\ ((In l (logins s) /\ logins s' = logins s)
        \/ (~ In l (logins s) /\ logins s' = logins s ++ [l]))
    /\ keeps_but_users s s'.
Proof.
  unfold import_user. intros H. do 4 open_bind H.
  unfold row_get in E1. destruct (row !! "login") as [c|] eqn:L; [|discriminate].
  injection E1 as <-.
  exists (py_str c). split; [unfold row_login; by rewrite L|].
  apply bind_inr in H as (id & s1 & Eid & H).
  do 2 open_bind H. injection H as <- <-.
  destruct (find_user_by_login (py_str c) s) as [u|] eqn:F.
  - do 2 open_bind Eid. apply bind_inr in Eid as ([] & s2 & U & R).
    injection R as <- <-. apply update_user_inr in U as ->.
    split; [left|done]. split; [|apply logins_update].
    apply find_login_some in F as [F1 F2]. unfold logins.
    apply in_map_iff. eauto.
  - do 2 open_bind Eid. apply insert_user_inr in Eid as [_ ->].
    split; [right|done]. split; [by apply find_login_none|].
    unfold logins. cbn. by rewrite map_app.
Qed.

Lemma keeps_but_users_refl s : keeps_but_users s s.
Proof. by repeat split. Qed.

Lemma keeps_but_users_trans s1 s2 s3 :
  keeps_but_users s1 s2 -> keeps_but_users s2 s3 -> keeps_but_users s1 s3.
Proof. unfold keeps_but_users. intuition congruence. Qed.

(** The users loop: no login is lost, every login of the sheet is there at
    the end, distinct logins stay distinct, and a sheet that brings no new
    login leaves the list of logins as it was. *)
Lemma import_users_loop sha rows m s m' s' :
  fold_rows rows m (import_user sha) s = (inr m', s') ->
  incl (logins s) (logins s')
  /\ (forall r l, In r rows -> row_login r = Some l -> In l (logins s'))
  /\ ((forall r l, In r rows -> row_login r = Some l -> In l (logins s)) ->
      logins s' = logins s)
  /\ (NoDup (logins s) -> NoDup (logins s'))
  /\ keeps_but_users s s'.
Proof.
  revert m s. induction rows as [|row rows IH]; intros m s H; cbn in H.
  - injection H as <- <-.
    refine (conj _ (conj _ (conj _ (conj _ _))));
      auto using incl_refl, keeps_but_users_refl.
    by intros r l [].
  - apply bind_inr in H as (m1 & s1 & E & H).
    apply import_user_inr in E as (l & Hl & Hcase & K1).
    apply IH in H as (I2 & A2 & S2 & N2 & K2).
    assert (I1 : incl (logins s) (logins s1)).
    { destruct Hcase as [[_ ->]|[_ ->]]; [apply incl_refl|by apply incl_appl, incl_refl]. }
    assert (L1 : In l (logins s1)).
    { destruct Hcase as [[? ->]|[_ ->]]; [done|]. apply in_or_app. right. by left. }
    refine (conj _ (conj _ (conj _ (conj _ _)))).
    + eapply incl_tran; eauto.
    + intros r x [<-|Hr] Hx; [|eauto]. rewrite Hl in Hx. injection Hx as <-. auto.
    + intros Hall. destruct Hcase as [[_ E1]|[Hn _]].
      * rewrite S2; [exact E1|]. intros r x Hr Hx. rewrite E1.
        eapply Hall; [by right|done].
      * destruct Hn. eapply Hall; [by left|done].
    + intros Hnd. apply N2. destruct Hcase as [[_ ->]|[Hn ->]]; [done|].
      apply NoDup_app. repeat split; [done| |apply NoDup_singleton].
      intros x Hx Hx'. apply list_elem_of_In in Hx, Hx'.
      destruct Hx' as [<-|[]]. done.
    + eapply keeps_but_users_trans; eauto.
Qed.

(** *** The requests phase *)

Lemma keeps_core_refl s : keeps_core s s.
Proof. by repeat split. Qed.

Lemma keeps_core_trans s1 s2 s3 :
  keeps_core s1 s2 -> keeps_core s2 s3 -> keeps_core s1 s3.
Proof. unfold keeps_core. intuition congruence. Qed.

Lemma resolve_equipment_type_inr name memo s memo' s' :
  resolve_equipment_type name memo s = (inr memo', s') -> keeps_core s s'.
Proof.
  unfold resolve_equipment_type. destruct (memo !! name).
  - intros [= _ <-]. apply keeps_core_refl.
  - intros H. open_bind H. apply bind_inr in H as (id & s1 & E & H).
    injection H as _ <-. destruct (find_equipment_type name s).
    + injection E as _ <-. apply keeps_core_refl.
    + apply insert_equipment_type_inr in E as ->. by repeat split.
Qed.

Lemma resolve_equipment_model_inr name t k memo s memo' s' :
  resolve_equipment_model name t k memo s = (inr memo', s') -> keeps_core s s'.
Proof.
  unfold resolve_equipment_model. destruct (memo !! k).
  - intros [= _ <-]. apply keeps_core_refl.
  - intros H. open_bind H. apply bind_inr in H as (id & s1 & E & H).
    injection H as _ <-. destruct (find_equipment_model name t s).
    + injection E as _ <-. apply keeps_core_refl.
    + apply insert_equipment_model_inr in E as ->. by repeat split.
Qed.

Lemma reads_only_dict_get {S} d k : reads_only (@dict_get S d k).
Proof. unfold dict_get. destruct (d !! k); [apply reads_only_ret|apply reads_only_raise]. Qed.

Create HintDb wreads.
Local Hint Resolve reads_only_dict_get reads_only_lift reads_only_ret reads_only_if
  reads_only_not_null : wreads.

Local Hint Extern 2 (reads_only (bind _ _)) =>
  apply reads_only_bind; [|intros ?] : wreads.

(** Peel one read off a computation that returned. *)
Local Ltac read_step H :=
  cbv zeta in H;
  let E := fresh "E" in
  let s1 := fresh "s" in
  apply bind_inr in H as (? & s1 & E & H);
  match type of E with
  | ?m ?s = (_, s1) =>
      let R := fresh "R" in
      assert (R : reads_only m) by auto with wreads;
      pose proof (R _ _ _ E); subst s1; clear R
  end.

(** One row of the requests sheet that imports adds one row to
    repair_requests, a row that passes the CHECK on its dates; users,
    statuses and comments stay. *)
Lemma import_request_inr m row acc s acc' s' :
  import_request m row acc s = (inr acc', s') ->
  exists r,
    rows (repair_requests s') = rows (repair_requests s) ++ [r]
    /\ check_dates r = true
    /\ users s' = users s /\ user_types s' = user_types s
    /\ request_statuses s' = request_statuses s /\ comments s' = comments s.
Proof.
  unfold import_request. intros H.
  read_step H.
  cbv zeta in H. apply bind_inr in H as (types & s1 & Et & H).
  apply resolve_equipment_type_inr in Et as (T1 & T2 & T3 & T4 & T5).
  do 2 read_step H.
  cbv zeta in H. apply bind_inr in H as (models & s2 & Em & H).
  apply resolve_equipment_model_inr in Em as (M1 & M2 & M3 & M4 & M5).
  do 12 read_step H.
  cbv zeta in H. apply bind_inr in H as (id & s3 & Ei & H).
  apply insert_request_inr in Ei as (r & -> & _ & _ & _ & _ & _ & _ & Hd & _).
  do 2 read_step H. injection H as _ <-.
  exists r. cbn. rewrite M4, T4. repeat split; auto; congruence.
Qed.

(** The requests loop adds one row per row of the sheet. *)
Lemma import_requests_loop m sheet_rows acc s acc' s' :
  fold_rows sheet_rows acc (import_request m) s = (inr acc', s') ->
  (exists added,
     rows (repair_requests s') = rows (repair_requests s) ++ added
     /\ length added = length sheet_rows
     /\ Forall (fun r => check_dates r = true) added)
  /\ users s' = users s /\ user_types s' = user_types s
  /\ request_statuses s' = request_statuses s /\ comments s' = comments s.
Proof.
  revert acc s. induction sheet_rows as [|row sheet_rows IH]; intros acc s H; cbn in H.
  - injection H as _ <-. split; [|done]. exists []. by rewrite app_nil_r.
  - apply bind_inr in H as (acc1 & s1 & E & H).
    apply import_request_inr in E as (r & R1 & D1 & U1 & T1 & S1 & C1).
    apply IH in H as ((added & R2 & L2 & D2) & U2 & T2 & S2 & C2).
    split; [|repeat split; congruence].
    exists (r :: added). rewrite R2, R1, <- app_assoc. cbn.
    repeat split; auto.
Qed.

(** *** The comments phase *)

Lemma keeps_but_comments_refl s : keeps_but_comments s s.
Proof. by repeat split. Qed.

Lemma keeps_but_comments_trans s1 s2 s3 :
  keeps_but_comments s1 s2 -> keeps_but_comments s2 s3 -> keeps_but_comments s1 s3.
Proof. unfold keeps_but_comments. intuition congruence. Qed.

Lemma import_comment_inr m rids row n s n' s' :
  import_comment m rids row n s = (inr n', s') -> keeps_but_comments s s'.
Proof.
  unfold import_comment. intros H. do 4 read_step H.
  destruct (truthy _ && truthy _);
    [|injection H as _ <-; apply keeps_but_comments_refl].
  destruct (m !! _) as [mi|]; [|injection H as _ <-; apply keeps_but_comments_refl].
  destruct (rids !! _) as [ri|]; [|injection H as _ <-; apply keeps_but_comments_refl].
  read_step H. apply bind_inr in H as (id & s1 & Ei & H). injection H as _ <-.
  apply insert_comment_inr in Ei as (_ & _ & ->). by repeat split.
Qed.

Lemma import_comments_loop m rids rows n s n' s' :
  fold_rows rows n (import_comment m rids) s = (inr n', s') ->
  keeps_but_comments s s'.
Proof.
  revert n s. induction rows as [|row rows IH]; intros n s H; cbn in H.
  - injection H as _ <-. apply keeps_but_comments_refl.
  - apply bind_inr in H as (n1 & s1 & E & H).
    eapply keeps_but_comments_trans; [by eapply import_comment_inr|by eapply IH].
Qed.


Lemma fold_rows_app {S A B} (l1 l2 : list B) (a : A) (body : B -> A -> M S A) s :
  fold_rows (l1 ++ l2) a body s
  = bind (fold_rows l1 a body) (fun a' => fold_rows l2 a' body) s.
Proof.
  revert a s. induction l1 as [|x l1 IH]; intros a s; cbn [app fold_rows].
  - reflexivity.
  - unfold bind at 1 2 3. destruct (body x a s) as [[e|a1] s1]; [reflexivity|].
    rewrite IH. reflexivity.
Qed.



(** *** The whole run *)

(** A run that succeeds went through the three phases. *)
Lemma import_from_excel_inr sha uf rf cf s r s' :
  import_from_excel sha uf rf cf s = (r, s') -> success r = true ->
  exists m s1 loop s2 n,
    import_users sha uf s = (inr m, s1)
    /\ import_requests rf m s1 = (inr loop, s2)
    /\ import_comments cf m (request_id_mapping loop) s2 = (inr n, s').
Proof.
  unfold import_from_excel. intros H Hs.
  destruct (import_users sha uf s) as [[e|m] s1] eqn:Eu;
    [injection H as <- _; discriminate|].
  destruct (import_requests rf m s1) as [[e|loop] s2] eqn:Er;
    [injection H as <- _; discriminate|].
  destruct (import_comments cf m _ s2) as [[e|n] s3] eqn:Ec;
    [injection H as <- _; discriminate|].
  injection H as _ <-. by exists m, s1, loop, s2, n.
Qed.


Lemma read_excel_inr {S} f (s s' : S) df :
  lift (read_excel f) s = (inr df, s') -> f = Sheet df /\ s' = s.
Proof.
  intros H. apply lift_inr in H as [H ->]. split; [|done].
  destruct f; cbn in H; congruence.
Qed.

(** What a successful run does to the logins and to the requests. *)
Lemma import_from_excel_effect sha uf rf cf s r s' :
  import_from_excel sha uf rf cf s = (r, s') -> success r = true ->
  exists udf rdf added,
    uf = Sheet udf /\ rf = Sheet rdf
    /\ incl (logins s) (logins s')
    /\ (forall row l, In row (df_rows udf) -> row_login row = Some l -> In l (logins s'))
    /\ ((forall row l, In row (df_rows udf) -> row_login row = Some l -> In l (logins s)) ->
        logins s' = logins s)
    /\ (NoDup (logins s) -> NoDup (logins s'))
    /\ rows (repair_requests s') = rows (repair_requests s) ++ added
    /\ length added = length (df_rows rdf)
    /\ Forall (fun r => check_dates r = true) added.
Proof.
  intros H Hs. apply import_from_excel_inr in H as (m & s1 & loop & s2 & n & Hu & Hr & Hc);
    [|done].
  unfold import_users in Hu. apply bind_inr in Hu as (udf & ? & Eu & Hu).
  apply read_excel_inr in Eu as [-> ->].
  unfold import_requests in Hr. apply bind_inr in Hr as (rdf & ? & Er & Hr).
  apply read_excel_inr in Er as [-> ->].
  unfold import_comments in Hc. apply bind_inr in Hc as (cdf & ? & Ec & Hc).
  apply read_excel_inr in Ec as [-> ->].
  apply import_users_loop in Hu as (I1 & A1 & S1 & N1 & K1).
  apply import_requests_loop in Hr as ((added & R2 & L2 & D2) & U2 & _).
  apply import_comments_loop in Hc as (_ & U3 & _ & _ & _ & R3).
  destruct K1 as (_ & _ & _ & _ & R1 & _).
  assert (EL : logins s' = logins s1) by (unfold logins; by rewrite U3, U2).
  exists udf, rdf, added. rewrite EL, R3, R2, R1. repeat split; auto.
Qed.

(** *** Assigning a master *)











(** *** The CHECK on the dates *)







(** *** Evaluations *)

(** The same three sheets imported twice: two logins both times, one request
    after the first run, two after the second. *)
Lemma import_twice_doubles_requests :
  let run := import_from_excel Samples.digest Samples.two_users Samples.one_request
               (Samples.sheet []) in
  let '(r1, s1) := run seeded_store in
  let '(r2, s2) := run s1 in
  success r1 = true /\ success r2 = true
  /\ logins s1 = ["alice"; "bob"] /\ logins s2 = ["alice"; "bob"]
  /\ length (rows (repair_requests s1)) = 1%nat
  /\ length (rows (repair_requests s2)) = 2%nat.
Proof. vm_compute. repeat split. Qed.

(** A request row with an unknown client, followed by a sound one: the run
    fails, nothing is stored, the sound row included. *)
Lemma import_aborts_on_bad_row :
  import_from_excel Samples.digest Samples.two_users
    (Samples.sheet [ Samples.request_row 1 "2023-06-06" NaN NaN 9;
                     Samples.request_row 2 "2023-06-07" NaN NaN 1 ])
    (Samples.sheet []) seeded_store
  = (failure (RequestsImportError (IntegrityError "repair_requests.client_id")),
     seeded_store).
Proof. vm_compute. reflexivity. Qed.

End WorkDBFacts.

(** ** The schema repair of App.py *)
Module MigrationFacts.
Import Migration MigrationSpec.

Lemma same_but_refl name d : same_but name d d.
Proof. by intros n. Qed.

Lemma same_but_trans name d1 d2 d3 :
  same_but name d1 d2 -> same_but name d2 d3 -> same_but name d1 d3.
Proof. intros H1 H2 n Hn. rewrite H2, H1; auto. Qed.

(** One INSERT touches its table only, keeps it in place, and prints
    nothing, whether it returns or raises. *)
Lemma insert_row_run now name cols vals s r s' :
  insert_row now name cols vals s = (r, s') ->
  out s' = out s /\ same_but name (db s) (db s')
  /\ (is_Some (db s !! name) -> is_Some (db s' !! name)).
Proof.
  unfold insert_row. destruct (db s !! name) as [t|] eqn:E.
  - destruct (negb (Nat.eqb _ _)); [intros [= _ <-]; rewrite E; auto using same_but_refl|].
    destruct (negb (forallb _ _)); [intros [= _ <-]; rewrite E; auto using same_but_refl|].
    destruct (stored_row _ _ _ _ _); intros [= _ <-];
      [rewrite E; auto using same_but_refl|].
    cbn. split; [done|]. split.
    + intros n Hn. by rewrite lookup_insert_ne.
    + intros _. rewrite lookup_insert_eq. by eexists.
  - intros [= _ <-]. rewrite E. auto using same_but_refl.
Qed.

Lemma executemany_run now name cols rows s r s' :
  executemany now name cols rows s = (r, s') ->
  out s' = out s /\ same_but name (db s) (db s')
  /\ (is_Some (db s !! name) -> is_Some (db s' !! name)).
Proof.
  unfold executemany. revert s.
  induction rows as [|row rows IH]; intros s; cbn [for_each].
  - intros [= _ <-]. auto using same_but_refl.
  - unfold bind. destruct (insert_row now name cols row s) as [[e|[]] s1] eqn:E.
    + intros [= _ <-]. by eapply insert_row_run.
    + intros H. apply IH in H as (O2 & D2 & P2).
      apply insert_row_run in E as (O1 & D1 & P1).
      split; [congruence|]. split; [by eapply same_but_trans|auto].
Qed.

Lemma reads_only_table_info name : reads_only (table_info name).
Proof. intros s r s1 [= _ <-]. done. Qed.

Lemma reads_only_select items name : reads_only (select items name).
Proof.
  intros s r s1. unfold select. destruct (db s !! name); [|by intros [= _ <-]].
  destruct (select_rows _ _ _); by intros [= _ <-].
Qed.

Lemma select_inr items name s rows s' :
  select items name s = (inr rows, s') -> is_Some (db s !! name).
Proof. unfold select. destruct (db s !! name); [by eexists|discriminate]. Qed.

(** When the [try] block raises, nothing was printed and no table but
    comments_new differs from what the block found. *)
Lemma copy_and_swap_raises now s e s1 :
  is_Some (db s !! "comments_new") ->
  copy_and_swap now s = (inl e, s1) ->
  out s1 = out s /\ same_but "comments_new" (db s) (db s1).
Proof.
  intros Hnew. unfold copy_and_swap. intros H.
  apply bind_inl in H as [H|(names & s0 & E & H)].
  { apply reads_only_table_info in H as ->. auto using same_but_refl. }
  apply reads_only_table_info in E as ->.
  destruct (copy_plan names) as [select_columns insert_columns].
  apply bind_inl in H as [H|(rows & s0 & E & H)].
  { apply reads_only_select in H as ->. auto using same_but_refl. }
  pose proof (select_inr _ _ _ _ _ E) as Hold.
  apply reads_only_select in E as ->.
  apply bind_inl in H as [H|([] & s2 & E & H)].
  { destruct rows; [discriminate|]. by apply executemany_run in H as (? & ? & _). }
  assert (R2 : out s2 = out s /\ same_but "comments_new" (db s) (db s2)
               /\ is_Some (db s2 !! "comments_new")).
  { destruct rows; [injection E as <-; auto using same_but_refl|].
    apply executemany_run in E as (? & ? & ?). auto. }
  destruct R2 as (O2 & D2 & N2).
  assert (Hold2 : is_Some (db s2 !! "comments")) by (rewrite D2; done).
  apply bind_inl in H as [H|([] & s3 & E3 & H)].
  { unfold drop_table in H. destruct Hold2 as [t Ht]. rewrite Ht in H. discriminate. }
  unfold drop_table in E3. destruct Hold2 as [t Ht]. rewrite Ht in E3.
  injection E3 as <-.
  apply bind_inl in H as [H|([] & s4 & E4 & H)]; [|discriminate].
  unfold rename_table in H. cbn [db] in H.
  rewrite lookup_delete_ne in H by done. destruct N2 as [tn Htn]. rewrite Htn in H.
  rewrite lookup_delete_eq in H. discriminate.
Qed.

(** The repair when the copy fails: the failure is printed, comments_new is
    gone, and every other table, comments first, is as it was. *)
Lemma repair_comments_failed now s e s1 :
  missing_columns s <> [] ->
  copy_and_swap now (prepared s) = (inl e, s1) ->
  exists s',
    repair_comments now s = (inr tt, s')
    /\ out s' = out s ++ [ MissingColumns (missing_columns s); FixingComments;
                           CommentsUpdateError e; NewCommentsCreated ]
    /\ db s' !! "comments" = db s !! "comments"
    /\ db s' !! "comments_new" = None
    /\ same_but "comments_new" (db s) (db s')
    /\ (db s !! "comments_new" = None -> db s' = db s).
Proof.
  intros Hmiss Hcopy.
  assert (Hnew : is_Some (db (prepared s) !! "comments_new")).
  { unfold prepared. cbn. destruct (db s !! "comments_new") eqn:E; [by rewrite E|].
    rewrite lookup_insert_eq. by eexists. }
  destruct (copy_and_swap_raises _ _ _ _ Hnew Hcopy) as [O1 D1].
  assert (D0 : same_but "comments_new" (db s) (db (prepared s))).
  { unfold prepared. cbn. destruct (db s !! "comments_new"); [apply same_but_refl|].
    intros n Hn. by rewrite lookup_insert_ne. }
  exists {| db := delete "comments_new" (db s1);
            out := (out s1 ++ [CommentsUpdateError e]) ++ [NewCommentsCreated] |}.
  assert (Dfin : same_but "comments_new" (db s) (delete "comments_new" (db s1))).
  { intros n Hn. rewrite lookup_delete_ne by done. rewrite D1, D0; auto. }
  split; [|split; [|split; [|split; [|split]]]]; cbn [db out].
  - unfold repair_comments, bind, table_info. cbn [db out].
    fold (missing_columns s). destruct (missing_columns s) as [|c l] eqn:Em; [done|].
    unfold print, create_table_if_not_exists, modify, try_except. cbn [db out].
    rewrite <- Em. rewrite <- app_assoc. cbn [app].
    change {| db := match db s !! "comments_new" with
                    | Some _ => db s
                    | None => <["comments_new" := {| g_columns := comments_new_columns;
                                                    g_rows := []; g_seq := 0 |}]> (db s)
                    end;
              out := out s ++ [MissingColumns (missing_columns s); FixingComments] |}
      with (prepared s).
    rewrite Hcopy. unfold drop_table_if_exists, modify. reflexivity.
  - rewrite O1. unfold prepared. cbn [out]. by rewrite <- !app_assoc.
  - by apply Dfin.
  - apply lookup_delete_eq.
  - exact Dfin.
  - intros Hn. apply map_eq. intros n.
    destruct (decide (n = "comments_new")) as [->|Hne]; [|by apply Dfin].
    by rewrite lookup_delete_eq, Hn.
Qed.

(** The old table of the sample cannot be copied: its second row has no
    message. *)
Lemma old_store_copy_fails :
  MigrationSpec.missing_columns Samples.old_store <> []
  /\ exists s1,
      copy_and_swap Samples.clock (prepared Samples.old_store)
      = (inl (IntegrityError "NOT NULL message"), s1).
Proof. split; [by vm_compute|]. eexists. vm_compute. reflexivity. Qed.




End MigrationFacts.

(** * The properties of the specification *)

(** ** Importing twice *)

(** C1, as worded, fails on Work_DB.py: the sample sheets imported twice from
    the seeded store leave two requests where one run leaves one, although
    the requests sheet holds the same single identifier both times. *)
Lemma C1_second_run_adds_requests : ~ Stated.second_run_changes_nothing.
Proof.
  intros H.
  specialize (H Samples.digest Samples.two_users Samples.one_request
                (Samples.sheet []) WorkDB.seeded_store).
  vm_compute in H. destruct H as [_ H]; [reflexivity..|discriminate].
Qed.

(** C1, amended: when [import_from_excel] of Work_DB.py succeeds twice on the
    same three files, the second run leaves the list of user logins exactly
    as the first run left it and keeps it free of duplicates, while the
    number of repair requests grows by the number of rows of the requests
    sheet on the second run just as on the first. *)
Theorem C1_second_run sha uf rf cf s :
  let run := WorkDB.import_from_excel sha uf rf cf in
  WorkDB.success (run s).1 = true ->
  WorkDB.success (run (run s).2).1 = true ->
  exists rdf,
    rf = Sheet rdf
    /\ WorkDBSpec.logins (run (run s).2).2 = WorkDBSpec.logins (run s).2
    /\ (NoDup (WorkDBSpec.logins s) -> NoDup (WorkDBSpec.logins (run (run s).2).2))
    /\ length (rows (WorkDB.repair_requests (run s).2))
       = (length (rows (WorkDB.repair_requests s)) + length (df_rows rdf))%nat
    /\ length (rows (WorkDB.repair_requests (run (run s).2).2))
       = (length (rows (WorkDB.repair_requests (run s).2)) + length (df_rows rdf))%nat.
Proof.
  cbv zeta.
  destruct (WorkDB.import_from_excel sha uf rf cf s) as [r1 s1] eqn:E1. cbn [fst snd].
  destruct (WorkDB.import_from_excel sha uf rf cf s1) as [r2 s2] eqn:E2. cbn [fst snd].
  intros H1 H2.
  destruct (WorkDBFacts.import_from_excel_effect _ _ _ _ _ _ _ E1 H1)
    as (udf & rdf & added1 & -> & -> & _ & A1 & _ & N1 & R1 & L1 & _).
  destruct (WorkDBFacts.import_from_excel_effect _ _ _ _ _ _ _ E2 H2)
    as (udf' & rdf' & added2 & [= <-] & [= <-] & _ & _ & S2 & N2 & R2 & L2 & _).
  exists rdf. split; [reflexivity|]. split; [exact (S2 A1)|].
  split; [auto|]. split.
  - by rewrite R1, length_app, L1.
  - by rewrite R2, length_app, L2.
Qed.

Lemma C1_second_run_sample :
  let run := WorkDB.import_from_excel Samples.digest Samples.two_users
               Samples.one_request (Samples.sheet []) in
  exists rdf,
    Samples.one_request = Sheet rdf
    /\ WorkDBSpec.logins (run (run WorkDB.seeded_store).2).2
       = WorkDBSpec.logins (run WorkDB.seeded_store).2
    /\ (NoDup (WorkDBSpec.logins WorkDB.seeded_store) ->
        NoDup (WorkDBSpec.logins (run (run WorkDB.seeded_store).2).2))
    /\ length (rows (WorkDB.repair_requests (run WorkDB.seeded_store).2))
       = (length (rows (WorkDB.repair_requests WorkDB.seeded_store))
          + length (df_rows rdf))%nat
    /\ length (rows (WorkDB.repair_requests (run (run WorkDB.seeded_store).2).2))
       = (length (rows (WorkDB.repair_requests (run WorkDB.seeded_store).2))
          + length (df_rows rdf))%nat.
Proof.
  apply (C1_second_run Samples.digest Samples.two_users Samples.one_request
           (Samples.sheet []) WorkDB.seeded_store); vm_compute; reflexivity.
Defined.

(** ** Repairing the comments table *)



(** ** Rows that fail *)

(** C3, as worded, fails on Work_DB.py: a request row with an unknown client
    ahead of a sound row makes the whole run fail, though the run over the
    sound row alone succeeds. *)
Lemma C3_bad_row_aborts_import : ~ Stated.failing_row_is_skipped.
Proof.
  intros H.
  pose (m := (WorkDB.import_users Samples.digest Samples.two_users WorkDB.seeded_store)).
  specialize (H Samples.digest Samples.two_users (Samples.sheet []) []
                (Samples.request_row 1 "2023-06-06" NaN NaN 9)
                [Samples.request_row 2 "2023-06-07" NaN NaN 1]
                WorkDB.seeded_store
                (match m.1 with inr d => d | inl _ => ∅ end) m.2
                {| WorkDB.equipment_types_memo := ∅; WorkDB.equipment_models_memo := ∅;
                   WorkDB.request_id_mapping := ∅ |}
                m.2
                (IntegrityError "repair_requests.client_id")
                (WorkDB.import_request (match m.1 with inr d => d | inl _ => ∅ end)
                   (Samples.request_row 1 "2023-06-06" NaN NaN 9)
                   {| WorkDB.equipment_types_memo := ∅; WorkDB.equipment_models_memo := ∅;
                      WorkDB.request_id_mapping := ∅ |} m.2).2).
  assert (F : WorkDB.success
                (WorkDB.import_from_excel Samples.digest Samples.two_users
                   (Samples.sheet ([] ++ Samples.request_row 1 "2023-06-06" NaN NaN 9
                                      :: [Samples.request_row 2 "2023-06-07" NaN NaN 1]))
                   (Samples.sheet []) WorkDB.seeded_store).1 = false)
    by (vm_compute; reflexivity).
  rewrite H in F; [discriminate|vm_compute; reflexivity..].
Qed.

(** C3, amended: in the users and requests loops of App.py a row whose body
    raises leaves the store as it was, its index and the exception go to the
    console, and the loop goes on with the rows after it; in
    [import_from_excel] of Work_DB.py a users or requests row that raises
    ends the run, which returns a failure naming the phase and leaves the
    store as it was before the run. *)
Theorem C3_row_failures :
  (forall hash idx row rest s e s1,
      App.load_user_row hash idx row s = (inl e, s1) ->
      s1 = s
      /\ for_each ((idx, row) :: rest)
           (fun '(i, r) => App.load_user_row_guarded hash i r) s
         = for_each rest (fun '(i, r) => App.load_user_row_guarded hash i r)
             {| App.db := App.db s;
                App.out := App.out s ++ [App.UserRowError idx e] |})
  /\ (forall now df idx row rest s e s1,
      (if App.in_columns "client_id" df
       then App.load_request_row_combined now idx row
       else App.load_request_row_input now idx row) s = (inl e, s1) ->
      s1 = s
      /\ for_each ((idx, row) :: rest)
           (fun '(i, r) => App.load_request_row now df i r) s
         = for_each rest (fun '(i, r) => App.load_request_row now df i r)
             {| App.db := App.db s;
                App.out := App.out s ++ [App.RequestRowError idx e] |})
  /\ (forall sha rf cf before row after s m s1 e s2,
      WorkDB.fold_rows before ∅ (WorkDB.import_user sha) s = (inr m, s1) ->
      WorkDB.import_user sha row m s1 = (inl e, s2) ->
      WorkDB.import_from_excel sha (Samples.sheet (before ++ row :: after)) rf cf s
      = (WorkDB.failure (WorkDB.UsersImportError e), s))
  /\ (forall sha uf cf before row after s m s1 acc s2 e s3,
      WorkDB.import_users sha uf s = (inr m, s1) ->
      WorkDB.fold_rows before
        {| WorkDB.equipment_types_memo := ∅; WorkDB.equipment_models_memo := ∅;
           WorkDB.request_id_mapping := ∅ |}
        (WorkDB.import_request m) s1 = (inr acc, s2) ->
      WorkDB.import_request m row acc s2 = (inl e, s3) ->
      WorkDB.import_from_excel sha uf (Samples.sheet (before ++ row :: after)) cf s
      = (WorkDB.failure (WorkDB.RequestsImportError e), s)).
Proof.
  split; [|split; [|split]].
  - intros hash idx row rest s e s1 H.
    pose proof (AppFacts.load_user_row_clean hash idx row s e s1 H) as ->.
    split; [reflexivity|]. cbn [for_each]. unfold bind at 1.
    destruct (AppFacts.load_user_row_guarded_run hash idx row s)
      as [(s' & E & _)|(e' & E & ->)]; [congruence|].
    rewrite H in E. by injection E as <-.
  - intros now df idx row rest s e s1 H.
    pose proof (AppFacts.load_request_row_clean now df idx row s e s1 H) as ->.
    split; [reflexivity|]. cbn [for_each]. unfold bind at 1.
    destruct (AppFacts.load_request_row_run now df idx row s)
      as [(s' & E & _)|(e' & E & ->)]; cbv zeta in E; [congruence|].
    rewrite H in E. by injection E as <-.
  - intros sha rf cf before row after s m s1 e s2 Hb Hr.
    unfold WorkDB.import_from_excel, Samples.sheet.
    change (WorkDB.import_users sha (Sheet _) s)
      with (WorkDB.fold_rows (before ++ row :: after) ∅ (WorkDB.import_user sha) s).
    rewrite WorkDBFacts.fold_rows_app. unfold bind at 1. rewrite Hb.
    cbn [WorkDB.fold_rows]. unfold bind at 1. by rewrite Hr.
  - intros sha uf cf before row after s m s1 acc s2 e s3 Hu Hb Hr.
    unfold WorkDB.import_from_excel. rewrite Hu.
    unfold Samples.sheet.
    change (WorkDB.import_requests (Sheet _) m s1)
      with (WorkDB.fold_rows (before ++ row :: after)
              {| WorkDB.equipment_types_memo := ∅; WorkDB.equipment_models_memo := ∅;
                 WorkDB.request_id_mapping := ∅ |}
              (WorkDB.import_request m) s1).
    rewrite WorkDBFacts.fold_rows_app. unfold bind at 1. rewrite Hb.
    cbn [WorkDB.fold_rows]. unfold bind at 1. by rewrite Hr.
Qed.

Lemma C3_row_failures_sample :
  WorkDB.import_from_excel Samples.digest Samples.two_users
    (Samples.sheet ([] ++ Samples.request_row 1 "2023-06-06" NaN NaN 9
                       :: [Samples.request_row 2 "2023-06-07" NaN NaN 1]))
    (Samples.sheet []) WorkDB.seeded_store
  = (WorkDB.failure
       (WorkDB.RequestsImportError (IntegrityError "repair_requests.client_id")),
     WorkDB.seeded_store).
Proof.
  pose (u := WorkDB.import_users Samples.digest Samples.two_users WorkDB.seeded_store).
  pose (m := match u.1 with inr d => d | inl _ => ∅ end).
  pose (acc := {| WorkDB.equipment_types_memo := ∅; WorkDB.equipment_models_memo := ∅;
                  WorkDB.request_id_mapping := ∅ |}).
  apply (proj2 (proj2 (proj2 C3_row_failures)) Samples.digest Samples.two_users
           (Samples.sheet []) [] (Samples.request_row 1 "2023-06-06" NaN NaN 9)
           [Samples.request_row 2 "2023-06-07" NaN NaN 1]
           WorkDB.seeded_store m u.2 acc u.2
           (IntegrityError "repair_requests.client_id")
           (WorkDB.import_request m (Samples.request_row 1 "2023-06-06" NaN NaN 9)
              acc u.2).2);
    vm_compute; reflexivity.
Defined.

(** ** Comments without a target *)




(** ** Assigning a master *)



(** ** What an assignment writes *)



(** ** The has_comment flag *)

(** C7: on App.py the claim breaks for the request with identifier 0. Loaded
    from the sheets, the request 0 and a comment for it end with the comment
    stored and the flag of the request still unset. *)
Theorem C7_comment_for_request_zero :
  let s0 := (App.load_requests_from_xlsx Samples.clock Missing
               (Samples.sheet [Samples.request_row 0 "2023-06-10" NaN NaN 7])
               Samples.fresh).2 in
  let s := (App.load_comments_from_xlsx
              (Samples.sheet [Samples.comment_row 1 "Готово" 5 0]) s0).2 in
  map (fun r => (App.r_request_id r, App.r_has_comment r))
    (rows (App.service_requests (App.db s0))) = [(0, false)]
  /\ map (fun r => (App.r_request_id r, App.r_has_comment r))
       (rows (App.service_requests (App.db s))) = [(0, false)]
  /\ map (fun c => (App.c_request_id c, App.c_message c)) (rows (App.comments (App.db s)))
     = [(0, "Готово")]
  /\ AppSpec.has_flag 0 (App.db s) = false.
Proof. vm_compute. done. Qed.

(** ** Completion after start *)




(** ** Days in process *)



(** ** Default accounts *)

(** C10: when inputDataUsers.xlsx is missing or reading it raises,
    [load_users_from_xlsx] of App.py returns without raising after
    [create_default_users]: the seven entries (two of type admin, the second
    being manager1, two masters, one operator, two clients) are inserted
    where their login is free, both master logins are then in the masters
    table, no login that was there is lost and no other table changes; on
    empty users and masters tables the accounts are exactly these seven and
    the masters rows exactly the two masters. *)
Theorem C10_default_users hash f s :
  f = Missing \/ (exists e, f = Unreadable e) ->
  exists o,
    let d := AppSpec.default_users_effect hash (App.db s) in
    App.load_users_from_xlsx hash f s
    = (inr tt, {| App.db := d; App.out := App.out s ++ o ++ [App.DefaultUsersCreated] |})
    /\ map (fun u => (u.1.1.1.1, u.2)) App.default_users
       = [ ("admin", "admin"); ("manager1", "admin"); ("master1", "master");
           ("master2", "master"); ("operator1", "operator"); ("client1", "client");
           ("client2", "client") ]
    /\ Forall (fun u => AppSpec.has_login (u.1.1.1.1) d = true
                        /\ (u.2 = "master" ->
                            AppSpec.has_master_login (u.1.1.1.1) d = true))
         App.default_users
    /\ (forall x, AppSpec.has_login x (App.db s) = true -> AppSpec.has_login x d = true)
    /\ App.service_requests d = App.service_requests (App.db s)
    /\ App.comments d = App.comments (App.db s)
    /\ App.status_history d = App.status_history (App.db s)
    /\ (rows (App.users (App.db s)) = [] -> rows (App.masters (App.db s)) = [] ->
        map AppSpec.account (rows (App.users d))
        = map (AppSpec.default_account hash) App.default_users
        /\ map AppSpec.master_card (rows (App.masters d))
           = map AppSpec.card_of_user
               (List.filter (fun u => String.eqb (App.u_user_type u) "master")
                  (rows (App.users d)))).
Proof.
  intros Hf. destruct (AppFacts.load_users_fallback hash f s Hf) as [o E].
  exists o. cbv zeta. split; [exact E|]. split; [reflexivity|].
  destruct (AppFacts.default_loop_spec hash App.default_users (App.db s))
    as (K & _ & F & R & C & Hh).
  fold (AppSpec.default_users_effect hash (App.db s)) in K, F, R, C, Hh.
  do 5 (split; [assumption|]).
  intros Hu Hm. destruct s as [[[u uq] [m mq] rq cq hq] o']. cbn in Hu, Hm. subst u m.
  apply AppFacts.default_users_fresh.
Qed.

Lemma C10_default_users_sample :
  exists o,
    let d := AppSpec.default_users_effect Samples.digest (App.db Samples.fresh) in
    App.load_users_from_xlsx Samples.digest Missing Samples.fresh
    = (inr tt, {| App.db := d;
                  App.out := App.out Samples.fresh ++ o ++ [App.DefaultUsersCreated] |})
    /\ map (fun u => (u.1.1.1.1, u.2)) App.default_users
       = [ ("admin", "admin"); ("manager1", "admin"); ("master1", "master");
           ("master2", "master"); ("operator1", "operator"); ("client1", "client");
           ("client2", "client") ]
    /\ Forall (fun u => AppSpec.has_login (u.1.1.1.1) d = true
                        /\ (u.2 = "master" ->
                            AppSpec.has_master_login (u.1.1.1.1) d = true))
         App.default_users
    /\ (forall x, AppSpec.has_login x (App.db Samples.fresh) = true ->
                  AppSpec.has_login x d = true)
    /\ App.service_requests d = App.service_requests (App.db Samples.fresh)
    /\ App.comments d = App.comments (App.db Samples.fresh)
    /\ App.status_history d = App.status_history (App.db Samples.fresh)
    /\ (rows (App.users (App.db Samples.fresh)) = [] ->
        rows (App.masters (App.db Samples.fresh)) = [] ->
        map AppSpec.account (rows (App.users d))
        = map (AppSpec.default_account Samples.digest) App.default_users
        /\ map AppSpec.master_card (rows (App.masters d))
           = map AppSpec.card_of_user
               (List.filter (fun u => String.eqb (App.u_user_type u) "master")
                  (rows (App.users d)))).
Proof.
  apply (C10_default_users Samples.digest Missing Samples.fresh).
  left. reflexivity.
Defined.

(** * Further properties of the two programs *)

(** ** Keys *)

(** The key handed to a new row is above every key of the table and above
    the counter, so no key is used twice. *)
Lemma next_rowid_above {A} (key : A -> Z) (t : table A) x :
  In x (rows t) -> key x < next_rowid key t.
Proof.
  unfold next_rowid. generalize (Z.max 0 (seq t)). intros b.
  induction (rows t) as [|y l IH]; cbn; [done|].
  intros [->|H]; [lia|]. specialize (IH H). lia.
Qed.

Lemma next_rowid_positive {A} (key : A -> Z) (t : table A) :
  0 < next_rowid key t /\ seq t < next_rowid key t.
Proof.
  unfold next_rowid.
  assert (H : forall b l, b <= fold_right Z.max b l).
  { intros b l. induction l as [|y l IH]; cbn; lia. }
  specialize (H (Z.max 0 (seq t)) (map key (rows t))). lia.
Qed.

(** A computation whose continuation always raises always raises. *)
Lemma bind_always_raises {S A B} (m : M S A) (k : A -> M S B) s :
  (forall a s1, exists e s', k a s1 = (inl e, s')) ->
  exists e s', bind m k s = (inl e, s').
Proof.
  intros H. unfold bind. destruct (m s) as [[e|a] s1]; [eauto|apply H].
Qed.

Lemma find_none_existsb {A} (p : A -> bool) (l : list A) :
  List.find p l = None -> existsb p l = false.
Proof.
  intros H. destruct (existsb p l) eqn:E; [|done].
  apply existsb_exists in E as (x & Hin & Hx).
  eapply find_none in H; [|exact Hin]. congruence.
Qed.

(** ** Work_DB.py *)
Module WorkDBMore.
Import WorkDB WorkDBSpec WorkDBFacts.

Lemma find_request_has request s :
  has_request request s = true <-> is_Some (find_request request s).
Proof.
  unfold has_request, find_request. split.
  - intros H. apply existsb_exists in H as (r & Hin & Hr).
    destruct (List.find _ _) eqn:E; [by eexists|].
    eapply find_none in E; [|exact Hin]. cbn in E. congruence.
  - intros [r H]. apply find_some in H as [H1 H2].
    apply existsb_exists. eauto.
Qed.

Lemma find_status_has name s t :
  find_status name s = Some t -> has_status (rs_id t) s = true.
Proof.
  unfold find_status, has_status. intros H. apply find_some in H as [H1 _].
  apply existsb_exists. exists t. split; [done|apply Z.eqb_refl].
Qed.

Lemma master_or_manager_has_user id s :
  is_master_or_manager id s = true -> has_user id s = true.
Proof.
  unfold is_master_or_manager, has_user. intros H.
  apply existsb_exists in H as (u & Hin & Hu).
  apply andb_true_iff in Hu as [Hid _].
  apply existsb_exists. eauto.
Qed.

Lemma has_request_update p f (s : store) id :
  (forall r, request_id (f r) = request_id r) ->
  has_request id (set_repair_requests (update_rows p f (repair_requests s)) s)
  = has_request id s.
Proof.
  intros Hf. unfold has_request. cbn.
  induction (rows (repair_requests s)) as [|r l IH]; cbn; [done|].
  rewrite IH. f_equal. destruct (p r); [by rewrite Hf|done].
Qed.

Lemma update_rows_none {A} (p : A -> bool) f (l : list A) :
  existsb p l = false -> map (fun r => if p r then f r else r) l = l.
Proof.
  induction l as [|r l IH]; cbn; [done|].
  intros H. apply orb_false_iff in H as [H1 H2]. by rewrite H1, IH.
Qed.

Lemma check_dates_with_status status today r :
  check_dates (with_status status (VText today) r)
  = match value_ge (VText today) (start_date r) with
    | Some false => false
    | _ => true
    end.
Proof. reflexivity. Qed.

(** The get-or-create blocks of [create_request]. *)
Lemma equipment_type_resolved name s :
  exists id s1,
    match find_equipment_type name s with
    | Some t => ret (et_id t)
    | None => insert_equipment_type name
    end s = (inr id, s1)
    /\ has_equipment_type id s1 = true
    /\ users s1 = users s /\ request_statuses s1 = request_statuses s
    /\ equipment_models s1 = equipment_models s
    /\ repair_requests s1 = repair_requests s.
Proof.
  destruct (find_equipment_type name s) as [t|] eqn:F.
  - exists (et_id t), s. split; [done|]. split; [|done].
    apply find_some in F as [F _]. apply existsb_exists.
    exists t. split; [done|apply Z.eqb_refl].
  - unfold insert_equipment_type, bind, get, require, put.
    unfold find_equipment_type in F. rewrite (find_none_existsb _ _ F). cbn.
    eexists _, _. split; [reflexivity|]. split; [|done].
    unfold has_equipment_type. cbn. rewrite existsb_app. cbn.
    by rewrite Z.eqb_refl, orb_true_r.
Qed.

Lemma equipment_model_resolved name type_id s :
  has_equipment_type type_id s = true ->
  exists id s1,
    match find_equipment_model name type_id s with
    | Some m => ret (em_id m)
    | None => insert_equipment_model name type_id
    end s = (inr id, s1)
    /\ has_equipment_model id s1 = true
    /\ users s1 = users s /\ request_statuses s1 = request_statuses s
    /\ equipment_types s1 = equipment_types s
    /\ repair_requests s1 = repair_requests s.
Proof.
  intros Ht. destruct (find_equipment_model name type_id s) as [m|] eqn:F.
  - exists (em_id m), s. split; [done|]. split; [|done].
    apply find_some in F as [F _]. apply existsb_exists.
    exists m. split; [done|apply Z.eqb_refl].
  - unfold insert_equipment_model, bind, get, require, put.
    unfold find_equipment_model in F. rewrite (find_none_existsb _ _ F), Ht. cbn.
    eexists _, _. split; [reflexivity|]. split; [|done].
    unfold has_equipment_model. cbn. rewrite existsb_app. cbn.
    by rewrite Z.eqb_refl, orb_true_r.
Qed.

(** *** Accounts *)

(** Open a computation that returned, one bound step at a time. *)
Local Ltac step H :=
  let E := fresh "E" in
  apply bind_inr in H as (? & ? & E & H);
  first [ apply lift_inr in E as [E ->]
        | apply get_inr in E as [-> ->]
        | apply require_inr in E as [E ->]
        | idtac ].

Lemma row_get_inr row c v : row_get row c = inr v -> row !! c = Some v.
Proof. unfold row_get. destruct (row !! c); [by intros [= ->]|discriminate]. Qed.

(** What a row of the users sheet that imports does to the store. *)
Lemma import_user_cases sha row m s m' s' :
  import_user sha row m s = (inr m', s') ->
  exists tc pc lc fc phc,
    row !! "type" = Some tc /\ row !! "password" = Some pc
    /\ row !! "login" = Some lc
    /\ has_user_type (type_mapping tc) s = true
    /\ ((exists u, find_user_by_login (py_str lc) s = Some u
                   /\ s' = set_users
                             (update_rows (fun x => user_id x =? user_id u)
                                (with_profile (py_str fc) (py_str phc)
                                   (sha (py_str pc)) (type_mapping tc))
                                (users s)) s)
        \/ (find_user_by_login (py_str lc) s = None
            /\ s' = set_users
                      (append_row user_id
                         {| user_id := next_rowid user_id (users s);
                            full_name := py_str fc; phone := py_str phc;
                            login := py_str lc;
                            password_hash := sha (py_str pc);
                            user_type_id := type_mapping tc;
                            is_active := true |}
                         (users s)) s)).
Proof.
  unfold import_user. intros H. do 4 step H.
  apply row_get_inr in E, E0, E1.
  apply bind_inr in H as (id & s1 & Eid & H).
  do 2 step H. injection H as <- <-.
  destruct (find_user_by_login _ s) as [u|] eqn:F.
  - do 2 step Eid. apply bind_inr in Eid as ([] & s2 & U & R).
    injection R as <- <-.
    unfold update_user in U. do 2 step U. injection U as <-.
    eexists _, _, _, _, _. do 3 (split; [eassumption|]).
    apply find_login_some in F as F'. destruct F' as [Hin _].
    assert (Hu : has_user (user_id u) s = true).
    { apply existsb_exists. exists u. split; [done|apply Z.eqb_refl]. }
    match goal with
    | G : negb _ || _ = true |- _ => rewrite Hu in G; cbn in G; split; [exact G|]
    end.
    left. eauto.
  - do 2 step Eid. unfold insert_user in Eid. do 3 step Eid.
    apply bind_inr in Eid as (? & ? & P & R). injection P as <-. injection R as <- <-.
    eexists _, _, _, _, _. do 3 (split; [eassumption|]).
    split; [eassumption|]. right. eauto.
Qed.

Lemma nodup_key_eq {A} (key : A -> Z) (l : list A) x y :
  NoDup (map key l) -> In x l -> In y l -> key x = key y -> x = y.
Proof.
  induction l as [|a l IH]; cbn; [done|].
  intros Hnd [->|Hx] [->|Hy] E; [done| | |].
  - apply NoDup_cons in Hnd as [Hn _]. destruct Hn.
    apply list_elem_of_In, in_map_iff. eauto.
  - apply NoDup_cons in Hnd as [Hn _]. destruct Hn.
    apply list_elem_of_In, in_map_iff. eauto.
  - apply NoDup_cons in Hnd as [_ Hnd]. auto.
Qed.

(** The row leaves its account in the table. *)
Lemma import_user_account sha row m s m' s' lc pc :
  import_user sha row m s = (inr m', s') ->
  row !! "login" = Some lc -> row !! "password" = Some pc ->
  account_with (py_str lc) (sha (py_str pc)) s'.
Proof.
  intros H Hl Hp.
  apply import_user_cases in H
    as (tc & pc' & lc' & fc & phc & Ht & Hp' & Hl' & Hty & Hcase).
  rewrite Hl in Hl'. injection Hl' as <-. rewrite Hp in Hp'. injection Hp' as <-.
  destruct Hcase as [(u & F & ->)|(F & ->)].
  - apply find_login_some in F as [Hin Hlog].
    exists (with_profile (py_str fc) (py_str phc) (sha (py_str pc)) (type_mapping tc) u).
    split; [|by repeat split].
    cbn. apply in_map_iff. exists u. by rewrite Z.eqb_refl.
  - eexists. split; [cbn; apply in_or_app; right; left; reflexivity|].
    by repeat split.
Qed.

(** The keys of users stay distinct. *)
Lemma import_user_ids sha row m s m' s' :
  import_user sha row m s = (inr m', s') ->
  NoDup (user_ids s) -> NoDup (user_ids s').
Proof.
  intros H Hnd.
  apply import_user_cases in H as (tc & pc & lc & fc & phc & _ & _ & _ & _ & Hcase).
  destruct Hcase as [(u & F & ->)|(F & ->)]; unfold user_ids in *; cbn.
  - rewrite map_map.
    erewrite map_ext; [exact Hnd|]. intros x. by destruct (user_id x =? user_id u).
  - rewrite map_app. cbn. apply NoDup_app. repeat split; [done| |apply NoDup_singleton].
    intros x Hx Hx'. apply list_elem_of_In in Hx, Hx'. destruct Hx' as [<-|[]].
    apply in_map_iff in Hx as (y & Hy & Hin).
    pose proof (next_rowid_above user_id (users s) y Hin). lia.
Qed.

(** A row filed under another login leaves the account alone. *)
Lemma import_user_keeps_account sha row m s m' s' l h :
  import_user sha row m s = (inr m', s') ->
  NoDup (user_ids s) ->
  row_login row <> Some l ->
  account_with l h s -> account_with l h s'.
Proof.
  intros H Hnd Hne (a & Hin & Hl & Hh & Ha & Hty).
  apply import_user_cases in H as (tc & pc & lc & fc & phc & _ & _ & Hlc & _ & Hcase).
  assert (Hne' : py_str lc <> l).
  { intros E. apply Hne. unfold row_login. rewrite Hlc. cbn. by rewrite E. }
  destruct Hcase as [(u & F & ->)|(F & ->)].
  - apply find_login_some in F as [Hu Hlu].
    assert (Hid : (user_id a =? user_id u) = false).
    { apply Z.eqb_neq. intros E.
      pose proof (nodup_key_eq user_id _ a u Hnd Hin Hu E). congruence. }
    exists a. split; [|done]. cbn. apply in_map_iff. exists a. by rewrite Hid.
  - exists a. split; [|done]. cbn. apply in_or_app. by left.
Qed.

Lemma import_users_accounts sha sheet_rows m s m' s' :
  fold_rows sheet_rows m (import_user sha) s = (inr m', s') ->
  NoDup (user_ids s) ->
  NoDup (user_ids s')
  /\ forall l h, (forall row, In row sheet_rows -> row_login row <> Some l) ->
                 account_with l h s -> account_with l h s'.
Proof.
  revert m s. induction sheet_rows as [|row sheet_rows IH]; intros m s H Hnd; cbn in H.
  - injection H as _ <-. auto.
  - apply bind_inr in H as (m1 & s1 & E & H).
    pose proof (import_user_ids _ _ _ _ _ _ E Hnd) as Hnd1.
    destruct (IH _ _ H Hnd1) as [Hnd2 K2]. split; [done|].
    intros l h Hall Hacc. apply K2; [intros r Hr; apply Hall; by right|].
    eapply import_user_keeps_account; eauto. apply Hall. by left.
Qed.

Lemma account_with_same l h s s' :
  users s' = users s -> user_types s' = user_types s ->
  account_with l h s -> account_with l h s'.
Proof.
  intros U T (a & Hin & H). exists a. unfold has_user_type in *. rewrite U, T. auto.
Qed.

(** An account can sign in. *)
Lemma account_authenticates sha l password s :
  account_with l (sha password) s ->
  exists u r, authenticate_user sha l password s = Some (u, r) /\ login u = l.
Proof.
  intros (a & Hin & Hl & Hh & Ha & Hty).
  unfold authenticate_user.
  apply existsb_exists in Hty as (t & Ht & Htid).
  assert (Hsel : In (a, ut_name t) (select_user l (sha password) s)).
  { unfold select_user. apply in_flat_map. exists a. split.
    - apply filter_In. split; [done|].
      rewrite Hl, Hh, Ha, !String.eqb_refl. done.
    - apply in_map_iff. exists t. split; [done|]. apply filter_In. done. }
  destruct (select_user l (sha password) s) as [|[u r] rest] eqn:E; [destruct Hsel|].
  exists u, r. split; [done|].
  assert (Hu : In (u, r) (select_user l (sha password) s)) by (rewrite E; by left).
  unfold select_user in Hu. apply in_flat_map in Hu as (x & Hx & Hxr).
  apply in_map_iff in Hxr as (t' & [= <- _] & _).
  apply filter_In in Hx as [_ Hx].
  apply andb_true_iff in Hx as [Hx _]. apply andb_true_iff in Hx as [Hx _].
  by apply String.eqb_eq.
Qed.

End WorkDBMore.

(** assign_master of Work_DB.py succeeds exactly when the request exists,
    the target is a master or a manager, the status В процессе ремонта is in
    request_statuses and the acting user is a row of users; with an unknown
    acting user the comment violates its foreign key and the update of the
    request is rolled back with it. *)
Theorem assign_master_succeeds_iff request master actor s :
  let w := WorkDB.assign_master request master actor s in
  (WorkDB.success w.1 = true <->
   WorkDB.has_request request s = true
   /\ WorkDB.is_master_or_manager master s = true
   /\ is_Some (WorkDB.find_status "В процессе ремонта" s)
   /\ WorkDB.has_user actor s = true)
  /\ (WorkDB.has_request request s = true ->
      WorkDB.is_master_or_manager master s = true ->
      is_Some (WorkDB.find_status "В процессе ремонта" s) ->
      WorkDB.has_user actor s = false ->
      w = (WorkDB.failure (WorkDB.AssignError (IntegrityError "FOREIGN KEY")), s)).
Proof.
  cbv zeta. unfold WorkDB.assign_master.
  pose proof (WorkDBMore.find_request_has request s) as Hq.
  destruct (WorkDB.find_request request s) as [q|] eqn:Fq.
  2:{ split; [|intros H; apply Hq in H as [? ?]; discriminate].
      cbn. split; [discriminate|]. intros (H & _). apply Hq in H as [? ?]. discriminate. }
  assert (Hr : WorkDB.has_request request s = true) by (apply Hq; by eexists).
  destruct (WorkDB.is_master_or_manager master s) eqn:Em; cbn [negb].
  2:{ cbn. split; [|discriminate]. split; [discriminate|]. by intros (_ & ? & _). }
  pose proof (WorkDBMore.master_or_manager_has_user _ _ Em) as Hm.
  unfold WorkDB.assign_master_body, bind, get.
  destruct (WorkDB.find_status "В процессе ремонта" s) as [t|] eqn:Ft; cbn [ret raise].
  2:{ cbn. split; [|by intros _ _ [? ?]]. split; [discriminate|].
      by intros (_ & _ & [? ?] & _). }
  pose proof (WorkDBMore.find_status_has _ _ _ Ft) as Hs.
  unfold WorkDB.update_assignment, bind, get, WorkDB.require, put.
  rewrite Hr, Hm, Hs. cbn [negb orb andb ret].
  unfold WorkDB.insert_comment, bind, get, WorkDB.require.
  rewrite WorkDBMore.has_request_update by done. rewrite Hr.
  change (WorkDB.has_user actor (WorkDB.set_repair_requests _ s))
    with (WorkDB.has_user actor s).
  destruct (WorkDB.has_user actor s); cbn.
  - split; [|discriminate]. split; [|done]. intros _. repeat split; by eauto.
  - split; [|done]. split; [discriminate|]. by intros (_ & _ & _ & ?).
Qed.

Lemma assign_master_succeeds_iff_sample :
  WorkDB.assign_master 1 2 7 Samples.imported
  = (WorkDB.failure (WorkDB.AssignError (IntegrityError "FOREIGN KEY")),
     Samples.imported).
Proof.
  apply (proj2 (assign_master_succeeds_iff 1 2 7 Samples.imported));
    vm_compute; by eauto.
Defined.

(** update_request_status of Work_DB.py: a status name that is not in
    request_statuses is refused and nothing changes; with a known name and a
    request key that no row has, the method reports success and the store is
    exactly as before. *)
Theorem update_request_status_edges today request name actor s :
  (WorkDB.find_status name s = None ->
   WorkDB.update_request_status today request name actor s
   = (WorkDB.failure WorkDB.StatusNotFound, s))
  /\ (is_Some (WorkDB.find_status name s) ->
      WorkDB.has_request request s = false ->
      WorkDB.update_request_status today request name actor s
      = (WorkDB.succeeded (WorkDB.StatusUpdated name), s)).
Proof.
  unfold WorkDB.update_request_status. split.
  - by intros ->.
  - intros [t ->] Hn. unfold WorkDB.update_status, bind, get, WorkDB.require, put.
    unfold WorkDB.has_request in Hn.
    assert (F : forall g, forallb (fun r => negb (WorkDB.request_id r =? request) || g r)
                            (rows (WorkDB.repair_requests s)) = true).
    { intros g. apply forallb_forall. intros r Hr.
      destruct (WorkDB.request_id r =? request) eqn:E; [|done].
      assert (existsb (fun r => WorkDB.request_id r =? request)
                (rows (WorkDB.repair_requests s)) = true)
        by (apply existsb_exists; eauto).
      congruence. }
    rewrite F. cbn [ret]. f_equal.
    unfold WorkDB.set_repair_requests, update_rows.
    rewrite WorkDBMore.update_rows_none by exact Hn.
    destruct s as [? ? ? ? ? [? ?] ?]. reflexivity.
Qed.

Lemma update_request_status_edges_sample :
  WorkDB.update_request_status "2024-01-15" 1 "На диагностике" 2 Samples.imported
  = (WorkDB.failure WorkDB.StatusNotFound, Samples.imported)
  /\ WorkDB.update_request_status "2024-01-15" 99 "Выполнена" 2 Samples.imported
     = (WorkDB.succeeded (WorkDB.StatusUpdated "Выполнена"), Samples.imported).
Proof.
  split.
  - apply (proj1 (update_request_status_edges "2024-01-15" 1 "На диагностике" 2
                    Samples.imported)).
    vm_compute. reflexivity.
  - apply (proj2 (update_request_status_edges "2024-01-15" 99 "Выполнена" 2
                    Samples.imported)).
    + vm_compute. by eexists.
    + vm_compute. reflexivity.
Defined.

(** update_request_status of Work_DB.py with the status Готова к выдаче:
    when today's date sorts before the start date of a row with the request
    key, the CHECK refuses the update and the store stays as it was;
    otherwise every row with the key gets the status and today as its
    completion date, and the other rows are untouched. *)
Theorem update_request_status_ready today request actor s t :
  WorkDB.find_status "Готова к выдаче" s = Some t ->
  let w := WorkDB.update_request_status today request "Готова к выдаче" actor s in
  ((exists r, In r (rows (WorkDB.repair_requests s)) /\ WorkDB.request_id r = request
              /\ WorkDB.value_ge (VText today) (WorkDB.start_date r) = Some false) ->
   w = (WorkDB.failure (WorkDB.StatusError (IntegrityError "CHECK completion_date")), s))
  /\ ((forall r, In r (rows (WorkDB.repair_requests s)) -> WorkDB.request_id r = request ->
                 WorkDB.value_ge (VText today) (WorkDB.start_date r) <> Some false) ->
      WorkDB.success w.1 = true
      /\ rows (WorkDB.repair_requests w.2)
         = map (fun r => if WorkDB.request_id r =? request
                         then WorkDB.with_status (WorkDB.rs_id t) (VText today) r
                         else r)
             (rows (WorkDB.repair_requests s))).
Proof.
  intros Ft. cbv zeta. unfold WorkDB.update_request_status. rewrite Ft.
  unfold WorkDB.update_status, bind, get, WorkDB.require, put.
  change (String.eqb "Готова к выдаче" "Готова к выдаче") with true. cbv iota.
  split.
  - intros (r & Hin & Hid & Hge).
    assert (F : forallb
                  (fun r => negb (WorkDB.request_id r =? request)
                            || WorkDB.check_dates
                                 (WorkDB.with_status (WorkDB.rs_id t) (VText today) r))
                  (rows (WorkDB.repair_requests s)) = false).
    { destruct (forallb _ _) eqn:E; [|done].
      rewrite forallb_forall in E. specialize (E r Hin).
      apply Z.eqb_eq in Hid. rewrite Hid in E.
      rewrite WorkDBMore.check_dates_with_status, Hge in E. done. }
    by rewrite F.
  - intros Hall.
    assert (F : forallb
                  (fun r => negb (WorkDB.request_id r =? request)
                            || WorkDB.check_dates
                                 (WorkDB.with_status (WorkDB.rs_id t) (VText today) r))
                  (rows (WorkDB.repair_requests s)) = true).
    { apply forallb_forall. intros r Hin.
      destruct (WorkDB.request_id r =? request) eqn:E; [|done].
      apply Z.eqb_eq in E. specialize (Hall r Hin E).
      rewrite WorkDBMore.check_dates_with_status.
      destruct (WorkDB.value_ge (VText today) (WorkDB.start_date r)) as [[|]|]; done. }
    rewrite F. cbn. done.
Qed.

Lemma update_request_status_ready_sample :
  WorkDB.update_request_status "2023-01-01" 1 "Готова к выдаче" 2 Samples.imported
  = (WorkDB.failure (WorkDB.StatusError (IntegrityError "CHECK completion_date")),
     Samples.imported).
Proof.
  apply (proj1 (update_request_status_ready "2023-01-01" 1 2 Samples.imported
                  {| WorkDB.rs_id := 3; WorkDB.rs_name := "Готова к выдаче";
                     WorkDB.rs_active := true |} eq_refl)).
  eexists. split; [left; reflexivity|]. split; vm_compute; reflexivity.
Defined.



(** create_request of Work_DB.py never creates a request. Its last statement
    assigns to request_number, which the table declares GENERATED ALWAYS, so
    the engine raises, the method rolls back and returns a failure: the store
    is as it was, whatever the arguments. With an existing client, the status
    Новая заявка in place and a priority from 1 to 5 every earlier statement
    goes through, and the failure is that of the refused UPDATE. *)
Theorem create_request_never_creates today client equipment_type equipment_model
    problem prio s :
  (exists e,
      WorkDB.create_request today client equipment_type equipment_model problem prio s
      = (WorkDB.NotCreated e, s))
  /\ (WorkDB.has_user client s = true ->
      is_Some (WorkDB.find_status "Новая заявка" s) ->
      1 <= prio <= 5 ->
      WorkDB.create_request today client equipment_type equipment_model problem prio s
      = (WorkDB.NotCreated (OperationalError "cannot UPDATE generated column"), s)).
Proof.
  unfold WorkDB.create_request. split.
  - assert (H : exists e s',
               WorkDB.create_request_body today client equipment_type equipment_model
                 problem prio s = (inl e, s')).
    { unfold WorkDB.create_request_body.
      do 7 (apply bind_always_raises; intros ? ?).
      unfold bind, WorkDB.update_request_number, raise. eauto. }
    destruct H as (e & s' & ->). eauto.
  - intros Hc [t Ft] Hp.
    unfold WorkDB.create_request_body. unfold bind at 1, get.
    destruct (WorkDBMore.equipment_type_resolved equipment_type s)
      as (tid & s1 & E1 & T1 & U1 & S1 & M1 & R1).
    unfold bind at 1. rewrite E1. unfold bind at 1, get.
    destruct (WorkDBMore.equipment_model_resolved equipment_model tid s1 T1)
      as (mid & s2 & E2 & M2 & U2 & S2 & T2 & R2).
    unfold bind at 1. rewrite E2. unfold bind at 1, get.
    assert (Ft2 : WorkDB.find_status "Новая заявка" s2 = Some t).
    { unfold WorkDB.find_status. rewrite S2, S1. exact Ft. }
    unfold bind at 1. rewrite Ft2. cbn [ret].
    unfold bind at 1.
    unfold WorkDB.insert_request, bind, get, not_null_value, not_null, WorkDB.require.
    cbn [ret].
    assert (P : WorkDB.check_priority
                  {| WorkDB.request_id := next_rowid WorkDB.request_id (WorkDB.repair_requests s2);
                     WorkDB.start_date := VText today; WorkDB.equipment_type_id := tid;
                     WorkDB.equipment_model_id := mid;
                     WorkDB.problem_description := problem;
                     WorkDB.status_id := WorkDB.rs_id t;
                     WorkDB.completion_date := VNull; WorkDB.repair_parts := None;
                     WorkDB.master_id := None; WorkDB.client_id := client;
                     WorkDB.priority := prio |} = true).
    { unfold WorkDB.check_priority. cbn. apply andb_true_iff. lia. }
    rewrite P. cbn [ret].
    unfold WorkDB.check_dates. cbn [WorkDB.completion_date ret].
    unfold WorkDB.request_references.
    cbn [WorkDB.equipment_type_id WorkDB.equipment_model_id WorkDB.status_id
         WorkDB.master_id WorkDB.client_id].
    assert (T3 : WorkDB.has_equipment_type tid s2 = true)
      by (unfold WorkDB.has_equipment_type; by rewrite T2).
    assert (S3 : WorkDB.has_status (WorkDB.rs_id t) s2 = true)
      by (by eapply WorkDBMore.find_status_has).
    assert (U3 : WorkDB.has_user client s2 = true)
      by (unfold WorkDB.has_user; by rewrite U2, U1).
    rewrite T3, M2, S3, U3. cbn. reflexivity.
Qed.

Lemma create_request_never_creates_sample :
  WorkDB.create_request "2024-01-15" 1 "Фен" "X100" "Не греет" 3 Samples.imported
  = (WorkDB.NotCreated (OperationalError "cannot UPDATE generated column"),
     Samples.imported).
Proof.
  apply (proj2 (create_request_never_creates "2024-01-15" 1 "Фен" "X100" "Не греет" 3
                  Samples.imported)).
  - vm_compute. reflexivity.
  - vm_compute. by eexists.
  - lia.
Defined.

(** authenticate_user of Work_DB.py returns only an active row of users with
    the given login whose stored hash is the hash of the given password, and
    with it the name of the user type the row joins with; while user_types
    holds the four seeded types, that name is the one the data class
    [User.role] gives for the type key of the row. *)
Theorem authenticate_user_sound sha l password s u r :
  WorkDB.authenticate_user sha l password s = Some (u, r) ->
  In u (rows (WorkDB.users s)) /\ WorkDB.login u = l
  /\ WorkDB.password_hash u = sha password /\ WorkDB.is_active u = true
  /\ (exists t, In t (rows (WorkDB.user_types s))
                /\ WorkDB.ut_id t = WorkDB.user_type_id u /\ WorkDB.ut_name t = r)
  /\ (WorkDB.user_types s = WorkDB.user_types WorkDB.seeded_store ->
      r = WorkDB.role (WorkDB.user_type_id u)).
Proof.
  unfold WorkDB.authenticate_user. intros H.
  assert (Hin : In (u, r) (WorkDB.select_user l (sha password) s)).
  { destruct (WorkDB.select_user l (sha password) s); [discriminate|].
    injection H as ->. by left. }
  unfold WorkDB.select_user in Hin. apply in_flat_map in Hin as (x & Hx & Hxr).
  apply in_map_iff in Hxr as (t & [= <- <-] & Ht).
  apply filter_In in Hx as [Hx Hc]. apply filter_In in Ht as [Ht Hid].
  apply andb_true_iff in Hc as [Hc Ha]. apply andb_true_iff in Hc as [Hl Hh].
  apply String.eqb_eq in Hl, Hh. apply Z.eqb_eq in Hid.
  repeat split; auto; [by exists t|].
  intros E. rewrite E in Ht. rewrite <- Hid.
  cbn in Ht. destruct Ht as [<-|[<-|[<-|[<-|[]]]]]; reflexivity.
Qed.

Lemma authenticate_user_sound_sample :
  let u := {| WorkDB.user_id := 2; WorkDB.full_name := "Борис";
              WorkDB.phone := "89210563128"; WorkDB.login := "bob";
              WorkDB.password_hash := Samples.digest "pass1";
              WorkDB.user_type_id := 2; WorkDB.is_active := true |} in
  In u (rows (WorkDB.users Samples.imported)) /\ WorkDB.login u = "bob"
  /\ WorkDB.password_hash u = Samples.digest "pass1" /\ WorkDB.is_active u = true
  /\ (exists t, In t (rows (WorkDB.user_types Samples.imported))
                /\ WorkDB.ut_id t = WorkDB.user_type_id u
                /\ WorkDB.ut_name t = "Мастер")
  /\ (WorkDB.user_types Samples.imported = WorkDB.user_types WorkDB.seeded_store ->
      "Мастер" = WorkDB.role (WorkDB.user_type_id u)).
Proof.
  apply (authenticate_user_sound Samples.digest "bob" "pass1" Samples.imported).
  vm_compute. reflexivity.
Defined.

(** After a successful import_from_excel of Work_DB.py into a store whose
    user keys are distinct, a row of the users sheet that no later row
    repeats the login of can sign in: authenticate_user with the login and
    the password of the row returns a user with that login. *)
Theorem imported_user_authenticates sha udf rf cf s before row after lc pc :
  let w := WorkDB.import_from_excel sha (Sheet udf) rf cf s in
  WorkDB.success w.1 = true ->
  df_rows udf = before ++ row :: after ->
  NoDup (WorkDBSpec.user_ids s) ->
  row !! "login" = Some lc -> row !! "password" = Some pc ->
  (forall row', In row' after -> WorkDBSpec.row_login row' <> Some (py_str lc)) ->
  exists u r,
    WorkDB.authenticate_user sha (py_str lc) (py_str pc) w.2 = Some (u, r)
    /\ WorkDB.login u = py_str lc.
Proof.
  cbv zeta. intros Hs Hrows Hnd Hl Hp Hafter.
  destruct (WorkDB.import_from_excel sha (Sheet udf) rf cf s) as [res s'] eqn:E.
  cbn [fst snd] in *.
  apply WorkDBFacts.import_from_excel_inr in E
    as (m & s1 & loop & s2 & n & Hu & Hr & Hc); [|done].
  change (WorkDB.import_users sha (Sheet udf) s)
    with (WorkDB.fold_rows (df_rows udf) ∅ (WorkDB.import_user sha) s) in Hu.
  rewrite Hrows, WorkDBFacts.fold_rows_app in Hu.
  apply bind_inr in Hu as (m0 & s0 & Eb & Hu). cbn [WorkDB.fold_rows] in Hu.
  apply bind_inr in Hu as (m0' & s0' & Erow & Ea).
  destruct (WorkDBMore.import_users_accounts _ _ _ _ _ _ Eb Hnd) as [Hnd0 _].
  pose proof (WorkDBMore.import_user_ids _ _ _ _ _ _ Erow Hnd0) as Hnd0'.
  pose proof (WorkDBMore.import_user_account _ _ _ _ _ _ _ _ Erow Hl Hp) as Hacc.
  destruct (WorkDBMore.import_users_accounts _ _ _ _ _ _ Ea Hnd0') as [_ K].
  apply (K _ _ Hafter) in Hacc.
  unfold WorkDB.import_requests in Hr. apply bind_inr in Hr as (rdf & ? & Er & Hr).
  apply WorkDBFacts.read_excel_inr in Er as [-> ->].
  apply WorkDBFacts.import_requests_loop in Hr as (_ & U2 & T2 & _).
  unfold WorkDB.import_comments in Hc. apply bind_inr in Hc as (cdf & ? & Ec & Hc).
  apply WorkDBFacts.read_excel_inr in Ec as [-> ->].
  apply WorkDBFacts.import_comments_loop in Hc as (T3 & U3 & _).
  apply WorkDBMore.account_authenticates.
  eapply WorkDBMore.account_with_same; [exact U3|exact T3|].
  eapply WorkDBMore.account_with_same; [exact U2|exact T2|]. exact Hacc.
Qed.

Lemma imported_user_authenticates_sample :
  exists u r,
    WorkDB.authenticate_user Samples.digest "bob" "pass1" Samples.imported = Some (u, r)
    /\ WorkDB.login u = "bob".
Proof.
  apply (imported_user_authenticates Samples.digest
           {| df_columns := [];
              df_rows := [ Samples.user_row 1 "Алиса" "alice" "Заказчик";
                           Samples.user_row 2 "Борис" "bob" "Мастер" ] |}
           Samples.one_request (Samples.sheet []) WorkDB.seeded_store
           [Samples.user_row 1 "Алиса" "alice" "Заказчик"]
           (Samples.user_row 2 "Борис" "bob" "Мастер") []
           (Text "bob") (Text "pass1")).
  - vm_compute. reflexivity.
  - reflexivity.
  - vm_compute. constructor.
  - vm_compute. reflexivity.
  - vm_compute. reflexivity.
  - intros row' [].
Defined.

(** ** App.py *)
Module AppMore.
Import App AppSpec AppFacts.


(** *** Signing in *)





(** *** New requests *)

(** The identifier POST /api/requests picks is above every identifier of the
    table. *)
Lemma new_request_id_above s x :
  In x (rows (service_requests s)) ->
  r_request_id x
  < (if truthy (max_request_id s) then default 0 (max_request_id s) else 0) + 1.
Proof.
  unfold max_request_id. intros Hin.
  destruct (rows (service_requests s)) as [|y l]; [destruct Hin|]. cbn [map].
  assert (H : r_request_id x <= fold_right Z.max (r_request_id y) (map r_request_id l)).
  { clear -Hin. destruct Hin as [->|Hin].
    - induction l as [|z l IH]; cbn; lia.
    - induction l as [|z l IH]; cbn; [destruct Hin|].
      destruct Hin as [->|Hin]; [lia|]. specialize (IH Hin). lia. }
  unfold truthy, default.
  destruct (Z.eqb_spec (fold_right Z.max (r_request_id y) (map r_request_id l)) 0);
    cbn; lia.
Qed.

Lemma new_request_id_free s :
  existsb (fun x => r_request_id x
                    =? (if truthy (max_request_id s) then default 0 (max_request_id s)
                        else 0) + 1)
    (rows (service_requests s)) = false.
Proof.
  destruct (existsb _ _) eqn:E; [|done].
  apply existsb_exists in E as (x & Hin & Hx). apply Z.eqb_eq in Hx.
  pose proof (new_request_id_above s x Hin). lia.
Qed.

(** Close a branch in which a statement raises. *)
Local Ltac fails :=
  right; split; [done|];
  repeat match goal with
         | |- context [match ?o with Some _ => _ | None => _ end] => destruct o
         end;
  cbn; eauto.

(** The statements of POST /api/requests: with a complete body one row is
    appended under a new identifier, otherwise an exception is raised and
    nothing is written. *)
Lemma create_request_body_run now sess data s :
  (complete data = true
   /\ exists r,
       create_request_body now sess data s
       = (inr ((if truthy (max_request_id s) then default 0 (max_request_id s)
                else 0) + 1),
          set_service_requests
            (append_row r_id r (service_requests s)) s)
       /\ r_request_id r
          = (if truthy (max_request_id s) then default 0 (max_request_id s) else 0) + 1
       /\ r_request_status r = chosen_status data
       /\ r_client_login r = Some (default "" (user_login sess))
       /\ r_client_type r = Some "client"
       /\ r_start_date r = VText now /\ r_has_comment r = false
       /\ r_master_id r = None)
  \/ (complete data = false
      /\ exists e, create_request_body now sess data s = (inl e, s)).
Proof.
  unfold create_request_body, complete, chosen_status, bind, lift, json_key, not_null.
  destruct (rd_tech_type data) as [[?|]|];
    cbn -[max_request_id truthy Z.add insert_request]; [|fails..].
  destruct (rd_tech_model data) as [[?|]|];
    cbn -[max_request_id truthy Z.add insert_request]; [|fails..].
  destruct (rd_problem_description data) as [[?|]|];
    cbn -[max_request_id truthy Z.add insert_request]; [|fails..].
  destruct (rd_client_fio data) as [[?|]|];
    cbn -[max_request_id truthy Z.add insert_request];
    [|destruct (rd_request_status data) as [[?|]|];
      cbn -[max_request_id truthy Z.add insert_request]; fails..].
  destruct (rd_client_phone data) as [[?|]|];
    cbn -[max_request_id truthy Z.add insert_request];
    [|destruct (rd_request_status data) as [[?|]|];
      cbn -[max_request_id truthy Z.add insert_request]; fails..].
  destruct (rd_request_status data) as [[?|]|];
    cbn -[max_request_id truthy Z.add insert_request]; [|fails|];
    left; (split; [done|]); unfold insert_request; cbn [r_request_id];
    rewrite new_request_id_free; eexists; (split; [reflexivity|]); cbn; by repeat split.
Qed.

(** *** Reading requests *)

Lemma value_leb_total a b : value_leb a b = true \/ value_leb b a = true.
Proof.
  destruct a as [|x|x], b as [|y|y]; cbn; auto.
  - destruct (Z.leb_spec x y); [auto|right; apply Z.leb_le; lia].
  - apply String.leb_total.
Qed.

Lemma insert_by_start_date_perm r l : Permutation (insert_by_start_date r l) (r :: l).
Proof.
  induction l as [|x l IH]; cbn; [done|].
  destruct (value_leb _ _); [done|]. rewrite IH. apply perm_swap.
Qed.

Lemma order_by_start_date_desc_perm l : Permutation (order_by_start_date_desc l) l.
Proof.
  induction l as [|x l IH]; cbn; [done|].
  rewrite insert_by_start_date_perm. by constructor.
Qed.

Lemma descending_cons a l :
  descending (a :: l)
  = match l with [] => true | b :: _ => value_leb b a && descending l end.
Proof. by destruct l. Qed.

Lemma descending_insert r l :
  descending (map r_start_date l) = true ->
  descending (map r_start_date (insert_by_start_date r l)) = true.
Proof.
  induction l as [|x l IH]; [done|].
  intros H. cbn [insert_by_start_date].
  destruct (value_leb (r_start_date x) (r_start_date r)) eqn:E.
  - cbn [map]. rewrite descending_cons. cbn [map] in H. by rewrite E, H.
  - assert (E' : value_leb (r_start_date r) (r_start_date x) = true).
    { destruct (value_leb_total (r_start_date x) (r_start_date r)); congruence. }
    cbn [map] in H |- *. rewrite descending_cons in H.
    destruct l as [|y l].
    + cbn. by rewrite E'.
    + cbn [map] in H. apply andb_true_iff in H as [H1 H2].
      specialize (IH H2). rewrite descending_cons.
      cbn [insert_by_start_date] in IH |- *.
      destruct (value_leb (r_start_date y) (r_start_date r));
        cbn [map] in IH |- *; [by rewrite E', IH|by rewrite H1, IH].
Qed.

Lemma order_by_start_date_desc_sorted l :
  descending (map r_start_date (order_by_start_date_desc l)) = true.
Proof.
  induction l as [|x l IH]; [done|]. cbn. by apply descending_insert.
Qed.

Lemma get_requests_client sess s :
  user_type sess = Some "client" ->
  Permutation (get_requests sess s)
    (List.filter (is_client_of (user_login sess)) (rows (service_requests s))).
Proof.
  intros H. unfold get_requests. rewrite H. cbn.
  apply order_by_start_date_desc_perm.
Qed.

(** *** Comments *)

Lemma request_ids_update p f s :
  (forall r, r_request_id (f r) = r_request_id r) ->
  request_ids (set_service_requests (update_rows p f (service_requests s)) s)
  = request_ids s.
Proof.
  intros Hf. unfold request_ids. cbn. rewrite map_map. apply map_ext.
  intros r. by destruct (p r).
Qed.

Lemma add_comment_body_cases sess data s :
  (exists rid msg,
      cd_request_id data = Some (Some rid) /\ cd_message data = Some (Some msg)
      /\ exists s',
          add_comment_body sess data s = (inr tt, s')
          /\ rows (comments s') = rows (comments s) ++ [posted_comment sess rid msg s]
          /\ rows (service_requests s')
             = map (fun r => if r_request_id r =? rid
                             then commented (cd_repair_parts data) r else r)
                 (rows (service_requests s))
          /\ users s' = users s /\ masters s' = masters s
          /\ status_history s' = status_history s)
  \/ (filled (cd_request_id data) && filled (cd_message data) = false
      /\ exists e, add_comment_body sess data s = (inl e, s)).
Proof.
  unfold add_comment_body, bind, lift, json_key, not_null. cbn beta.
  destruct (cd_request_id data) as [[rid|]|]; cbn;
    [|right; split; [done|];
      destruct (cd_message data) as [[?|]|]; cbn; eauto..].
  destruct (cd_message data) as [[msg|]|]; cbn; [|right; eauto..].
  left. exists rid, msg. do 2 (split; [done|]).
  assert (Hmap : forall (f g : request -> request) (l : list request),
             (forall r, r_request_id (g r) = r_request_id r) ->
             map (fun r => if r_request_id r =? rid then f r else r)
               (map (fun r => if r_request_id r =? rid then g r else r) l)
             = map (fun r => if r_request_id r =? rid then f (g r) else r) l).
  { intros f g l Hg. rewrite map_map. apply map_ext. intros r.
    destruct (r_request_id r =? rid) eqn:E; [by rewrite Hg, E|by rewrite E]. }
  destruct (cd_repair_parts data) as [[parts|]|];
    [destruct (String.eqb parts "") eqn:Ep|..]; cbn;
    eexists; (split; [reflexivity|]); cbn; rewrite ?Ep; repeat split.
  rewrite Hmap by done. apply map_ext. intros r.
  destruct (r_request_id r =? rid); reflexivity.
Qed.

Lemma find_snoc {A} (p : A -> bool) (l : list A) (x : A) :
  List.find p (l ++ [x])
  = match List.find p l with
    | Some y => Some y
    | None => if p x then Some x else None
    end.
Proof. induction l as [|a l IH]; cbn; [done|]. by destruct (p a). Qed.

(** *** The requests loader *)

Local Hint Resolve reads_only_query reads_only_text_column reads_only_lift
  reads_only_not_null reads_only_not_null_value reads_only_ret reads_only_if
  : reads.

Lemma stores_after_read {A} (m : M state A) (k : A -> M state unit) :
  reads_only m -> (forall a, stores_one_request (k a)) ->
  stores_one_request (bind m k).
Proof.
  intros R H s s' E. apply bind_inr in E as (a & s1 & E1 & E2).
  apply R in E1 as ->. by apply (H a).
Qed.

Local Ltac stores_chain :=
  repeat first
    [ progress cbv zeta
    | apply stores_after_read; [solve [auto with reads]|intros ?] ].

Lemma load_request_row_input_stores now idx row :
  stores_one_request (load_request_row_input now idx row).
Proof.
  unfold load_request_row_input. stores_chain.
  intros s s' [= <-]. by eexists.
Qed.

Lemma load_request_row_combined_stores now idx row :
  stores_one_request (load_request_row_combined now idx row).
Proof.
  unfold load_request_row_combined. stores_chain.
  intros s s' [= <-]. by eexists.
Qed.

Lemma map_filter_key {A} (key : A -> Z) (p : Z -> bool) (l : list A) :
  map key (List.filter (fun x => p (key x)) l) = List.filter p (map key l).
Proof.
  induction l as [|a l IH]; [done|]. cbn. destruct (p (key a)); cbn; by rewrite IH.
Qed.

(** INSERT OR REPLACE moves the identifier of the row to the end of the
    table. *)
Lemma insert_or_replace_request_ids r s :
  request_ids (insert_or_replace_request r s)
  = List.filter (fun x => negb (x =? r_request_id r)) (request_ids s)
    ++ [r_request_id r].
Proof.
  unfold request_ids, insert_or_replace_request. cbn.
  rewrite map_app. cbn. f_equal.
  apply (map_filter_key r_request_id (fun x => negb (x =? r_request_id r))).
Qed.

Lemma NoDup_list_filter {A} (p : A -> bool) (l : list A) :
  NoDup l -> NoDup (List.filter p l).
Proof.
  induction 1 as [|x l Hx Hl IH]; cbn; [constructor|].
  destruct (p x); [|done]. constructor; [|done].
  intros Hin. apply Hx. apply list_elem_of_In. apply list_elem_of_In in Hin.
  by apply filter_In in Hin as [? _].
Qed.

Lemma insert_or_replace_request_nodup r s :
  NoDup (request_ids s) -> NoDup (request_ids (insert_or_replace_request r s)).
Proof.
  intros H. rewrite insert_or_replace_request_ids.
  apply NoDup_app. split; [by apply NoDup_list_filter|]. split.
  - intros x Hx Hx'. apply list_elem_of_In in Hx, Hx'. destruct Hx' as [<-|[]].
    apply filter_In in Hx as [_ Hx]. by rewrite Z.eqb_refl in Hx.
  - apply NoDup_singleton.
Qed.

Lemma insert_or_replace_request_incl r s :
  incl (request_ids s) (request_ids (insert_or_replace_request r s)).
Proof.
  intros x Hx. rewrite insert_or_replace_request_ids. apply in_or_app.
  destruct (x =? r_request_id r) eqn:E.
  - right. left. symmetry. by apply Z.eqb_eq.
  - left. apply filter_In. by rewrite E.
Qed.

(** One turn of the requests loop never raises, keeps the identifiers
    distinct, loses none and writes to no other table. *)
Lemma load_request_row_keeps now df idx row s :
  exists s',
    load_request_row now df idx row s = (inr tt, s')
    /\ (NoDup (request_ids (db s)) -> NoDup (request_ids (db s')))
    /\ incl (request_ids (db s)) (request_ids (db s'))
    /\ users (db s') = users (db s) /\ masters (db s') = masters (db s)
    /\ comments (db s') = comments (db s)
    /\ status_history (db s') = status_history (db s).
Proof.
  destruct (load_request_row_run now df idx row s) as [(s' & B & ->)|(e & B & ->)].
  - assert (exists r, s' = {| db := insert_or_replace_request r (db s);
                              out := out s |}) as [r ->].
    { destruct (in_columns "client_id" df);
        [by apply load_request_row_combined_stores in B
        |by apply load_request_row_input_stores in B]. }
    eexists. split; [reflexivity|]. cbn [db].
    split; [apply insert_or_replace_request_nodup|].
    split; [apply insert_or_replace_request_incl|]. done.
  - eexists. split; [reflexivity|]. cbn [db].
    split; [done|]. split; [apply incl_refl|]. done.
Qed.

Lemma load_request_rows_keep now df l i s :
  exists s',
    for_each (iterrows_from i l) (fun '(idx, row) => load_request_row now df idx row) s
    = (inr tt, s')
    /\ (NoDup (request_ids (db s)) -> NoDup (request_ids (db s')))
    /\ incl (request_ids (db s)) (request_ids (db s'))
    /\ users (db s') = users (db s) /\ masters (db s') = masters (db s)
    /\ comments (db s') = comments (db s)
    /\ status_history (db s') = status_history (db s).
Proof.
  revert i s. induction l as [|row l IH]; intros i s; cbn.
  - exists s. split; [done|]. split; [done|]. split; [apply incl_refl|]. done.
  - unfold bind.
    destruct (load_request_row_keeps now df i row s)
      as (s1 & -> & N1 & I1 & U1 & M1 & C1 & H1).
    destruct (IH (i + 1) s1) as (s2 & -> & N2 & I2 & U2 & M2 & C2 & H2).
    exists s2. split; [done|]. split; [auto|].
    split; [by eapply incl_tran|]. repeat split; congruence.
Qed.

End AppMore.

(** handle_login_form of App.py opens a session only for a row of users with
    the given login whose stored hash accepts the given password, and the
    session carries the key, login, name and type of that row; every refusal
    leaves the session as it was, and an absent or empty field is refused
    before the table is read. *)
Theorem handle_login_form_sound check login password sess s :
  let w := App.handle_login_form check login password sess s in
  (w.1 = App.MainPage ->
   exists l p u,
     login = Some l /\ password = Some p /\ l <> "" /\ p <> ""
     /\ In u (rows (App.users s)) /\ App.u_login u = l
     /\ check (App.u_password_hash u) p = true
     /\ w.2 = AppSpec.session_of u)
  /\ (w.1 <> App.MainPage -> w.2 = sess)
  /\ (App.blank login || App.blank password = true ->
      w = (App.LoginPage (Some App.EnterCredentials), sess)).
Proof.
  cbv zeta. unfold App.handle_login_form.
  destruct (App.blank login || App.blank password) eqn:B.
  { cbn. split; [discriminate|]. by split. }
  apply orb_false_iff in B as [B1 B2].
  destruct login as [l|]; [|discriminate]. destruct password as [p|]; [|discriminate].
  cbn in B1, B2. apply String.eqb_neq in B1, B2.
  unfold App.find_user_by_login.
  destruct (List.find _ _) as [u|] eqn:F; cbn;
    [|split; [discriminate|split; [done|discriminate]]].
  apply find_some in F as [Hin Hu]. apply String.eqb_eq in Hu.
  destruct (check (App.u_password_hash u) p) eqn:C; cbn;
    [|split; [discriminate|split; [done|discriminate]]].
  split; [|split; [done|discriminate]].
  intros _. exists l, p, u. by repeat split.
Qed.

Lemma handle_login_form_sound_sample :
  App.handle_login_form (fun h p => String.eqb h (Samples.digest p))
    (Some "master1") None Samples.manager Samples.loaded
  = (App.LoginPage (Some App.EnterCredentials), Samples.manager).
Proof.
  apply (proj2 (proj2 (handle_login_form_sound
                         (fun h p => String.eqb h (Samples.digest p))
                         (Some "master1") None Samples.manager Samples.loaded))).
  reflexivity.
Defined.



(** POST /api/requests of App.py succeeds exactly for a signed-in session and
    a body with the five required fields; it then appends one request whose
    identifier is above every identifier of the table, with the status of the
    body (Новая заявка when the body names none), the login of the session
    as client login, no master and no comment flag, and it changes no other
    row and no other table. A refusal changes nothing, and identifiers that
    were distinct stay distinct. *)
Theorem create_request_appends now sess data s :
  let w := App.create_request now sess data s in
  (App.success w.1 = true <->
   is_Some (App.user_id sess) /\ AppSpec.complete data = true)
  /\ (App.success w.1 = true ->
      exists r,
        rows (App.service_requests w.2) = rows (App.service_requests s) ++ [r]
        /\ Forall (fun x => App.r_request_id x < App.r_request_id r)
             (rows (App.service_requests s))
        /\ App.r_request_status r = AppSpec.chosen_status data
        /\ App.r_client_login r = Some (default "" (App.user_login sess))
        /\ App.r_start_date r = VText now
        /\ App.r_has_comment r = false /\ App.r_master_id r = None
        /\ App.users w.2 = App.users s /\ App.masters w.2 = App.masters s
        /\ App.comments w.2 = App.comments s
        /\ App.status_history w.2 = App.status_history s)
  /\ (App.success w.1 = false -> w.2 = s)
  /\ (NoDup (AppSpec.request_ids s) -> NoDup (AppSpec.request_ids w.2)).
Proof.
  cbv zeta. unfold App.create_request.
  destruct (App.user_id sess) as [uid|].
  2:{ cbn. split; [split; [discriminate|by intros [[? ?] _]]|]. by repeat split. }
  destruct (AppMore.create_request_body_run now sess data s)
    as [(Hc & r & E & Hid & Hst & Hl & _ & Hd & Hh & Hm)|(Hc & e & E)];
    rewrite E; cbn.
  - assert (Hfresh : Forall (fun x => App.r_request_id x < App.r_request_id r)
                       (rows (App.service_requests s))).
    { apply Forall_forall. intros x Hx. apply list_elem_of_In in Hx. rewrite Hid.
      by apply AppMore.new_request_id_above. }
    split; [split; [by eauto|done]|]. split; [|split; [discriminate|]].
    + intros _. exists r. by repeat split.
    + intros Hnd. unfold AppSpec.request_ids. cbn. rewrite map_app. cbn.
      apply NoDup_app. repeat split; [done| |apply NoDup_singleton].
      intros x Hx Hx'. apply list_elem_of_In in Hx, Hx'. destruct Hx' as [<-|[]].
      apply in_map_iff in Hx as (y & Hy & Hin).
      rewrite Forall_forall in Hfresh. apply list_elem_of_In in Hin.
      specialize (Hfresh y Hin). lia.
  - split; [split; [discriminate|intros [_ ?]; congruence]|].
    split; [discriminate|]. by split.
Qed.

Lemma create_request_appends_sample :
  let data := {| App.rd_tech_type := Some (Some "Фен");
                 App.rd_tech_model := Some (Some "X100");
                 App.rd_problem_description := Some (Some "Не греет");
                 App.rd_request_status := None;
                 App.rd_client_fio := Some (Some "Клиент 1");
                 App.rd_client_phone := Some (Some "89151234567") |} in
  let w := App.create_request Samples.clock Samples.manager data Samples.loaded in
  exists r,
    rows (App.service_requests w.2) = rows (App.service_requests Samples.loaded) ++ [r]
    /\ Forall (fun x => App.r_request_id x < App.r_request_id r)
         (rows (App.service_requests Samples.loaded))
    /\ App.r_request_status r = AppSpec.chosen_status data
    /\ App.r_client_login r = Some (default "" (App.user_login Samples.manager))
    /\ App.r_start_date r = VText Samples.clock
    /\ App.r_has_comment r = false /\ App.r_master_id r = None
    /\ App.users w.2 = App.users Samples.loaded
    /\ App.masters w.2 = App.masters Samples.loaded
    /\ App.comments w.2 = App.comments Samples.loaded
    /\ App.status_history w.2 = App.status_history Samples.loaded.
Proof.
  apply (proj1 (proj2 (create_request_appends Samples.clock Samples.manager
                         {| App.rd_tech_type := Some (Some "Фен");
                            App.rd_tech_model := Some (Some "X100");
                            App.rd_problem_description := Some (Some "Не греет");
                            App.rd_request_status := None;
                            App.rd_client_fio := Some (Some "Клиент 1");
                            App.rd_client_phone := Some (Some "89151234567") |}
                         Samples.loaded))).
  vm_compute. reflexivity.
Defined.

(** GET /api/requests of App.py returns, latest start date first: to a
    client exactly the requests filed under the login of the session; to a
    master exactly the requests assigned to the masters row with that login,
    and nothing when there is no such row; to every other session, one that
    is not signed in included, every request of the table. *)
Theorem get_requests_visibility sess s :
  (App.user_type sess = Some "client" ->
   Permutation (App.get_requests sess s)
     (List.filter (App.is_client_of (App.user_login sess))
        (rows (App.service_requests s))))
  /\ (App.user_type sess = Some "master" ->
      match App.find_master_by_login (App.user_login sess) s with
      | Some m =>
          Permutation (App.get_requests sess s)
            (List.filter (fun r => App.opt_Z_eqb (App.r_master_id r) (App.m_id m))
               (rows (App.service_requests s)))
      | None => App.get_requests sess s = []
      end)
  /\ (App.user_type sess <> Some "client" -> App.user_type sess <> Some "master" ->
      Permutation (App.get_requests sess s) (rows (App.service_requests s)))
  /\ AppSpec.descending (map App.r_start_date (App.get_requests sess s)) = true.
Proof.
  split; [apply AppMore.get_requests_client|]. split; [|split].
  - intros H. unfold App.get_requests. rewrite H. cbn.
    destruct (App.find_master_by_login _ s); [|done].
    apply AppMore.order_by_start_date_desc_perm.
  - intros H1 H2. unfold App.get_requests.
    destruct (App.user_type sess) as [t|]; cbn.
    + destruct (String.eqb_spec t "client"); [congruence|].
      destruct (String.eqb_spec t "master"); [congruence|].
      apply AppMore.order_by_start_date_desc_perm.
    + apply AppMore.order_by_start_date_desc_perm.
  - unfold App.get_requests.
    destruct (App.opt_eqb _ "client");
      [apply AppMore.order_by_start_date_desc_sorted|].
    destruct (App.opt_eqb _ "master");
      [|apply AppMore.order_by_start_date_desc_sorted].
    destruct (App.find_master_by_login _ s);
      [apply AppMore.order_by_start_date_desc_sorted|done].
Qed.

Lemma get_requests_visibility_sample :
  Permutation
    (App.get_requests
       {| App.user_id := None; App.user_login := None; App.user_name := None;
          App.user_type := None |} Samples.loaded)
    (rows (App.service_requests Samples.loaded)).
Proof.
  apply (proj1 (proj2 (proj2 (get_requests_visibility
                                {| App.user_id := None; App.user_login := None;
                                   App.user_name := None; App.user_type := None |}
                                Samples.loaded)))); discriminate.
Defined.

(** A request a client creates through POST /api/requests is in what GET
    /api/requests returns to that client afterwards, and in what it returns
    to no client signed in under another login. *)
Theorem created_request_is_visible now sess data s l :
  App.user_type sess = Some "client" -> App.user_login sess = Some l ->
  let w := App.create_request now sess data s in
  App.success w.1 = true ->
  exists r,
    rows (App.service_requests w.2) = rows (App.service_requests s) ++ [r]
    /\ In r (App.get_requests sess w.2)
    /\ (forall other, App.user_type other = Some "client" ->
                      App.user_login other <> Some l ->
                      ~ In r (App.get_requests other w.2)).
Proof.
  intros Ht Hl. cbv zeta. unfold App.create_request.
  destruct (App.user_id sess) as [uid|]; [|discriminate].
  destruct (AppMore.create_request_body_run now sess data s)
    as [(Hc & r & E & _ & _ & Hlog & _)|(Hc & e & E)]; rewrite E; cbn; [|discriminate].
  intros _. exists r. split; [done|].
  rewrite Hl in Hlog. cbn in Hlog. split.
  - eapply Permutation_in; [symmetry; by apply AppMore.get_requests_client|].
    apply filter_In. split; [cbn; apply in_or_app; right; by left|].
    unfold App.is_client_of. rewrite Hl, Hlog. apply String.eqb_refl.
  - intros other Ho Hne Hin.
    eapply Permutation_in in Hin; [|by apply AppMore.get_requests_client].
    apply filter_In in Hin as [_ Hin]. unfold App.is_client_of in Hin.
    rewrite Hlog in Hin. destruct (App.user_login other) as [l'|]; [|discriminate].
    apply String.eqb_eq in Hin. congruence.
Qed.

Lemma created_request_is_visible_sample :
  let sess := {| App.user_id := Some 6; App.user_login := Some "client1";
                 App.user_name := Some "Клиент 1"; App.user_type := Some "client" |} in
  let data := {| App.rd_tech_type := Some (Some "Фен");
                 App.rd_tech_model := Some (Some "X100");
                 App.rd_problem_description := Some (Some "Не греет");
                 App.rd_request_status := None;
                 App.rd_client_fio := Some (Some "Клиент 1");
                 App.rd_client_phone := Some (Some "89151234567") |} in
  let w := App.create_request Samples.clock sess data Samples.loaded in
  exists r,
    rows (App.service_requests w.2) = rows (App.service_requests Samples.loaded) ++ [r]
    /\ In r (App.get_requests sess w.2)
    /\ (forall other, App.user_type other = Some "client" ->
                      App.user_login other <> Some "client1" ->
                      ~ In r (App.get_requests other w.2)).
Proof.
  apply (created_request_is_visible Samples.clock
           {| App.user_id := Some 6; App.user_login := Some "client1";
              App.user_name := Some "Клиент 1"; App.user_type := Some "client" |}
           {| App.rd_tech_type := Some (Some "Фен");
              App.rd_tech_model := Some (Some "X100");
              App.rd_problem_description := Some (Some "Не греет");
              App.rd_request_status := None;
              App.rd_client_fio := Some (Some "Клиент 1");
              App.rd_client_phone := Some (Some "89151234567") |}
           Samples.loaded "client1"); [reflexivity|reflexivity|].
  vm_compute. reflexivity.
Defined.

(** POST /api/comments of App.py succeeds exactly for a signed-in session and
    a body that names a request and a message. It then appends one comment
    with the user of the session (and the key of its masters row when the
    session is a master's), sets has_comment on every request with the
    identifier and appends the repair parts of the body, if any, to the
    parts the request already lists; requests with another identifier and the
    other tables stay as they are. The comment is stored whether or not a
    request with the identifier exists. A refusal changes nothing. *)
Theorem add_comment_effect sess data s :
  let w := App.add_comment sess data s in
  (App.success w.1 = true <->
   is_Some (App.user_id sess)
   /\ AppSpec.filled (App.cd_request_id data) && AppSpec.filled (App.cd_message data)
      = true)
  /\ (App.success w.1 = true ->
      exists rid msg,
        App.cd_request_id data = Some (Some rid)
        /\ App.cd_message data = Some (Some msg)
        /\ rows (App.comments w.2)
           = rows (App.comments s) ++ [AppSpec.posted_comment sess rid msg s]
        /\ rows (App.service_requests w.2)
           = map (fun r => if App.r_request_id r =? rid
                           then AppSpec.commented (App.cd_repair_parts data) r
                           else r)
               (rows (App.service_requests s))
        /\ App.users w.2 = App.users s /\ App.masters w.2 = App.masters s
        /\ App.status_history w.2 = App.status_history s)
  /\ (App.success w.1 = false -> w.2 = s).
Proof.
  cbv zeta. unfold App.add_comment.
  destruct (App.user_id sess) as [uid|].
  2:{ cbn. split; [split; [discriminate|by intros [[? ?] _]]|]. by split. }
  destruct (AppMore.add_comment_body_cases sess data s)
    as [(rid & msg & Hr & Hm & s' & E & Hc & Hq & Hu & Hma & Hh)|(Hf & e & E)];
    rewrite E; cbn.
  - split; [split; [intros _; split; [by eauto|by rewrite Hr, Hm]|done]|].
    split; [|discriminate]. intros _. exists rid, msg. by repeat split.
  - split; [split; [discriminate|intros [_ ?]; congruence]|].
    split; [discriminate|done].
Qed.

Lemma add_comment_effect_sample :
  let data := {| App.cd_request_id := Some (Some 1);
                 App.cd_message := Some (Some "Готово");
                 App.cd_repair_parts := Some (Some "ремень") |} in
  let w := App.add_comment Samples.manager data Samples.loaded in
  exists rid msg,
    App.cd_request_id data = Some (Some rid)
    /\ App.cd_message data = Some (Some msg)
    /\ rows (App.comments w.2)
       = rows (App.comments Samples.loaded)
         ++ [AppSpec.posted_comment Samples.manager rid msg Samples.loaded]
    /\ rows (App.service_requests w.2)
       = map (fun r => if App.r_request_id r =? rid
                       then AppSpec.commented (App.cd_repair_parts data) r
                       else r)
           (rows (App.service_requests Samples.loaded))
    /\ App.users w.2 = App.users Samples.loaded
    /\ App.masters w.2 = App.masters Samples.loaded
    /\ App.status_history w.2 = App.status_history Samples.loaded.
Proof.
  apply (proj1 (proj2 (add_comment_effect Samples.manager
                         {| App.cd_request_id := Some (Some 1);
                            App.cd_message := Some (Some "Готово");
                            App.cd_repair_parts := Some (Some "ремень") |}
                         Samples.loaded))).
  vm_compute. reflexivity.
Defined.

(** load_users_from_xlsx of App.py on a readable sheet never falls back on
    the default accounts: when the sheet has no userID column every row
    raises KeyError, each is reported with its index, the store is left as
    it was, however empty, and the closing line still counts every row of
    the sheet as loaded. *)
Theorem users_sheet_without_ids hash df s :
  (forall row, In row (df_rows df) -> row !! "userID" = None) ->
  App.load_users_from_xlsx hash (Sheet df) s
  = (inr tt,
     {| App.db := App.db s;
        App.out := App.out s
                   ++ App.RecordsRead (length (df_rows df))
                      :: map (fun x => App.UserRowError x.1 (KeyError "userID"))
                           (iterrows df)
                   ++ [App.UsersLoaded (length (df_rows df))] |}).
Proof.
  intros Hall.
  assert (Hrow : forall idx row st,
             row !! "userID" = None ->
             App.load_user_row_guarded hash idx row st
             = (inr tt, {| App.db := App.db st;
                           App.out := App.out st
                                      ++ [App.UserRowError idx (KeyError "userID")] |})).
  { intros idx row st H.
    unfold App.load_user_row_guarded, try_except, App.load_user_row, bind, lift,
      App.cell_if_notna, row_get.
    rewrite H. reflexivity. }
  assert (Hloop : forall sheet_rows i st,
             (forall row, In row sheet_rows -> row !! "userID" = None) ->
             for_each (iterrows_from i sheet_rows)
               (fun '(idx, row) => App.load_user_row_guarded hash idx row) st
             = (inr tt,
                {| App.db := App.db st;
                   App.out := App.out st
                              ++ map (fun x => App.UserRowError x.1 (KeyError "userID"))
                                   (iterrows_from i sheet_rows) |})).
  { induction sheet_rows as [|row sheet_rows IH]; intros i st H; cbn.
    - rewrite app_nil_r. by destruct st.
    - unfold bind. rewrite Hrow by (apply H; by left).
      rewrite IH by (intros r Hr; apply H; by right). cbn.
      by rewrite <- app_assoc. }
  unfold App.load_users_from_xlsx, try_except, bind, App.print, modify, iterrows.
  rewrite Hloop by exact Hall. cbn. by rewrite <- !app_assoc.
Qed.

Lemma users_sheet_without_ids_sample :
  App.load_users_from_xlsx Samples.digest
    (Sheet {| df_columns := ["login"]; df_rows := [{["login" := Text "bob"]}] |})
    Samples.fresh
  = (inr tt,
     {| App.db := App.empty_store;
        App.out := [ App.RecordsRead 1; App.UserRowError 0 (KeyError "userID");
                     App.UsersLoaded 1 ] |}).
Proof.
  apply (users_sheet_without_ids Samples.digest
           {| df_columns := ["login"]; df_rows := [{["login" := Text "bob"]}] |}
           Samples.fresh).
  intros row [<-|[]]. reflexivity.
Defined.

(** ** The schema repair of App.py, continued *)
Module MigrationMore.
Import Migration MigrationSpec MigrationFacts.

(** The [try] block touches comments and comments_new only. *)
Lemma copy_and_swap_others now s r s1 n :
  copy_and_swap now s = (r, s1) ->
  n <> "comments" -> n <> "comments_new" -> db s1 !! n = db s !! n.
Proof.
  intros H Hc Hn. unfold copy_and_swap, bind, table_info in H.
  destruct (copy_plan _) as [sc ic].
  destruct (select sc "comments" s) as [[e|sel] s0] eqn:E;
    pose proof (reads_only_select _ _ _ _ _ E) as ->.
  { by injection H as _ <-. }
  assert (exists r2 s2,
             (match sel with
              | [] => ret tt
              | _ => executemany now "comments_new" ic sel
              end) s = (r2, s2) /\ db s2 !! n = db s !! n) as (r2 & s2 & E2 & D2).
  { destruct sel as [|row sel].
    - eexists _, _. split; [reflexivity|done].
    - destruct (executemany now "comments_new" ic (row :: sel) s) as [r2 s2] eqn:Ex.
      exists r2, s2. split; [done|].
      apply executemany_run in Ex as (_ & D & _). by apply D. }
  rewrite E2 in H. destruct r2 as [e|[]]; [by injection H as _ <-|].
  unfold drop_table in H.
  destruct (db s2 !! "comments") eqn:Ec; [|by injection H as _ <-].
  unfold rename_table in H. cbn [db] in H.
  destruct (delete "comments" (db s2) !! "comments_new") eqn:En.
  2:{ injection H as _ <-. cbn. by rewrite lookup_delete_ne. }
  destruct (delete "comments" (db s2) !! "comments") eqn:Ec2.
  { by rewrite lookup_delete_eq in Ec2. }
  injection H as _ <-. cbn. by rewrite lookup_insert_ne, !lookup_delete_ne.
Qed.

(** The comments part never raises and touches comments and comments_new
    only; on a table with the seven columns it prints one line. *)
Lemma repair_comments_run now s :
  exists s',
    repair_comments now s = (inr tt, s')
    /\ (forall n, n <> "comments" -> n <> "comments_new" -> db s' !! n = db s !! n)
    /\ (missing_columns s = [] ->
        s' = {| db := db s; out := out s ++ [CommentsOk] |}).
Proof.
  unfold repair_comments, bind, table_info. fold (missing_columns s).
  destruct (missing_columns s) as [|c l] eqn:Em.
  { eexists. split; [reflexivity|]. by split. }
  unfold print, create_table_if_not_exists, modify, try_except. cbn [db out].
  match goal with
  | |- context [copy_and_swap now ?p] =>
      assert (D0 : forall n, n <> "comments_new" -> db p !! n = db s !! n);
      [ intros n Hn; cbn [db];
        destruct (db s !! "comments_new"); [done|by rewrite lookup_insert_ne]
      | destruct (copy_and_swap now p) as [[e|[]] s1] eqn:Ecopy ]
  end.
  - eexists. split; [reflexivity|]. split; [|done].
    intros n Hc Hn. unfold drop_table_if_exists, modify. cbn [db].
    rewrite lookup_delete_ne by done.
    rewrite (copy_and_swap_others _ _ _ _ n Ecopy) by done. by apply D0.
  - eexists. split; [reflexivity|]. split; [|done].
    intros n Hc Hn.
    rewrite (copy_and_swap_others _ _ _ _ n Ecopy) by done. by apply D0.
Qed.






(** The two tables the check creates when they are missing. *)
Lemma ensure_table_result name cols e s :
  exists s',
    ensure_table name cols e s = (inr tt, s')
    /\ db s' !! name
       = Some (default {| g_columns := cols; g_rows := []; g_seq := 0 |} (db s !! name))
    /\ same_but name (db s) (db s')
    /\ exists rest, out s' = out s ++ rest.
Proof.
  unfold ensure_table, bind, table_exists. cbn [db].
  case_bool_decide as H.
  - exists s. split; [done|]. destruct H as [t Ht]. rewrite Ht.
    split; [done|]. split; [apply same_but_refl|]. exists []. by rewrite app_nil_r.
  - apply eq_None_not_Some in H.
    unfold print, create_table_if_not_exists, modify. cbn [db out]. rewrite H.
    eexists. split; [reflexivity|]. cbn [db out default].
    split; [apply lookup_insert_eq|].
    split; [intros n Hn; by rewrite lookup_insert_ne|]. by eexists.
Qed.

(** The check after its comments part. *)
Lemma check_after_repair now s s1 :
  repair_comments now {| db := db s; out := out s ++ [Checking] |} = (inr tt, s1) ->
  exists s',
    check_and_update_tables now s = (inr tt, s')
    /\ db s' !! "masters"
       = Some (default {| g_columns := masters_columns; g_rows := []; g_seq := 0 |}
                 (db s1 !! "masters"))
    /\ db s' !! "status_history"
       = Some (default {| g_columns := status_history_columns; g_rows := [];
                          g_seq := 0 |}
                 (db s1 !! "status_history"))
    /\ (forall n, n <> "masters" -> n <> "status_history" -> db s' !! n = db s1 !! n)
    /\ exists rest, out s' = out s1 ++ rest.
Proof.
  intros H. unfold check_and_update_tables, bind.
  unfold print at 1. unfold modify. rewrite H.
  destruct (ensure_table_result "masters" masters_columns CreatingMasters s1)
    as (s2 & -> & M2 & D2 & r2 & O2).
  destruct (ensure_table_result "status_history" status_history_columns
              CreatingStatusHistory s2) as (s3 & -> & M3 & D3 & r3 & O3).
  exists s3. split; [done|].
  split; [by rewrite D3, M2|].
  split; [by rewrite M3, D2|].
  split; [intros n H1 H2; by rewrite D3, D2|].
  exists (r2 ++ r3). by rewrite O3, O2, <- app_assoc.
Qed.


End MigrationMore.

(** check_and_update_tables of App.py never raises on a database of tables.
    Afterwards masters and status_history exist: the tables found are left
    as they were, a missing one is created empty. No table but comments,
    comments_new and these two is touched, and a comments table that has the
    seven required columns is left as it was, as is comments_new beside it. *)
Theorem check_and_update_tables_total now s :
  exists s',
    Migration.check_and_update_tables now s = (inr tt, s')
    /\ Migration.db s' !! "masters"
       = Some (default {| Migration.g_columns := Migration.masters_columns;
                          Migration.g_rows := []; Migration.g_seq := 0 |}
                 (Migration.db s !! "masters"))
    /\ Migration.db s' !! "status_history"
       = Some (default {| Migration.g_columns := Migration.status_history_columns;
                          Migration.g_rows := []; Migration.g_seq := 0 |}
                 (Migration.db s !! "status_history"))
    /\ (forall n,
          ~ In n ["comments"; "comments_new"; "masters"; "status_history"] ->
          Migration.db s' !! n = Migration.db s !! n)
    /\ (MigrationSpec.missing_columns s = [] ->
        Migration.db s' !! "comments" = Migration.db s !! "comments"
        /\ Migration.db s' !! "comments_new" = Migration.db s !! "comments_new").
Proof.
  destruct (MigrationMore.repair_comments_run now
              {| Migration.db := Migration.db s;
                 Migration.out := Migration.out s ++ [Migration.Checking] |})
    as (s1 & E & D & Hs).
  destruct (MigrationMore.check_after_repair now s s1 E)
    as (s' & -> & M & H & O & _).
  cbn [Migration.db] in D.
  exists s'. split; [done|].
  split; [by rewrite M, D|]. split; [by rewrite H, D|].
  split.
  - intros n Hn. rewrite O, D; [done| | | |]; intros ->; apply Hn; cbn; tauto.
  - intros Hm. rewrite !O by done.
    rewrite (Hs Hm). done.
Qed.

Lemma check_and_update_tables_total_sample :
  let s := (Migration.check_and_update_tables Samples.clock Samples.legacy_store).2 in
  exists s',
    Migration.check_and_update_tables Samples.clock s = (inr tt, s')
    /\ Migration.db s' !! "comments" = Migration.db s !! "comments".
Proof.
  cbv zeta.
  destruct (check_and_update_tables_total Samples.clock
              (Migration.check_and_update_tables Samples.clock Samples.legacy_store).2)
    as (s' & E & _ & _ & _ & H).
  exists s'. split; [exact E|]. apply H. vm_compute. reflexivity.
Defined.

(** check_and_update_tables of App.py does not create a comments table: on
    a database without one it finds all seven columns missing, the copy
    fails on the missing table, comments_new is dropped again, and the
    database still has no comments table although the last line printed by
    the comments part announces a new one. *)
Theorem missing_comments_table_stays_missing now s :
  Migration.db s !! "comments" = None ->
  exists s' rest,
    Migration.check_and_update_tables now s = (inr tt, s')
    /\ Migration.db s' !! "comments" = None
    /\ Migration.db s' !! "comments_new" = None
    /\ Migration.out s'
       = Migration.out s
         ++ [ Migration.Checking;
              Migration.MissingColumns Migration.required_columns;
              Migration.FixingComments;
              Migration.CommentsUpdateError (OperationalError "no such table");
              Migration.NewCommentsCreated ]
         ++ rest.
Proof.
  intros Hc.
  set (p := {| Migration.db := Migration.db s;
               Migration.out := Migration.out s ++ [Migration.Checking] |}).
  assert (Hm : MigrationSpec.missing_columns p = Migration.required_columns).
  { unfold MigrationSpec.missing_columns, p. cbn [Migration.db]. by rewrite Hc. }
  assert (Hcopy : Migration.copy_and_swap now (MigrationSpec.prepared p)
                  = (inl (OperationalError "no such table"), MigrationSpec.prepared p)).
  { unfold Migration.copy_and_swap, bind, Migration.table_info.
    assert (Hp : Migration.db (MigrationSpec.prepared p) !! "comments" = None).
    { unfold MigrationSpec.prepared, p. cbn [Migration.db].
      destruct (Migration.db s !! "comments_new"); [done|].
      by rewrite lookup_insert_ne. }
    rewrite Hp. cbn. unfold Migration.select. by rewrite Hp. }
  assert (Hne : MigrationSpec.missing_columns p <> []) by by rewrite Hm.
  destruct (MigrationFacts.repair_comments_failed _ _ _ _ Hne Hcopy)
    as (s1 & E & O & C & N & _ & _).
  destruct (MigrationMore.check_after_repair now s s1 E)
    as (s' & -> & _ & _ & D & rest & O').
  exists s', rest. split; [done|].
  split; [rewrite D, C by done; exact Hc|].
  split; [by rewrite D|].
  rewrite O', O, Hm. unfold p. cbn [Migration.out].
  by rewrite <- !app_assoc.
Qed.

Lemma missing_comments_table_stays_missing_sample :
  exists s' rest,
    Migration.check_and_update_tables Samples.clock
      {| Migration.db := ∅; Migration.out := [] |} = (inr tt, s')
    /\ Migration.db s' !! "comments" = None
    /\ Migration.db s' !! "comments_new" = None
    /\ Migration.out s'
       = [ Migration.Checking;
           Migration.MissingColumns Migration.required_columns;
           Migration.FixingComments;
           Migration.CommentsUpdateError (OperationalError "no such table");
           Migration.NewCommentsCreated ]
         ++ rest.
Proof.
  apply (missing_comments_table_stays_missing Samples.clock
           {| Migration.db := ∅; Migration.out := [] |}).
  reflexivity.
Defined.



(** load_requests_from_xlsx of App.py never raises, whatever the files. It
    keeps the request identifiers of service_requests distinct, since every
    row is stored with INSERT OR REPLACE, loses no identifier that was in
    the table, and writes to no other table. *)
Theorem load_requests_keeps_identifiers now combined_file requests_file s :
  NoDup (AppSpec.request_ids (App.db s)) ->
  exists s',
    App.load_requests_from_xlsx now combined_file requests_file s = (inr tt, s')
    /\ NoDup (AppSpec.request_ids (App.db s'))
    /\ incl (AppSpec.request_ids (App.db s)) (AppSpec.request_ids (App.db s'))
    /\ App.users (App.db s') = App.users (App.db s)
    /\ App.masters (App.db s') = App.masters (App.db s)
    /\ App.comments (App.db s') = App.comments (App.db s)
    /\ App.status_history (App.db s') = App.status_history (App.db s).
Proof.
  intros Hn. unfold App.load_requests_from_xlsx, try_except. cbv zeta.
  destruct (match combined_file with Missing => requests_file | f => f end)
    as [|e|df].
  - eexists. split; [reflexivity|]. cbn. split; [done|].
    split; [apply incl_refl|]. done.
  - eexists. split; [reflexivity|]. cbn. split; [done|].
    split; [apply incl_refl|]. done.
  - unfold bind, App.print, modify, iterrows.
    match goal with
    | |- context [for_each _ _ ?p] =>
        destruct (AppMore.load_request_rows_keep now df (df_rows df) 0 p)
          as (s1 & -> & N1 & I1 & U1 & M1 & C1 & H1)
    end.
    eexists. split; [reflexivity|]. cbn [App.db] in *.
    split; [auto|]. split; [done|]. done.
Qed.

Lemma load_requests_keeps_identifiers_sample :
  exists s',
    App.load_requests_from_xlsx Samples.clock Missing
      (Samples.sheet [ Samples.request_row 1 "2023-06-06" NaN NaN 6;
                       Samples.request_row 1 "2023-07-01" NaN NaN 6 ])
      {| App.db := Samples.loaded; App.out := [] |} = (inr tt, s')
    /\ NoDup (AppSpec.request_ids (App.db s'))
    /\ incl (AppSpec.request_ids Samples.loaded) (AppSpec.request_ids (App.db s'))
    /\ App.users (App.db s') = App.users Samples.loaded
    /\ App.masters (App.db s') = App.masters Samples.loaded
    /\ App.comments (App.db s') = App.comments Samples.loaded
    /\ App.status_history (App.db s') = App.status_history Samples.loaded.
Proof.
  apply (load_requests_keeps_identifiers Samples.clock Missing
           (Samples.sheet [ Samples.request_row 1 "2023-06-06" NaN NaN 6;
                            Samples.request_row 1 "2023-07-01" NaN NaN 6 ])
           {| App.db := Samples.loaded; App.out := [] |}).
  vm_compute. apply NoDup_singleton.
Defined.

(** A request created through POST /api/requests of App.py can be fetched:
    GET /api/requests/<id> with the identifier of the new request returns
    exactly the row that was appended, and for every other identifier it
    answers as it did before the request was created. *)
Theorem created_request_can_be_fetched now sess data s :
  let w := App.create_request now sess data s in
  App.success w.1 = true ->
  exists r,
    rows (App.service_requests w.2) = rows (App.service_requests s) ++ [r]
    /\ App.get_request (App.r_request_id r) w.2 = Some r
    /\ (forall id, id <> App.r_request_id r ->
                   App.get_request id w.2 = App.get_request id s).
Proof.
  cbv zeta. unfold App.create_request.
  destruct (App.user_id sess) as [uid|]; [|discriminate].
  destruct (AppMore.create_request_body_run now sess data s)
    as [(Hc & r & E & Hid & _)|(Hc & e & E)]; rewrite E; cbn; [|discriminate].
  intros _. exists r. split; [done|]. unfold App.get_request. cbn.
  split.
  - rewrite AppMore.find_snoc, Z.eqb_refl.
    destruct (List.find _ _) as [y|] eqn:F; [|done].
    apply find_some in F as [Hin F]. apply Z.eqb_eq in F.
    pose proof (AppMore.new_request_id_above s y Hin). lia.
  - intros id Hne. rewrite AppMore.find_snoc.
    destruct (List.find _ _); [done|].
    destruct (App.r_request_id r =? id) eqn:F; [|done].
    apply Z.eqb_eq in F. congruence.
Qed.

Lemma created_request_can_be_fetched_sample :
  let data := {| App.rd_tech_type := Some (Some "Фен");
                 App.rd_tech_model := Some (Some "X100");
                 App.rd_problem_description := Some (Some "Не греет");
                 App.rd_request_status := None;
                 App.rd_client_fio := Some (Some "Клиент 1");
                 App.rd_client_phone := Some (Some "89151234567") |} in
  let w := App.create_request Samples.clock Samples.manager data Samples.loaded in
  exists r,
    rows (App.service_requests w.2) = rows (App.service_requests Samples.loaded) ++ [r]
    /\ App.get_request (App.r_request_id r) w.2 = Some r
    /\ (forall id, id <> App.r_request_id r ->
                   App.get_request id w.2 = App.get_request id Samples.loaded).
Proof.
  apply (created_request_can_be_fetched Samples.clock Samples.manager
           {| App.rd_tech_type := Some (Some "Фен");
              App.rd_tech_model := Some (Some "X100");
              App.rd_problem_description := Some (Some "Не греет");
              App.rd_request_status := None;
              App.rd_client_fio := Some (Some "Клиент 1");
              App.rd_client_phone := Some (Some "89151234567") |}
           Samples.loaded).
  vm_compute. reflexivity.
Defined.
